(** * BackupCTL: the backup/restore orchestration core, embedded and verified

    A shallow embedding of the Python sources under [backupctl/]:
    - [utils/crypto.py]     checksums, compression and encryption of files,
    - [utils/s3_client.py]  the object store gateway,
    - [utils/metadata.py]   the metadata ledger (three PostgreSQL tables),
    - [core/backup.py]      full and incremental backup,
    - [core/restore.py]     point-in-time restore,
    - [cli.py]              the [prune] command,
    - [utils/config.py]     the lookup and the validation of the configuration,
    - [utils/logger.py]     the size limit of the log file.

    Stateful code is written in a state-and-exception monad over a [World]
    (local files, the remote bucket, the ledger tables, the log, the
    external tools that were started).  Everything the environment decides
    (does the backing store execute a statement, does a transfer raise,
    what does an external tool return) is an explicit input of the function
    that asks for it.

    Conventions of the embedding:
    - strings are byte strings; names, keys and check sums are ASCII, and
      [str.lower] is its ASCII restriction;
    - [logger.error] and [logger.warning] calls are kept (the log is part
      of the [World]); [logger.info] and [logger.debug] lines are dropped;
    - a Python exception is represented by its message, [str(e)]: no
      handler of the modelled code dispatches on the exception class;
    - the values written to the ledger are those of the callers' types (text
      for a text column, a [datetime] for a time stamp, an integer for a
      number) and, for a [VARCHAR(n)] column, within its length; a time
      stamp is kept as the [datetime] that was written, which is the instant
      the store returns (the store expresses it in the time zone of the
      session). *)

From Stdlib Require Import ZArith List String Ascii Bool Lia DecimalString.
From Stdlib Require Import Sorting.Sorted Sorting.Permutation.
From stdpp Require Import base option list gmap strings sorting.

Open Scope string_scope.
Open Scope Z_scope.

(** ** Python strings *)

Module Py.

Definition code (c : ascii) : N := N_of_ascii c.

Definition between (lo hi : N) (c : ascii) : bool :=
  ((lo <=? code c) && (code c <=? hi))%N.

Definition is_upper (c : ascii) : bool := between 65 90 c.
Definition is_lower (c : ascii) : bool := between 97 122 c.

(** [str.lower()], one character. *)
Definition lower_char (c : ascii) : ascii :=
  if is_upper c then ascii_of_N (code c + 32) else c.

(** [str.lower()]. *)
Fixpoint lower (s : string) : string :=
  match s with
  | EmptyString => EmptyString
  | String c r => String (lower_char c) (lower r)
  end.

(** [a == b] on [str]. *)
Definition str_eq (a b : string) : bool := String.eqb a b.

(** Truth value of an optional string: [None] and [''] are false. *)
Definition truthy (o : option string) : bool :=
  match o with
  | None => false
  | Some s => negb (String.eqb s "")
  end.

(** [o or default] for an optional string. *)
Definition or_default (o : option string) (d : string) : string :=
  match o with
  | Some s => if String.eqb s "" then d else s
  | None => d
  end.

(** [s.startswith(p)] and [s.endswith(p)]. *)
Definition startswith (s p : string) : bool := String.prefix p s.

Fixpoint rev_string (s acc : string) : string :=
  match s with
  | EmptyString => acc
  | String c r => rev_string r (String c acc)
  end.

Definition endswith (s p : string) : bool :=
  String.prefix (rev_string p "") (rev_string s "").

(** [s.split('.')[0]]: everything before the first dot. *)
Fixpoint before_dot (s : string) : string :=
  match s with
  | EmptyString => EmptyString
  | String c r => if Ascii.eqb c "." then EmptyString else String c (before_dot r)
  end.

(** [os.path.basename(p)]: everything after the last slash. *)
Fixpoint basename_acc (s cur : string) : string :=
  match s with
  | EmptyString => rev_string cur ""
  | String c r =>
      if Ascii.eqb c "/" then basename_acc r "" else basename_acc r (String c cur)
  end.

Definition basename (p : string) : string := basename_acc p "".

(** [os.path.join(a, b)] for a relative [b]. *)
Definition path_join (a b : string) : string :=
  if String.eqb a "" then b
  else if endswith a "/" then a ++ b
  else a ++ "/" ++ b.

(** [s[:-3]]. *)
Definition drop_last3 (s : string) : string :=
  String.substring 0 (String.length s - 3) s.

(** [str(n)] for a natural number. *)
Definition str_nat (n : nat) : string :=
  NilZero.string_of_uint (Nat.to_uint n).

(** *** [int(s, 16)]

    Leading and trailing white space is stripped, one sign is accepted, then
    an optional [0x]/[0X] prefix, then hexadecimal digits in which single
    underscores may separate digits (one may also follow the prefix).
    [None] stands for [ValueError]. *)

Definition is_space (c : ascii) : bool :=
  between 9 13 c || between 28 32 c.

Fixpoint lstrip (s : string) : string :=
  match s with
  | EmptyString => EmptyString
  | String c r => if is_space c then lstrip r else s
  end.

Definition strip (s : string) : string :=
  rev_string (lstrip (rev_string (lstrip s) "")) "".

Definition hex_value (c : ascii) : option Z :=
  if between 48 57 c then Some (Z.of_N (code c) - 48)
  else if between 65 70 c then Some (Z.of_N (code c) - 55)
  else if between 97 102 c then Some (Z.of_N (code c) - 87)
  else None.

(** Digits after the first position; [after_us] tells that the previous
    character was an underscore, which must be followed by a digit. *)
Fixpoint hex_digits (acc : Z) (after_us : bool) (s : string) : option Z :=
  match s with
  | EmptyString => if after_us then None else Some acc
  | String c r =>
      if Ascii.eqb c "_" then
        if after_us then None else hex_digits acc true r
      else
        match hex_value c with
        | Some d => hex_digits (16 * acc + d) false r
        | None => None
        end
  end.

Definition hex_number (s : string) : option Z :=
  match s with
  | EmptyString => None
  | String c _ => if Ascii.eqb c "_" then None else hex_digits 0 false s
  end.

Definition skip_0x (s : string) : string :=
  match s with
  | String "0" (String c r) =>
      if Ascii.eqb c "x" || Ascii.eqb c "X" then
        match r with
        | String "_" r' => r'
        | _ => r
        end
      else s
  | _ => s
  end.

Definition int16 (s : string) : option Z :=
  match strip s with
  | String "+" r => hex_number (skip_0x r)
  | String "-" r => option_map Z.opp (hex_number (skip_0x r))
  | t => hex_number (skip_0x t)
  end.

End Py.

(** ** Dates

    A [datetime] carries its calendar reading in microseconds ([wall]) and,
    when it is time-zone aware, its offset from UTC. *)

Record datetime := { wall : Z; utcoffset : option Z }.

Definition microseconds_per_day : Z := 86400000000.

(** [d.replace(tzinfo=None)]. *)
Definition replace_tzinfo_None (d : datetime) : datetime :=
  {| wall := wall d; utcoffset := None |}.

(** [(a - b)] as a number of microseconds; [None] is the [TypeError] raised
    when one operand is aware and the other is not. *)
Definition dt_sub (a b : datetime) : option Z :=
  match utcoffset a, utcoffset b with
  | None, None => Some (wall a - wall b)
  | Some oa, Some ob => Some ((wall a - oa) - (wall b - ob))
  | _, _ => None
  end.

(** [timedelta.days]: whole days, rounded towards minus infinity. *)
Definition days (delta : Z) : Z := delta / microseconds_per_day.

(** [a > b]; [None] is the [TypeError] of a mixed comparison. *)
Definition dt_gt (a b : datetime) : option bool :=
  match dt_sub a b with
  | Some d => Some (0 <? d)
  | None => None
  end.

(** ** The ledger tables ([MetadataManager._initialize_schema])

    One record type per table; a nullable column is an [option].  The
    [SERIAL] keys and the [created_at]/[updated_at] stamps, which no code
    reads, are left out. *)

Inductive json :=
| JString (s : string)
| JInt (n : Z)
| JList (l : list string).

Module backup_metadata.
Record row := {
  backup_id : string;
  backup_type : string;
  status : string;
  start_ts : datetime;
  end_ts : option datetime;
  size_bytes : option Z;
  s3_key : option string;
  s3_bucket : option string;
  checksum : option string;
  compression : option string;
  encryption : option string;
  label : option string;
  description : option string;
  metadata_json : option (list (string * json))
}.
End backup_metadata.

Module wal_metadata.
Record row := {
  wal_name : string;
  backup_id : option string;
  start_ts : datetime;
  end_ts : datetime;
  size_bytes : option Z;
  s3_key : option string;
  checksum : option string;
  sequence_number : option Z
}.
End wal_metadata.

Module restore_operations.
Record row := {
  restore_id : string;
  backup_id : option string;
  target_time : option datetime;
  target_xid : option string;
  target_lsn : option string;
  status : string;
  start_ts : datetime;
  end_ts : option datetime;
  destination_path : option string;
  error_message : option string
}.
End restore_operations.

Record Ledger := {
  backups : list backup_metadata.row;
  wals : list wal_metadata.row;
  restores : list restore_operations.row
}.

(** ** The remote bucket and the local files *)

Definition bytes := list Byte.byte.

Record s3_object := {
  body : bytes;
  Metadata : gmap string string;
  ServerSideEncryption : option string;
  SSEKMSKeyId : option string
}.

Inductive level := WARNING | ERROR.

Record World := {
  files : gmap string bytes;
  bucket : gmap string s3_object;
  ledger : Ledger;
  log : list (level * string);
  procs : list (list string)
}.

Definition set_files (f : gmap string bytes) (w : World) : World :=
  {| files := f; bucket := bucket w; ledger := ledger w; log := log w; procs := procs w |}.
Definition set_bucket (b : gmap string s3_object) (w : World) : World :=
  {| files := files w; bucket := b; ledger := ledger w; log := log w; procs := procs w |}.
Definition set_ledger (l : Ledger) (w : World) : World :=
  {| files := files w; bucket := bucket w; ledger := l; log := log w; procs := procs w |}.
Definition set_log (l : list (level * string)) (w : World) : World :=
  {| files := files w; bucket := bucket w; ledger := ledger w; log := l; procs := procs w |}.
Definition set_procs (p : list (list string)) (w : World) : World :=
  {| files := files w; bucket := bucket w; ledger := ledger w; log := log w; procs := p |}.

(** ** Computations: state plus exceptions *)

Definition exn := string.

Inductive result (A : Type) :=
| Return (a : A)
| Raise (e : exn).
Arguments Return {A} a.
Arguments Raise {A} e.

Definition M (A : Type) : Type := World -> result A * World.

Definition ret {A} (a : A) : M A := fun w => (Return a, w).

Definition raise {A} (e : exn) : M A := fun w => (Raise e, w).

Definition bind {A B} (m : M A) (k : A -> M B) : M B :=
  fun w =>
    match m w with
    | (Return a, w') => k a w'
    | (Raise e, w') => (Raise e, w')
    end.

Declare Scope py_scope.
Delimit Scope py_scope with py.
Notation "x <- m ;; k" := (bind m (fun x => k))
  (at level 100, m at next level, right associativity) : py_scope.
Notation "m ;; k" := (bind m (fun _ => k))
  (at level 100, right associativity) : py_scope.
Open Scope py_scope.

(** [try: body  except Exception as e: handler e]. *)
Definition try_except {A} (body : M A) (handler : exn -> M A) : M A :=
  fun w =>
    match body w with
    | (Return a, w') => (Return a, w')
    | (Raise e, w') => handler e w'
    end.

(** [try: body  finally: fin]; an exception of [fin] replaces the outcome. *)
Definition try_finally {A} (body : M A) (fin : M unit) : M A :=
  fun w =>
    match body w with
    | (r, w') =>
        match fin w' with
        | (Return _, w'') => (r, w'')
        | (Raise e, w'') => (Raise e, w'')
        end
    end.

Definition get_world : M World := fun w => (Return w, w).
Definition modify (f : World -> World) : M unit := fun w => (Return tt, f w).

Definition logger_error (msg : string) : M unit :=
  modify (fun w => set_log (log w ++ [(ERROR, msg)])%list w).
Definition logger_warning (msg : string) : M unit :=
  modify (fun w => set_log (log w ++ [(WARNING, msg)])%list w).

(** [subprocess.run(cmd, ...)]: the command is started and the environment
    answers with an exit status, with [TimeoutExpired], or with another
    exception (a missing executable, say). *)
Inductive proc_outcome :=
| Exited (returncode : Z) (stdout stderr : string)
| TimeoutExpired
| ProcRaises (msg : string).

Definition subprocess_run (cmd : list string) (out : proc_outcome)
  : M proc_outcome :=
  modify (fun w => set_procs (procs w ++ [cmd])%list w) ;;
  ret out.

(** [os.remove(path)]. *)
Definition os_remove (path : string) : M unit :=
  fun w =>
    match files w !! path with
    | Some _ => (Return tt, set_files (delete path (files w)) w)
    | None => (Raise ("[Errno 2] No such file or directory: '" ++ path ++ "'"), w)
    end.

(** ** [utils/crypto.py] *)

(** A hash algorithm of [hashlib]: what [hexdigest()] prints for the bytes
    that were fed to [update], always in lower-case hexadecimal. *)
Class HashAlgorithm := {
  digest_hex : bytes -> string;
  digest_hex_lower : forall b, Py.lower (digest_hex b) = digest_hex b
}.

Section Crypto.
Context {sha256 : HashAlgorithm}.

(** The hash object: the bytes passed to [update] so far. *)
Record hash_object := { fed : bytes }.
Definition hash_new : hash_object := {| fed := [] |}.
Definition hash_update (h : hash_object) (chunk : bytes) : hash_object :=
  {| fed := (fed h ++ chunk)%list |}.
Definition hexdigest (h : hash_object) : string := digest_hex (fed h).

(** [for chunk in iter(lambda: f.read(4096), b""): hash_func.update(chunk)].
    Each turn consumes at least one byte, so [length rest] turns suffice. *)
Fixpoint read_chunks (fuel : nat) (rest : bytes) (h : hash_object) : hash_object :=
  match fuel with
  | O => h
  | S fuel' =>
      match firstn 4096%nat rest with
      | [] => h
      | chunk => read_chunks fuel' (skipn 4096%nat rest) (hash_update h chunk)
      end
  end.

Definition open_rb (file_path : string) : M bytes :=
  fun w =>
    match files w !! file_path with
    | Some content => (Return content, w)
    | None =>
        (Raise ("[Errno 2] No such file or directory: '" ++ file_path ++ "'"), w)
    end.

Definition calculate_checksum (file_path : string) : M string :=
  content <- open_rb file_path ;;
  ret (hexdigest (read_chunks (length content) content hash_new)).

Definition verify_checksum (file_path expected_checksum : string) : M bool :=
  actual_checksum <- calculate_checksum file_path ;;
  ret (Py.str_eq (Py.lower actual_checksum) (Py.lower expected_checksum)).

(** [compress_file] and [decompress_file] call [gzip].  What gzip does with
    the bytes it reads is given by the caller: it writes its whole output,
    or it raises.  Both functions open their input first and their output
    next, so when gzip raises the output file is left with what had been
    written to it ([left = Some b]; [b] is empty for an input that is not
    gzip data), unless it could not be opened at all ([left = None]).  The
    exception is printed, not logged, and [False] is returned. *)
Inductive gzip_outcome :=
| GzipWrites (output : bytes)
| GzipRaises (left : option bytes).

Definition compress_file (gz : bytes -> gzip_outcome)
    (input_path output_path : string) : M bool :=
  fun w =>
    match files w !! input_path with
    | Some content =>
        match gz content with
        | GzipWrites packed =>
            (Return true, set_files (<[output_path := packed]> (files w)) w)
        | GzipRaises (Some written) =>
            (Return false, set_files (<[output_path := written]> (files w)) w)
        | GzipRaises None => (Return false, w)
        end
    | None => (Return false, w)
    end.

Definition decompress_file (gunzip : bytes -> gzip_outcome)
    (input_path output_path : string) : M bool :=
  fun w =>
    match files w !! input_path with
    | Some packed =>
        match gunzip packed with
        | GzipWrites content =>
            (Return true, set_files (<[output_path := content]> (files w)) w)
        | GzipRaises (Some written) =>
            (Return false, set_files (<[output_path := written]> (files w)) w)
        | GzipRaises None => (Return false, w)
        end
    | None => (Return false, w)
    end.

End Crypto.

(** ** [utils/s3_client.py] *)

(** What the transport does during one gateway call. *)
Inductive put_outcome :=
| PutStores (stored : bytes)
| PutRaises (msg : string).

Inductive net_outcome :=
| NetOk
| NetRaises (msg : string).

Record transfer := {
  utcnow_ymd : string;
  utcnow_iso : string;
  net_put : put_outcome;
  net_head : net_outcome;
  net_get : net_outcome
}.

Record S3Client := {
  config : gmap string string;
  bucket_name : option string;
  prefix : string
}.

(** [S3Client.__init__]. *)
Definition S3Client_init (config : gmap string string) : S3Client :=
  {| config := config;
     bucket_name := config !! "bucket";
     prefix := default "backups" (config !! "prefix") |}.

Definition no_such_key (s3_key : string) : exn :=
  "An error occurred (404): Not Found: " ++ s3_key.

(** [client.upload_file(local_path, bucket, key, ExtraArgs=...)]: the
    transfer raises, or an object now sits under the key. *)
Definition client_upload_file (net : transfer) (s3_key : string)
    (metadata : gmap string string) (sse kms : option string) : M unit :=
  fun w =>
    match net_put net with
    | PutRaises msg => (Raise msg, w)
    | PutStores stored =>
        let obj := {| body := stored; Metadata := metadata;
                      ServerSideEncryption := sse; SSEKMSKeyId := kms |} in
        (Return tt, set_bucket (<[s3_key := obj]> (bucket w)) w)
    end.

(** [client.head_object(Bucket=..., Key=...)]. *)
Definition client_head_object (net : transfer) (s3_key : string)
  : M (gmap string string) :=
  fun w =>
    match net_head net with
    | NetRaises msg => (Raise msg, w)
    | NetOk =>
        match bucket w !! s3_key with
        | Some obj => (Return (Metadata obj), w)
        | None => (Raise (no_such_key s3_key), w)
        end
    end.

(** [client.download_file(bucket, key, local_path)]: raises, or the stored
    bytes are written to the local path. *)
Definition client_download_file (net : transfer) (s3_key local_path : string)
  : M unit :=
  fun w =>
    match net_get net with
    | NetRaises msg => (Raise msg, w)
    | NetOk =>
        match bucket w !! s3_key with
        | Some obj => (Return tt, set_files (<[local_path := body obj]> (files w)) w)
        | None => (Raise (no_such_key s3_key), w)
        end
    end.

(** [client.delete_object(Bucket=..., Key=...)]; deleting an absent key is
    not an error. *)
Definition client_delete_object (net : net_outcome) (s3_key : string) : M unit :=
  fun w =>
    match net with
    | NetRaises msg => (Raise msg, w)
    | NetOk => (Return tt, set_bucket (delete s3_key (bucket w)) w)
    end.

Section S3.
Context {sha256 : HashAlgorithm}.

Definition _get_s3_key (self : S3Client) (net : transfer)
    (backup_type filename : string) : string :=
  prefix self ++ "/" ++ backup_type ++ "/" ++ utcnow_ymd net ++ "/" ++ filename.

Definition integrity_failure : string := "Falha na verificação de integridade".

Definition _verify_upload (self : S3Client) (net : transfer)
    (local_path s3_key expected_checksum : string) : M bool :=
  try_except
    (let temp_path := local_path ++ ".verify" in
     client_download_file net s3_key temp_path ;;
     is_valid <- verify_checksum temp_path expected_checksum ;;
     os_remove temp_path ;;
     ret is_valid)
    (fun e =>
       logger_error ("Erro na verificação de upload: " ++ e) ;;
       ret false).

(** The [Metadata] entry of [extra_args]. *)
Definition upload_metadata (net : transfer)
    (filename local_checksum backup_type : string) : gmap string string :=
  <["original-filename" := filename]>
    (<["checksum" := local_checksum]>
       (<["upload-timestamp" := utcnow_iso net]>
          (<["backup-type" := backup_type]> ∅))).

(** The [ServerSideEncryption] and [SSEKMSKeyId] entries of [extra_args]. *)
Definition encryption_args (self : S3Client) : option string * option string :=
  let encryption := default "SSE-S3" (config self !! "encryption") in
  if String.eqb encryption "SSE-KMS" then
    match config self !! "kms_key_id" with
    | Some k => if String.eqb k "" then (None, None) else (Some "aws:kms", Some k)
    | None => (None, None)
    end
  else if String.eqb encryption "SSE-S3" then (Some "AES256", None)
  else (None, None).

Definition upload_file (self : S3Client) (net : transfer)
    (local_path backup_type : string) (filename : option string)
  : M (bool * string) :=
  try_except
    (let filename :=
       if Py.truthy filename then default "" filename else Py.basename local_path in
     let s3_key := _get_s3_key self net backup_type filename in
     local_checksum <- calculate_checksum local_path ;;
     let metadata := upload_metadata net filename local_checksum backup_type in
     let '(sse, kms) := encryption_args self in
     client_upload_file net s3_key metadata sse kms ;;
     ok <- _verify_upload self net local_path s3_key local_checksum ;;
     if ok : bool then ret (true, s3_key)
     else
       logger_error ("Verificação de integridade falhou para " ++ s3_key) ;;
       ret (false, integrity_failure))
    (fun e =>
       logger_error ("Erro no upload para S3: " ++ e) ;;
       ret (false, e)).

Definition download_file (self : S3Client) (net : transfer)
    (s3_key local_path : string) : M (bool * string) :=
  try_except
    (metadata <- client_head_object net s3_key ;;
     let expected_checksum := metadata !! "checksum" in
     client_download_file net s3_key local_path ;;
     if Py.truthy expected_checksum then
       ok <- verify_checksum local_path (default "" expected_checksum) ;;
       if ok : bool then ret (true, "Download concluído com sucesso")
       else
         logger_error ("Checksum inválido para " ++ local_path) ;;
         os_remove local_path ;;
         ret (false, "Checksum inválido")
     else
       logger_warning ("Sem checksum para verificação: " ++ s3_key) ;;
       ret (true, "Download concluído (sem verificação)"))
    (fun e =>
       logger_error ("Erro no download do S3: " ++ e) ;;
       ret (false, e)).

Definition delete_file (self : S3Client) (net : net_outcome) (s3_key : string)
  : M bool :=
  try_except
    (client_delete_object net s3_key ;;
     ret true)
    (fun e =>
       logger_error ("Erro ao remover arquivo " ++ s3_key ++ ": " ++ e) ;;
       ret false).

End S3.

(** ** [utils/metadata.py]: the ledger

    Every method has the same frame:
    [try: conn = self._get_connection(); cursor = conn.cursor(); ...
     except Exception as e: ...  finally: if cursor: cursor.close()].
    What the connection does during one call is given by the caller of the
    method ([db_call]):
    - [Statement o]: the connection is open and stays usable; the statement
      is executed and committed ([Executes]) or raises ([DbRaises]), and
      [conn.rollback()] works;
    - [ConnectionLost msg rollback_msg]: the connection is open but the
      server is gone; what is sent to it raises [msg], and [conn.rollback()]
      raises [rollback_msg] (psycopg2 says [connection already closed] once
      it has seen the loss).  A call in which nothing reaches the wire, for
      want of a statement to send and of a transaction to roll back, is a
      call of the first kind;
    - [Unreachable msg]: an earlier call has lost the connection and
      [psycopg2.connect] raises [msg]; [_get_connection] logs and raises
      again, so the locals [conn] and [cursor] are never bound, and the
      handlers and the [finally] clause that read them raise
      [UnboundLocalError].
    A statement that is executed is still refused when it breaks a
    constraint of the schema that the code declares: [NOT NULL], [UNIQUE] on
    [backup_metadata.backup_id] and on [restore_operations.restore_id], the
    range of a [BIGINT], and the two [REFERENCES backup_metadata(backup_id)]. *)

Inductive db_outcome :=
| Executes
| DbRaises (msg : string).

Inductive db_call :=
| Statement (o : db_outcome)
| ConnectionLost (msg rollback_msg : string)
| Unreachable (msg : string).

Coercion Statement : db_outcome >-> db_call.

(** The dictionaries that the orchestrators pass to [create_backup_record]
    and [create_restore_record].  An entry is [None] when the dictionary
    has no such key, [Some None] when the key is there with the value
    [None], and [Some (Some v)] when it is there with the value [v]; the
    value of [metadata_json], where there is one, is a [dict]. *)
Module backup_data.
Record t := {
  backup_id : option (option string);
  backup_type : option (option string);
  status : option (option string);
  start_ts : option (option datetime);
  end_ts : option (option datetime);
  size_bytes : option (option Z);
  s3_key : option (option string);
  s3_bucket : option (option string);
  checksum : option (option string);
  compression : option (option string);
  encryption : option (option string);
  label : option (option string);
  description : option (option string);
  metadata_json : option (option (list (string * json)))
}.
End backup_data.

Module restore_data.
Record t := {
  restore_id : option (option string);
  backup_id : option (option string);
  target_time : option (option datetime);
  target_xid : option (option string);
  target_lsn : option (option string);
  status : option (option string);
  start_ts : option (option datetime);
  destination_path : option (option string)
}.
End restore_data.

(** The values of the placeholders of the two statements, once psycopg2 has
    looked them up: [None] is [NULL]. *)
Module backup_values.
Record t := {
  backup_id : option string;
  backup_type : option string;
  status : option string;
  start_ts : option datetime;
  end_ts : option datetime;
  size_bytes : option Z;
  s3_key : option string;
  s3_bucket : option string;
  checksum : option string;
  compression : option string;
  encryption : option string;
  label : option string;
  description : option string
}.
End backup_values.

Module restore_values.
Record t := {
  restore_id : option string;
  backup_id : option string;
  target_time : option datetime;
  target_xid : option string;
  target_lsn : option string;
  status : option string;
  start_ts : option datetime;
  destination_path : option string
}.
End restore_values.

Module MetadataManager.

(** *** The frame of the methods *)

(** [UnboundLocalError], as Python 3.11 words it. *)
Definition unbound_local (name : string) : exn :=
  "cannot access local variable '" ++ name
    ++ "' where it is not associated with a value".

Definition _get_connection (db : db_call) : M unit :=
  match db with
  | Unreachable msg =>
      logger_error ("Erro ao conectar ao PostgreSQL: " ++ msg) ;;
      raise msg
  | _ => ret tt
  end.

(** [cursor.execute(...)] with the [fetch] and the [conn.commit()] that
    follow it; [run] is what the statement does to the tables when it is
    executed. *)
Definition execute {A} (db : db_call) (run : M A) : M A :=
  match db with
  | Statement Executes => run
  | Statement (DbRaises msg) => raise msg
  | ConnectionLost msg _ => raise msg
  | Unreachable msg => raise msg (* not reached: [_get_connection] has raised *)
  end.

(** [if conn: conn.rollback()], in a handler. *)
Definition rollback (db : db_call) : M unit :=
  match db with
  | Statement _ => ret tt
  | ConnectionLost _ rollback_msg => raise rollback_msg
  | Unreachable _ => raise (unbound_local "conn")
  end.

(** [if cursor: cursor.close()], in the [finally] clause. *)
Definition close_cursor (db : db_call) : M unit :=
  match db with
  | Unreachable _ => raise (unbound_local "cursor")
  | _ => ret tt
  end.

(** *** The arguments of a statement with named placeholders

    psycopg2 goes through the placeholders of the statement in their order:
    it looks the name up in the dictionary ([KeyError] when it is missing)
    and adapts the value (a [dict] cannot be adapted).  Nothing is sent to
    the server before all of them are formatted. *)

Definition key_error (key : string) : exn := "'" ++ key ++ "'".

Definition cannot_adapt (type : string) : exn := "can't adapt type '" ++ type ++ "'".

Definition item {A} (key : string) (entry : option A) : M A :=
  match entry with
  | Some value => ret value
  | None => raise (key_error key)
  end.

Definition format_backup_data (d : backup_data.t) : M backup_values.t :=
  backup_id <- item "backup_id" (backup_data.backup_id d) ;;
  backup_type <- item "backup_type" (backup_data.backup_type d) ;;
  status <- item "status" (backup_data.status d) ;;
  start_ts <- item "start_ts" (backup_data.start_ts d) ;;
  end_ts <- item "end_ts" (backup_data.end_ts d) ;;
  size_bytes <- item "size_bytes" (backup_data.size_bytes d) ;;
  s3_key <- item "s3_key" (backup_data.s3_key d) ;;
  s3_bucket <- item "s3_bucket" (backup_data.s3_bucket d) ;;
  checksum <- item "checksum" (backup_data.checksum d) ;;
  compression <- item "compression" (backup_data.compression d) ;;
  encryption <- item "encryption" (backup_data.encryption d) ;;
  label <- item "label" (backup_data.label d) ;;
  description <- item "description" (backup_data.description d) ;;
  metadata_json <- item "metadata_json" (backup_data.metadata_json d) ;;
  match metadata_json with
  | Some _ => raise (cannot_adapt "dict")
  | None =>
      ret {| backup_values.backup_id := backup_id;
             backup_values.backup_type := backup_type;
             backup_values.status := status;
             backup_values.start_ts := start_ts;
             backup_values.end_ts := end_ts;
             backup_values.size_bytes := size_bytes;
             backup_values.s3_key := s3_key;
             backup_values.s3_bucket := s3_bucket;
             backup_values.checksum := checksum;
             backup_values.compression := compression;
             backup_values.encryption := encryption;
             backup_values.label := label;
             backup_values.description := description |}
  end.

Definition format_restore_data (d : restore_data.t) : M restore_values.t :=
  restore_id <- item "restore_id" (restore_data.restore_id d) ;;
  backup_id <- item "backup_id" (restore_data.backup_id d) ;;
  target_time <- item "target_time" (restore_data.target_time d) ;;
  target_xid <- item "target_xid" (restore_data.target_xid d) ;;
  target_lsn <- item "target_lsn" (restore_data.target_lsn d) ;;
  status <- item "status" (restore_data.status d) ;;
  start_ts <- item "start_ts" (restore_data.start_ts d) ;;
  destination_path <- item "destination_path" (restore_data.destination_path d) ;;
  ret {| restore_values.restore_id := restore_id;
         restore_values.backup_id := backup_id;
         restore_values.target_time := target_time;
         restore_values.target_xid := target_xid;
         restore_values.target_lsn := target_lsn;
         restore_values.status := status;
         restore_values.start_ts := start_ts;
         restore_values.destination_path := destination_path |}.

(** *** The constraints of the schema *)

Definition has_backup (l : Ledger) (id : string) : bool :=
  existsb (fun r => String.eqb (backup_metadata.backup_id r) id) (backups l).

Definition references_backup (l : Ledger) (ref : option string) : bool :=
  match ref with
  | None => true
  | Some id => has_backup l id
  end.

Definition has_restore (l : Ledger) (id : string) : bool :=
  existsb (fun r => String.eqb (restore_operations.restore_id r) id) (restores l).

Definition unique_violation (constraint : string) : exn :=
  "duplicate key value violates unique constraint " ++ constraint.

Definition foreign_key_violation (constraint : string) : exn :=
  "insert or update violates foreign key constraint " ++ constraint.

Definition not_null_violation (column : string) : exn :=
  "null value in column " ++ column ++ " violates not-null constraint".

(** A value for a [BIGINT] column: [NULL], or a signed 64-bit integer. *)
Definition fits_bigint (v : option Z) : bool :=
  match v with
  | Some n => (- 2 ^ 63 <=? n) && (n <? 2 ^ 63)
  | None => true
  end.

Definition bigint_out_of_range : exn := "bigint out of range".

(** [NOT NULL]. *)
Definition not_null {A} (column : string) (value : option A) : M A :=
  match value with
  | Some v => ret v
  | None => raise (not_null_violation column)
  end.

(** *** [backup_metadata] *)

(** [INSERT INTO backup_metadata (...) VALUES (...) RETURNING backup_id],
    executed: the values are converted to the types of their columns, the
    row is checked against [NOT NULL], then against [UNIQUE].  The column
    [metadata_json] gets the [NULL] that is the only value psycopg2 adapts
    for it. *)
Definition insert_backup (v : backup_values.t) : M string :=
  (if fits_bigint (backup_values.size_bytes v) then ret tt
   else raise bigint_out_of_range) ;;
  backup_id <- not_null "backup_id" (backup_values.backup_id v) ;;
  backup_type <- not_null "backup_type" (backup_values.backup_type v) ;;
  status <- not_null "status" (backup_values.status v) ;;
  start_ts <- not_null "start_ts" (backup_values.start_ts v) ;;
  let row :=
    {| backup_metadata.backup_id := backup_id;
       backup_metadata.backup_type := backup_type;
       backup_metadata.status := status;
       backup_metadata.start_ts := start_ts;
       backup_metadata.end_ts := backup_values.end_ts v;
       backup_metadata.size_bytes := backup_values.size_bytes v;
       backup_metadata.s3_key := backup_values.s3_key v;
       backup_metadata.s3_bucket := backup_values.s3_bucket v;
       backup_metadata.checksum := backup_values.checksum v;
       backup_metadata.compression := backup_values.compression v;
       backup_metadata.encryption := backup_values.encryption v;
       backup_metadata.label := backup_values.label v;
       backup_metadata.description := backup_values.description v;
       backup_metadata.metadata_json := None |} in
  fun w =>
    let l := ledger w in
    if has_backup l backup_id then
      (Raise (unique_violation "backup_metadata_backup_id_key"), w)
    else
      (Return backup_id,
       set_ledger {| backups := (backups l ++ [row])%list;
                     wals := wals l;
                     restores := restores l |} w).

Definition create_backup_record (db : db_call) (backup_data : backup_data.t)
  : M string :=
  try_finally
    (try_except
       (_get_connection db ;;
        values <- format_backup_data backup_data ;;
        execute db (insert_backup values))
       (fun e =>
          rollback db ;;
          logger_error ("Erro ao criar registro de backup: " ++ e) ;;
          raise e))
    (close_cursor db).

(** The keyword arguments of [update_backup_status]: [None] when the
    keyword is not passed, [Some v] when it is passed with value [v]. *)
Record status_kwargs := {
  kw_size_bytes : option (option Z);
  kw_s3_key : option (option string);
  kw_s3_bucket : option (option string);
  kw_checksum : option (option string);
  kw_compression : option (option string);
  kw_encryption : option (option string)
}.

Definition no_kwargs : status_kwargs :=
  {| kw_size_bytes := None; kw_s3_key := None; kw_s3_bucket := None;
     kw_checksum := None; kw_compression := None; kw_encryption := None |}.

(** The [SET] clause: status always, [end_ts] when given, and of the
    keywords only [size_bytes], [s3_key] and [checksum]. *)
Definition set_clause (status : string) (end_ts : option datetime)
    (kwargs : status_kwargs) (r : backup_metadata.row) : backup_metadata.row :=
  {| backup_metadata.backup_id := backup_metadata.backup_id r;
     backup_metadata.backup_type := backup_metadata.backup_type r;
     backup_metadata.status := status;
     backup_metadata.start_ts := backup_metadata.start_ts r;
     backup_metadata.end_ts :=
       match end_ts with
       | Some t => Some t
       | None => backup_metadata.end_ts r
       end;
     backup_metadata.size_bytes :=
       default (backup_metadata.size_bytes r) (kw_size_bytes kwargs);
     backup_metadata.s3_key :=
       default (backup_metadata.s3_key r) (kw_s3_key kwargs);
     backup_metadata.s3_bucket := backup_metadata.s3_bucket r;
     backup_metadata.checksum :=
       default (backup_metadata.checksum r) (kw_checksum kwargs);
     backup_metadata.compression := backup_metadata.compression r;
     backup_metadata.encryption := backup_metadata.encryption r;
     backup_metadata.label := backup_metadata.label r;
     backup_metadata.description := backup_metadata.description r;
     backup_metadata.metadata_json := backup_metadata.metadata_json r |}.

(** [UPDATE backup_metadata SET ... WHERE backup_id = %s], executed. *)
Definition update_backup (backup_id status : string)
    (end_ts : option datetime) (kwargs : status_kwargs) : M unit :=
  modify (fun w =>
    let l := ledger w in
    let upd r :=
      if String.eqb (backup_metadata.backup_id r) backup_id
      then set_clause status end_ts kwargs r else r in
    set_ledger {| backups := map upd (backups l);
                  wals := wals l;
                  restores := restores l |} w).

Definition update_backup_status (db : db_call) (backup_id status : string)
    (end_ts : option datetime) (kwargs : status_kwargs) : M bool :=
  try_finally
    (try_except
       (_get_connection db ;;
        execute db (update_backup backup_id status end_ts kwargs) ;;
        ret true)
       (fun e =>
          rollback db ;;
          logger_error ("Erro ao atualizar status do backup: " ++ e) ;;
          ret false))
    (close_cursor db).

(** [SELECT * FROM backup_metadata WHERE backup_id = %s], [fetchone()]. *)
Definition select_backup (backup_id : string) : M (option backup_metadata.row) :=
  w <- get_world ;;
  ret (List.find (fun r => String.eqb (backup_metadata.backup_id r) backup_id)
         (backups (ledger w))).

Definition get_backup_by_id (db : db_call) (backup_id : string)
  : M (option backup_metadata.row) :=
  try_finally
    (try_except
       (_get_connection db ;;
        execute db (select_backup backup_id))
       (fun e =>
          logger_error ("Erro ao buscar backup " ++ backup_id ++ ": " ++ e) ;;
          ret None))
    (close_cursor db).

(** The instant a [TIMESTAMP WITH TIME ZONE] column holds. *)
Definition instant (d : datetime) : Z := wall d - default 0 (utcoffset d).

(** [ORDER BY start_ts DESC]. *)
Definition newer_first (a b : backup_metadata.row) : Prop :=
  instant (backup_metadata.start_ts b) <= instant (backup_metadata.start_ts a).

#[export] Instance newer_first_dec a b : Decision (newer_first a b).
Proof. unfold newer_first. apply _. Defined.

Definition opt_filter (wanted : option string) (actual : string) : bool :=
  if Py.truthy wanted then String.eqb actual (default "" wanted) else true.

(** [SELECT * FROM backup_metadata WHERE ... ORDER BY start_ts DESC LIMIT
    %s], [fetchall()]. *)
Definition select_backups (backup_type status : option string) (limit : Z)
  : M (list backup_metadata.row) :=
  if limit <? 0 then raise "LIMIT must not be negative"
  else
    w <- get_world ;;
    let rows :=
      List.filter
        (fun r =>
           opt_filter backup_type (backup_metadata.backup_type r)
           && opt_filter status (backup_metadata.status r))
        (backups (ledger w)) in
    ret (take (Z.to_nat limit) (merge_sort newer_first rows)).

Definition list_backups (db : db_call) (backup_type status : option string)
    (limit : Z) : M (list backup_metadata.row) :=
  try_finally
    (try_except
       (_get_connection db ;;
        execute db (select_backups backup_type status limit))
       (fun e =>
          logger_error ("Erro ao listar backups: " ++ e) ;;
          ret []))
    (close_cursor db).

(** [SELECT * FROM backup_metadata WHERE backup_type = %s AND status =
    'completed' ORDER BY start_ts DESC LIMIT 1], [fetchone()]. *)
Definition select_latest_backup (backup_type : string)
  : M (option backup_metadata.row) :=
  w <- get_world ;;
  let rows :=
    List.filter
      (fun r =>
         String.eqb (backup_metadata.backup_type r) backup_type
         && String.eqb (backup_metadata.status r) "completed")
      (backups (ledger w)) in
  ret (List.hd_error (merge_sort newer_first rows)).

Definition get_latest_backup (db : db_call) (backup_type : string)
  : M (option backup_metadata.row) :=
  try_finally
    (try_except
       (_get_connection db ;;
        execute db (select_latest_backup backup_type))
       (fun e =>
          logger_error ("Erro ao obter backup mais recente: " ++ e) ;;
          ret None))
    (close_cursor db).

(** *** [wal_metadata] *)

(** [INSERT INTO wal_metadata (...) VALUES (...) RETURNING id], executed.
    The dictionary [wal_data] that [create_incremental_backup] builds has
    every key the statement names and no [None] in a [NOT NULL] column: it
    is given as the row it describes.  The value of [sequence_number] is
    converted to the type of its column when the row is formed, the foreign
    key is checked once the row is in.  ([size_bytes] is the size of a file
    and always fits its column.) *)
Definition insert_wal (wal_data : wal_metadata.row) : M unit :=
  fun w =>
    let l := ledger w in
    if negb (fits_bigint (wal_metadata.sequence_number wal_data)) then
      (Raise bigint_out_of_range, w)
    else if references_backup l (wal_metadata.backup_id wal_data) then
      (Return tt,
       set_ledger {| backups := backups l;
                     wals := (wals l ++ [wal_data])%list;
                     restores := restores l |} w)
    else (Raise (foreign_key_violation "wal_metadata_backup_id_fkey"), w).

(** The returned [str(wal_id)] is the [SERIAL] key, which is not modelled. *)
Definition create_wal_record (db : db_call) (wal_data : wal_metadata.row)
  : M unit :=
  try_finally
    (try_except
       (_get_connection db ;;
        execute db (insert_wal wal_data))
       (fun e =>
          rollback db ;;
          logger_error ("Erro ao criar registro de WAL: " ++ e) ;;
          raise e))
    (close_cursor db).

(** [ORDER BY sequence_number]: ascending, [NULL] last. *)
Definition seq_leb (a b : option Z) : bool :=
  match a, b with
  | Some x, Some y => x <=? y
  | _, None => true
  | None, Some _ => false
  end.

Definition by_sequence (a b : wal_metadata.row) : Prop :=
  seq_leb (wal_metadata.sequence_number a) (wal_metadata.sequence_number b) = true.

#[export] Instance by_sequence_dec a b : Decision (by_sequence a b).
Proof. unfold by_sequence. apply _. Defined.

Definition of_backup (backup_id : string) (r : wal_metadata.row) : bool :=
  match wal_metadata.backup_id r with
  | Some b => String.eqb b backup_id
  | None => false
  end.

(** [SELECT * FROM wal_metadata WHERE backup_id = %s ORDER BY
    sequence_number], [fetchall()]. *)
Definition select_wals (backup_id : string) : M (list wal_metadata.row) :=
  w <- get_world ;;
  ret (merge_sort by_sequence (List.filter (of_backup backup_id) (wals (ledger w)))).

Definition get_wals_for_backup (db : db_call) (backup_id : string)
  : M (list wal_metadata.row) :=
  try_finally
    (try_except
       (_get_connection db ;;
        execute db (select_wals backup_id))
       (fun e =>
          logger_error ("Erro ao obter WALs do backup " ++ backup_id ++ ": " ++ e) ;;
          ret []))
    (close_cursor db).

(** *** [restore_operations] *)

(** [INSERT INTO restore_operations (...) VALUES (...) RETURNING
    restore_id], executed. *)
Definition insert_restore (v : restore_values.t) : M string :=
  restore_id <- not_null "restore_id" (restore_values.restore_id v) ;;
  status <- not_null "status" (restore_values.status v) ;;
  start_ts <- not_null "start_ts" (restore_values.start_ts v) ;;
  let row :=
    {| restore_operations.restore_id := restore_id;
       restore_operations.backup_id := restore_values.backup_id v;
       restore_operations.target_time := restore_values.target_time v;
       restore_operations.target_xid := restore_values.target_xid v;
       restore_operations.target_lsn := restore_values.target_lsn v;
       restore_operations.status := status;
       restore_operations.start_ts := start_ts;
       restore_operations.end_ts := None;
       restore_operations.destination_path := restore_values.destination_path v;
       restore_operations.error_message := None |} in
  fun w =>
    let l := ledger w in
    if has_restore l restore_id then
      (Raise (unique_violation "restore_operations_restore_id_key"), w)
    else if references_backup l (restore_values.backup_id v) then
      (Return restore_id,
       set_ledger {| backups := backups l;
                     wals := wals l;
                     restores := (restores l ++ [row])%list |} w)
    else (Raise (foreign_key_violation "restore_operations_backup_id_fkey"), w).

Definition create_restore_record (db : db_call) (restore_data : restore_data.t)
  : M string :=
  try_finally
    (try_except
       (_get_connection db ;;
        values <- format_restore_data restore_data ;;
        execute db (insert_restore values))
       (fun e =>
          rollback db ;;
          logger_error ("Erro ao criar registro de restore: " ++ e) ;;
          raise e))
    (close_cursor db).

End MetadataManager.

(** ** [core/backup.py] *)

(** [os.listdir(pg_wal_dir)] together with [os.path.exists] and
    [os.path.isfile]: the directory is missing, or it lists entries (name,
    is it a regular file), or listing it raises. *)
Inductive listdir_outcome :=
| NoSuchDirectory
| Entries (names : list (string * bool))
| ListRaises (msg : string).

(** [sorted(paths)]. *)
Definition str_le (a b : string) : Prop := String.leb a b = true.

#[export] Instance str_le_dec a b : Decision (str_le a b).
Proof. unfold str_le. apply _. Defined.

Module BackupEngine.

Record t := {
  pg_config : gmap string string;
  aws_config : gmap string string;
  compression_enabled : bool;
  compression_level : Z;
  s3_client : S3Client;
  temp_dir : string
}.

(** What the environment does while one WAL file is processed. *)
Record wal_io := {
  wal_net : transfer;
  wal_now : datetime;
  wal_db : db_call
}.

(** What the environment does during one [create_full_backup]. *)
Record full_env := {
  full_uuid4 : string;
  full_start : datetime;
  full_start_label : string;
  full_hostname : string;
  full_psql : proc_outcome;
  full_db_create : db_call;
  full_pg_dump : proc_outcome;
  full_pg_dump_output : option bytes;
  full_gzip : Z -> bytes -> gzip_outcome;
  full_net : transfer;
  full_end : datetime;
  full_db_completed : db_call;
  full_failed_at : datetime;
  full_db_failed : db_call
}.

(** What the environment does during one [create_incremental_backup]. *)
Record incr_env := {
  incr_uuid4 : string;
  incr_start : datetime;
  incr_start_label : string;
  incr_listdir : listdir_outcome;
  incr_wal : string -> wal_io;
  incr_end : datetime;
  incr_db_create : db_call
}.

Section Engine.
Context {sha256 : HashAlgorithm}.
Variable self : t.

Definition connection_args : list string :=
  ["-h"; default "localhost" (pg_config self !! "host");
   "-p"; default "5432" (pg_config self !! "port")].

(** A [None] among the arguments makes building the command line raise. *)
Definition none_in_command : exn :=
  "sequence item: expected str instance, NoneType found".

Definition _get_postgres_version (out : proc_outcome) : M string :=
  match pg_config self !! "user", pg_config self !! "database" with
  | Some user, Some database =>
      let cmd := ("psql" :: connection_args
                    ++ ["-U"; user; "-d"; database; "-t"; "-c"; "SELECT version();"])%list in
      r <- subprocess_run cmd out ;;
      match r with
      | Exited rc stdout _ =>
          if rc =? 0 then ret (Py.strip stdout) else ret "Unknown"
      | TimeoutExpired =>
          logger_error "Erro ao obter versão do PostgreSQL: timed out" ;;
          ret "Unknown"
      | ProcRaises msg =>
          logger_error ("Erro ao obter versão do PostgreSQL: " ++ msg) ;;
          ret "Unknown"
      end
  | _, _ =>
      logger_error ("Erro ao obter versão do PostgreSQL: " ++ none_in_command) ;;
      ret "Unknown"
  end.

Definition _execute_pg_dump (out : proc_outcome) (output : option bytes)
    (backup_id : string) : M (option string) :=
  let backup_file := Py.path_join (temp_dir self) (backup_id ++ ".sql") in
  match pg_config self !! "user", pg_config self !! "database" with
  | Some user, Some database =>
      let cmd := ("pg_dump" :: connection_args
                    ++ ["-U"; user; "-d"; database; "-f"; backup_file;
                        "--verbose"; "--no-password"; "--format=custom";
                        "--compress=9"])%list in
      r <- subprocess_run cmd out ;;
      match r with
      | Exited rc _ stderr =>
          match output with
          | Some content =>
              modify (fun w => set_files (<[backup_file := content]> (files w)) w)
          | None => ret tt
          end ;;
          if negb (rc =? 0) then
            logger_error ("pg_dump falhou: " ++ stderr) ;;
            ret None
          else
            w <- get_world ;;
            match files w !! backup_file with
            | Some (_ :: _) => ret (Some backup_file)
            | _ =>
                logger_error "Arquivo de backup não foi criado ou está vazio" ;;
                ret None
            end
      | TimeoutExpired =>
          logger_error "pg_dump timeout" ;;
          ret None
      | ProcRaises msg =>
          logger_error ("Erro ao executar pg_dump: " ++ msg) ;;
          ret None
      end
  | _, _ =>
      logger_error ("Erro ao executar pg_dump: " ++ none_in_command) ;;
      ret None
  end.

(** [shutil.rmtree(self.temp_dir)]: every file below the directory goes. *)
Definition _cleanup_temp_files : M unit :=
  modify (fun w =>
    set_files
      (filter (fun kv : string * bytes =>
                 Py.startswith kv.1 (temp_dir self ++ "/") = false)
              (files w)) w).

(** [os.path.getsize(path)]. *)
Definition getsize (path : string) : M Z :=
  content <- open_rb path ;;
  ret (Z.of_nat (length content)).

(** The statements of [create_full_backup] between the insertion of the
    record and its final update: dump, compression, check sum, upload.  The
    result is the artifact's path, check sum, size and remote key. *)
Definition dump_and_upload (env : full_env) (backup_id : string)
  : M (string * string * Z * string) :=
  dumped <- _execute_pg_dump (full_pg_dump env) (full_pg_dump_output env) backup_id ;;
  if negb (Py.truthy dumped) then raise "Falha ao executar pg_dump"
  else
    let backup_file := default "" dumped in
    backup_file <-
      (if compression_enabled self then
         let compressed_file := backup_file ++ ".gz" in
         ok <- compress_file (full_gzip env (compression_level self))
                 backup_file compressed_file ;;
         if ok : bool then
           os_remove backup_file ;;
           ret compressed_file
         else
           logger_warning "Falha na compressão, usando arquivo original" ;;
           ret backup_file
       else ret backup_file) ;;
    checksum <- calculate_checksum backup_file ;;
    file_size <- getsize backup_file ;;
    let filename := Py.basename backup_file in
    uploaded <-
      upload_file (s3_client self) (full_net env) backup_file "full" (Some filename) ;;
    let '(success, s3_key) := uploaded in
    if negb success then raise ("Falha no upload para S3: " ++ s3_key)
    else ret (backup_file, checksum, file_size, s3_key).

Definition create_full_backup (env : full_env) (label description : option string)
  : M (bool * string) :=
  let backup_id := full_uuid4 env in
  let start_time := full_start env in
  pg_version <- _get_postgres_version (full_psql env) ;;
  let backup_data :=
    {| backup_data.backup_id := Some (Some backup_id);
       backup_data.backup_type := Some (Some "full");
       backup_data.status := Some (Some "running");
       backup_data.start_ts := Some (Some start_time);
       backup_data.end_ts := None;
       backup_data.size_bytes := None;
       backup_data.s3_key := None;
       backup_data.s3_bucket := None;
       backup_data.checksum := None;
       backup_data.compression := None;
       backup_data.encryption := None;
       backup_data.label :=
         Some (Some (Py.or_default label ("full-backup-" ++ full_start_label env)));
       backup_data.description :=
         Some (Some (Py.or_default description "Backup completo automatizado"));
       backup_data.metadata_json :=
         Some (Some [("hostname", JString (full_hostname env));
                     ("pg_version", JString pg_version);
                     ("backup_method", JString "pg_dump")]) |} in
  try_finally
    (try_except
       (MetadataManager.create_backup_record (full_db_create env) backup_data ;;
        artifact <- dump_and_upload env backup_id ;;
        let '(backup_file, checksum, file_size, s3_key) := artifact in
        let end_time := full_end env in
        MetadataManager.update_backup_status (full_db_completed env)
          backup_id "completed" (Some end_time)
          {| MetadataManager.kw_size_bytes := Some (Some file_size);
             MetadataManager.kw_s3_key := Some (Some s3_key);
             MetadataManager.kw_s3_bucket := Some (aws_config self !! "bucket");
             MetadataManager.kw_checksum := Some (Some checksum);
             MetadataManager.kw_compression :=
               Some (if Py.endswith backup_file ".gz" then Some "gzip" else None);
             MetadataManager.kw_encryption :=
               Some (Some (default "SSE-S3" (aws_config self !! "encryption"))) |} ;;
        ret (true, backup_id))
       (fun e =>
          logger_error ("Erro no backup completo " ++ backup_id ++ ": " ++ e) ;;
          MetadataManager.update_backup_status (full_db_failed env)
            backup_id "failed" (Some (full_failed_at env))
            MetadataManager.no_kwargs ;;
          ret (false, e)))
    _cleanup_temp_files.

(** The test of [_get_wal_files] on a directory entry's name. *)
Definition is_wal_name (file : string) : bool :=
  Py.startswith file "0" && (String.length file =? 24)%nat && Py.endswith file ".gz".

Definition _get_wal_files (listing : listdir_outcome) : M (list string) :=
  let pg_wal_dir :=
    default "/var/lib/postgresql/data/pg_wal" (pg_config self !! "wal_directory") in
  match listing with
  | NoSuchDirectory =>
      logger_warning ("Diretório WAL não encontrado: " ++ pg_wal_dir) ;;
      ret []
  | Entries names =>
      let wal_files :=
        map (fun e : string * bool => Py.path_join pg_wal_dir e.1)
            (List.filter (fun e : string * bool => is_wal_name e.1 && e.2) names) in
      ret (merge_sort str_le wal_files)
  | ListRaises msg =>
      logger_error ("Erro ao obter WAL files: " ++ msg) ;;
      ret []
  end.

Definition _extract_wal_sequence (wal_filename : string) : Z :=
  let name_part := Py.before_dot wal_filename in
  match Py.int16 name_part with
  | Some n => n
  | None => 0
  end.

(** One turn of the loop over the WAL files, with its [try]/[except]. *)
Definition process_wal_file (backup_id : string) (start_time : datetime)
    (io : string -> wal_io) (uploaded_wals : list string) (wal_file : string)
  : M (list string) :=
  try_except
    (let filename := Py.basename wal_file in
     uploaded <-
       upload_file (s3_client self) (wal_net (io wal_file)) wal_file "incremental"
         (Some filename) ;;
     let '(success, s3_key) := uploaded in
     if success : bool then
       checksum <- calculate_checksum wal_file ;;
       file_size <- getsize wal_file ;;
       let wal_data :=
         {| wal_metadata.wal_name := filename;
            wal_metadata.backup_id := Some backup_id;
            wal_metadata.start_ts := start_time;
            wal_metadata.end_ts := wal_now (io wal_file);
            wal_metadata.size_bytes := Some file_size;
            wal_metadata.s3_key := Some s3_key;
            wal_metadata.checksum := Some checksum;
            wal_metadata.sequence_number := Some (_extract_wal_sequence filename) |} in
       MetadataManager.create_wal_record (wal_db (io wal_file)) wal_data ;;
       ret (uploaded_wals ++ [filename])%list
     else ret uploaded_wals)
    (fun e =>
       logger_error ("Erro ao processar WAL " ++ wal_file ++ ": " ++ e) ;;
       ret uploaded_wals).

(** [for wal_file in wal_files: ...]. *)
Fixpoint process_wal_files (backup_id : string) (start_time : datetime)
    (io : string -> wal_io) (wal_files : list string) (uploaded_wals : list string)
  : M (list string) :=
  match wal_files with
  | [] => ret uploaded_wals
  | wal_file :: rest =>
      uploaded_wals <- process_wal_file backup_id start_time io uploaded_wals wal_file ;;
      process_wal_files backup_id start_time io rest uploaded_wals
  end.

Definition no_wal_processed : string := "Nenhum WAL file foi processado com sucesso".

Definition create_incremental_backup (env : incr_env) (label : option string)
  : M (bool * string) :=
  let backup_id := incr_uuid4 env in
  let start_time := incr_start env in
  try_finally
    (try_except
       (wal_files <- _get_wal_files (incr_listdir env) ;;
        match wal_files with
        | [] =>
            logger_warning "Nenhum WAL file encontrado para backup incremental" ;;
            ret (false, "Nenhum WAL file disponível")
        | _ =>
            uploaded_wals <-
              process_wal_files backup_id start_time (incr_wal env) wal_files [] ;;
            match uploaded_wals with
            | [] => raise no_wal_processed
            | _ =>
                let backup_data :=
                  {| backup_data.backup_id := Some (Some backup_id);
                     backup_data.backup_type := Some (Some "incremental");
                     backup_data.status := Some (Some "completed");
                     backup_data.start_ts := Some (Some start_time);
                     backup_data.end_ts := Some (Some (incr_end env));
                     backup_data.size_bytes := None;
                     backup_data.s3_key := None;
                     backup_data.s3_bucket := None;
                     backup_data.checksum := None;
                     backup_data.compression := None;
                     backup_data.encryption := None;
                     backup_data.label :=
                       Some (Some (Py.or_default label
                                     ("incremental-backup-" ++ incr_start_label env)));
                     backup_data.description :=
                       Some (Some ("Backup incremental com "
                                     ++ Py.str_nat (length uploaded_wals)
                                     ++ " WAL files"));
                     backup_data.metadata_json :=
                       Some (Some [("wal_files", JList uploaded_wals);
                                   ("wal_count", JInt (Z.of_nat (length uploaded_wals)));
                                   ("backup_method", JString "wal_archive")]) |} in
                MetadataManager.create_backup_record (incr_db_create env) backup_data ;;
                ret (true, backup_id)
            end
        end)
       (fun e =>
          logger_error ("Erro no backup incremental " ++ backup_id ++ ": " ++ e) ;;
          ret (false, e)))
    _cleanup_temp_files.

(** [list_recent_backups]. *)
Definition list_recent_backups (db : db_call) (limit : Z)
  : M (list backup_metadata.row) :=
  MetadataManager.list_backups db None None limit.

End Engine.
End BackupEngine.

(** ** [core/restore.py] *)

Module RestoreEngine.

Record t := {
  pg_config : gmap string string;
  restore_config : gmap string string;
  aws_config : gmap string string;
  s3_client : S3Client;
  temp_dir : string
}.

(** What the environment does during one [restore_backup]. *)
Record restore_env := {
  restore_uuid4 : string;
  restore_start : datetime;
  db_latest : db_call;
  db_get : db_call;
  makedirs_error : option string;
  fromisoformat : string -> option datetime;
  db_create : db_call;
  net_base : transfer;
  gunzip : bytes -> gzip_outcome;
  restore_tool : proc_outcome;
  db_wals : db_call;
  net_wal : string -> transfer;
  walfile_tool : string -> proc_outcome;
  recovery_conf_error : option string;
  restore_end : datetime;
  db_completed : db_call;
  failed_at : datetime;
  db_failed : db_call
}.

(** How one turn of the loop over the WAL records ends. *)
Inductive loop_exit := Break | Continue.

Section Engine.
Context {sha256 : HashAlgorithm}.
Variable self : t.

Definition _find_latest_full_backup (db : db_call) : M (option string) :=
  try_except
    (latest_backup <- MetadataManager.get_latest_backup db "full" ;;
     match latest_backup with
     | Some r => ret (Some (backup_metadata.backup_id r))
     | None => ret None
     end)
    (fun e =>
       logger_error ("Erro ao encontrar backup completo: " ++ e) ;;
       ret None).

Definition none_path : exn :=
  "expected str, bytes or os.PathLike object, not NoneType".

Definition _download_backup_file (net : transfer)
    (backup_metadata : backup_metadata.row) : M (option string) :=
  try_except
    (let s3_key := backup_metadata.s3_key backup_metadata in
     if negb (Py.truthy s3_key) then raise "Backup não possui S3 key"
     else
       let s3_key := default "" s3_key in
       let filename := Py.basename s3_key in
       let local_path := Py.path_join (temp_dir self) filename in
       downloaded <- download_file (s3_client self) net s3_key local_path ;;
       let '(success, message) := downloaded in
       if negb success then raise ("Falha no download: " ++ message)
       else
         let expected_checksum := backup_metadata.checksum backup_metadata in
         (if Py.truthy expected_checksum then
            ok <- verify_checksum local_path (default "" expected_checksum) ;;
            if ok : bool then ret tt
            else
              os_remove local_path ;;
              raise "Checksum inválido"
          else ret tt) ;;
         ret (Some local_path))
    (fun e =>
       logger_error ("Erro no download do backup: " ++ e) ;;
       ret None).

Definition _restore_base_backup (out : proc_outcome)
    (backup_file destination : string) : M bool :=
  let custom :=
    Py.endswith backup_file ".dump" || Py.endswith backup_file ".backup" in
  let cmd :=
    if custom then
      ["pg_restore"; "-h"; "localhost"; "-p"; "5433"; "-U"; "postgres";
       "-d"; "postgres_restore"; "--verbose"; "--clean"; "--if-exists";
       "--no-password"; backup_file]
    else
      ["psql"; "-h"; "localhost"; "-p"; "5433"; "-U"; "postgres";
       "-d"; "postgres_restore"; "-f"; backup_file] in
  r <- subprocess_run cmd out ;;
  match r with
  | Exited rc _ stderr =>
      if negb (rc =? 0) then
        logger_error
          ((if custom then "pg_restore falhou: " else "psql restore falhou: ")
             ++ stderr) ;;
        ret false
      else ret true
  | TimeoutExpired =>
      logger_error "Timeout no restore do backup base" ;;
      ret false
  | ProcRaises msg =>
      logger_error ("Erro no restore do backup base: " ++ msg) ;;
      ret false
  end.

Definition _apply_single_wal (out : proc_outcome) (wal_file destination : string)
  : M bool :=
  let cmd := ["pg_walfile"; "--path"; destination; wal_file] in
  r <- subprocess_run cmd out ;;
  match r with
  | Exited rc _ _ => ret (rc =? 0)
  | TimeoutExpired =>
      logger_error ("Erro ao aplicar WAL " ++ wal_file ++ ": timed out") ;;
      ret false
  | ProcRaises msg =>
      logger_error ("Erro ao aplicar WAL " ++ wal_file ++ ": " ++ msg) ;;
      ret false
  end.

Definition mixed_comparison : exn :=
  "can't compare offset-naive and offset-aware datetimes".

(** One turn of the loop of [_apply_wal_files], with its [try]/[except]. *)
Definition apply_wal_record (env : restore_env) (target_dt : datetime)
    (destination : string) (applied_wals : list string)
    (wal_metadata : wal_metadata.row) : M (loop_exit * list string) :=
  try_except
    (match wal_metadata.s3_key wal_metadata with
     | None => raise none_path
     | Some s3_key =>
         let wal_filename := Py.basename s3_key in
         let local_wal_path := Py.path_join (temp_dir self) wal_filename in
         downloaded <-
           download_file (s3_client self) (net_wal env s3_key) s3_key local_wal_path ;;
         if negb (fst downloaded) then ret (Continue, applied_wals)
         else
           let wal_time := wal_metadata.end_ts wal_metadata in
           match dt_gt wal_time target_dt with
           | None => raise mixed_comparison
           | Some true => ret (Break, applied_wals)
           | Some false =>
               ok <- _apply_single_wal (walfile_tool env local_wal_path)
                       local_wal_path destination ;;
               if ok : bool then ret (Continue, (applied_wals ++ [wal_filename])%list)
               else ret (Continue, applied_wals)
           end
     end)
    (fun e =>
       logger_error
         ("Erro ao aplicar WAL " ++ wal_metadata.wal_name wal_metadata ++ ": " ++ e) ;;
       ret (Continue, applied_wals)).

(** [for wal_metadata in wal_files: ...]; the result is [applied_wals]. *)
Fixpoint apply_wal_records (env : restore_env) (target_dt : datetime)
    (destination : string) (wal_files : list wal_metadata.row)
    (applied_wals : list string) : M (list string) :=
  match wal_files with
  | [] => ret applied_wals
  | wal_metadata :: rest =>
      turn <- apply_wal_record env target_dt destination applied_wals wal_metadata ;;
      match turn with
      | (Break, applied_wals) => ret applied_wals
      | (Continue, applied_wals) =>
          apply_wal_records env target_dt destination rest applied_wals
      end
  end.

Definition invalid_isoformat (s : string) : exn :=
  "Invalid isoformat string: '" ++ s ++ "'".

Definition _apply_wal_files (env : restore_env)
    (backup_id target_time destination : string) : M bool :=
  try_except
    (wal_files <- MetadataManager.get_wals_for_backup (db_wals env) backup_id ;;
     match wal_files with
     | [] => ret true
     | _ =>
         match fromisoformat env target_time with
         | None => raise (invalid_isoformat target_time)
         | Some target_dt =>
             apply_wal_records env target_dt destination wal_files [] ;;
             ret true
         end
     end)
    (fun e =>
       logger_error ("Erro na aplicação de WALs: " ++ e) ;;
       ret false).

Definition nl : string := String (ascii_of_nat 10) EmptyString.

Definition recovery_conf (target_time : option string) : string :=
  "restore_command = 'cp /var/lib/postgresql/wal_archive/%f %p'" ++ nl
    ++ (if Py.truthy target_time then
          "recovery_target_time = '" ++ default "" target_time ++ "'" ++ nl
            ++ "recovery_target_inclusive = true" ++ nl
        else "")
    ++ "standby_mode = on" ++ nl.

Definition _setup_recovery_config (error : option string)
    (destination : string) (target_time : option string) : M unit :=
  match error with
  | Some msg => logger_error ("Erro na configuração de recovery: " ++ msg)
  | None =>
      let recovery_conf_path := Py.path_join destination "recovery.conf" in
      modify (fun w =>
        set_files
          (<[recovery_conf_path := list_byte_of_string (recovery_conf target_time)]>
             (files w)) w)
  end.

(** [UPDATE restore_operations SET ... WHERE restore_id = %s], executed. *)
Definition update_restore (restore_id status : string)
    (end_time : option datetime) (error_message : option string) : M unit :=
  modify (fun w =>
    let l := ledger w in
    let upd r :=
      if String.eqb (restore_operations.restore_id r) restore_id then
        {| restore_operations.restore_id := restore_operations.restore_id r;
           restore_operations.backup_id := restore_operations.backup_id r;
           restore_operations.target_time := restore_operations.target_time r;
           restore_operations.target_xid := restore_operations.target_xid r;
           restore_operations.target_lsn := restore_operations.target_lsn r;
           restore_operations.status := status;
           restore_operations.start_ts := restore_operations.start_ts r;
           restore_operations.end_ts :=
             match end_time with
             | Some t => Some t
             | None => restore_operations.end_ts r
             end;
           restore_operations.destination_path :=
             restore_operations.destination_path r;
           restore_operations.error_message :=
             match error_message with
             | Some m => Some m
             | None => restore_operations.error_message r
             end |}
      else r in
    set_ledger {| backups := backups l;
                  wals := wals l;
                  restores := map upd (restores l) |} w).

(** The handler does not roll back. *)
Definition _update_restore_status (db : db_call) (restore_id status : string)
    (end_time : option datetime) (error_message : option string) : M bool :=
  try_finally
    (try_except
       (MetadataManager._get_connection db ;;
        MetadataManager.execute db
          (update_restore restore_id status end_time error_message) ;;
        ret true)
       (fun e =>
          logger_error ("Erro ao atualizar status do restore: " ++ e) ;;
          ret false))
    (MetadataManager.close_cursor db).

Definition _cleanup_temp_files : M unit :=
  modify (fun w =>
    set_files
      (filter (fun kv : string * bytes =>
                 Py.startswith kv.1 (temp_dir self ++ "/") = false)
              (files w)) w).

(** [restore_backup] up to and including the restoration of the base
    artifact, that is, the statements of its [try] block that come before
    the replay of the WAL segments.  The result is the resolved backup
    identifier and the destination. *)
Definition restore_base (env : restore_env)
    (backup_id target_time destination : option string) : M (string * string) :=
  let restore_id := restore_uuid4 env in
  let start_time := restore_start env in
  backup_id <-
    (if negb (Py.truthy backup_id) then
       found <- _find_latest_full_backup (db_latest env) ;;
       if negb (Py.truthy found) then raise "Nenhum backup completo encontrado"
       else ret (default "" found)
     else ret (default "" backup_id)) ;;
  backup_metadata <- MetadataManager.get_backup_by_id (db_get env) backup_id ;;
  match backup_metadata with
  | None => raise ("Backup " ++ backup_id ++ " não encontrado")
  | Some backup_metadata =>
      if negb (String.eqb (backup_metadata.status backup_metadata) "completed")
      then raise ("Backup " ++ backup_id ++ " não está concluído")
      else
        let destination :=
          if negb (Py.truthy destination)
          then default "/tmp/postgres_restore" (restore_config self !! "temp_dir")
          else default "" destination in
        match makedirs_error env with
        | Some msg => raise msg
        | None =>
            target_dt <-
              (if Py.truthy target_time then
                 match fromisoformat env (default "" target_time) with
                 | Some d => ret (Some d)
                 | None => raise (invalid_isoformat (default "" target_time))
                 end
               else ret None) ;;
            let restore_data :=
              {| restore_data.restore_id := Some (Some restore_id);
                 restore_data.backup_id := Some (Some backup_id);
                 restore_data.target_time := Some target_dt;
                 restore_data.target_xid := None;
                 restore_data.target_lsn := None;
                 restore_data.status := Some (Some "running");
                 restore_data.start_ts := Some (Some start_time);
                 restore_data.destination_path := Some (Some destination) |} in
            MetadataManager.create_restore_record (db_create env) restore_data ;;
            backup_file <- _download_backup_file (net_base env) backup_metadata ;;
            if negb (Py.truthy backup_file)
            then raise "Falha no download do backup principal"
            else
              let backup_file := default "" backup_file in
              backup_file <-
                (if Py.endswith backup_file ".gz" then
                   let decompressed_file := Py.drop_last3 backup_file in
                   ok <- decompress_file (gunzip env) backup_file decompressed_file ;;
                   if ok : bool then
                     os_remove backup_file ;;
                     ret decompressed_file
                   else raise "Falha na descompressão do backup"
                 else ret backup_file) ;;
              restored <- _restore_base_backup (restore_tool env)
                            backup_file destination ;;
              if negb restored
              then raise "Falha na restauração do backup principal"
              else ret (backup_id, destination)
        end
  end.

Definition restore_backup (env : restore_env)
    (backup_id target_time destination : option string) : M (bool * string) :=
  let restore_id := restore_uuid4 env in
  try_finally
    (try_except
       (base <- restore_base env backup_id target_time destination ;;
        let '(backup_id, destination) := base in
        (if Py.truthy target_time then
           applied <- _apply_wal_files env backup_id
                        (default "" target_time) destination ;;
           if negb applied
           then logger_warning "Falha na aplicação de WALs, restore parcial"
           else ret tt
         else ret tt) ;;
        _setup_recovery_config (recovery_conf_error env) destination target_time ;;
        let end_time := restore_end env in
        _update_restore_status (db_completed env) restore_id
          "completed" (Some end_time) None ;;
        ret (true, restore_id))
       (fun e =>
          logger_error ("Erro no restore " ++ restore_id ++ ": " ++ e) ;;
          _update_restore_status (db_failed env) restore_id "failed"
            (Some (failed_at env)) (Some e) ;;
          ret (false, e)))
    _cleanup_temp_files.

End Engine.
End RestoreEngine.

(** ** [cli.py]: the [prune] command *)

Module Cli.

(** One entry of [pruned_backups]. *)
Record candidate := {
  c_backup_id : string;
  c_type : string;
  c_age_days : Z;
  c_size_bytes : option Z
}.

(** What the environment does during one [prune]: the answer of the ledger
    to the scan, the local clock read in each turn of the loop, and the
    transport when a key is deleted.  The command builds its engine itself,
    and the scan is the first statement on the connection that the
    constructor has just opened: the connection is there, and the query is
    executed or raises. *)
Record prune_env := {
  db_scan : db_outcome;
  now : nat -> datetime;
  net_delete : string -> net_outcome
}.

Section Prune.
Variable backup_engine : BackupEngine.t.

(** [(datetime.now().replace(tzinfo=None)
      - backup['start_ts'].replace(tzinfo=None)).days]. *)
Definition backup_age (now : datetime) (backup : backup_metadata.row) : Z :=
  days (default 0
          (dt_sub (replace_tzinfo_None now)
                  (replace_tzinfo_None (backup_metadata.start_ts backup)))).

Definition should_prune (retention_config : gmap string Z)
    (backup : backup_metadata.row) (backup_age : Z) : bool :=
  if String.eqb (backup_metadata.backup_type backup) "full" then
    let full_days := default 30 (retention_config !! "full_days") in
    full_days <? backup_age
  else if String.eqb (backup_metadata.backup_type backup) "incremental" then
    let inc_days := default 7 (retention_config !! "incremental_days") in
    inc_days <? backup_age
  else false.

(** [for backup in old_backups: ...]; [turn] counts the turns. *)
Fixpoint prune_loop (env : prune_env) (retention_config : gmap string Z)
    (dry_run : bool) (turn : nat) (old_backups : list backup_metadata.row)
    (pruned_backups : list candidate) : M (list candidate) :=
  match old_backups with
  | [] => ret pruned_backups
  | backup :: rest =>
      let backup_age := backup_age (now env turn) backup in
      if should_prune retention_config backup backup_age then
        let pruned_backups :=
          (pruned_backups ++
             [{| c_backup_id := backup_metadata.backup_id backup;
                 c_type := backup_metadata.backup_type backup;
                 c_age_days := backup_age;
                 c_size_bytes := backup_metadata.size_bytes backup |}])%list in
        (if negb dry_run then
           if Py.truthy (backup_metadata.s3_key backup) then
             delete_file (BackupEngine.s3_client backup_engine)
               (net_delete env (default "" (backup_metadata.s3_key backup)))
               (default "" (backup_metadata.s3_key backup)) ;;
             ret tt
           else ret tt
         else ret tt) ;;
        prune_loop env retention_config dry_run (S turn) rest pruned_backups
      else prune_loop env retention_config dry_run (S turn) rest pruned_backups
  end.

(** The body of [prune] from the scan of the ledger on; [retention_config]
    is the configured policy after the [--policy] overrides. *)
Definition prune (env : prune_env) (retention_config : gmap string Z)
    (dry_run : bool) : M (list candidate) :=
  old_backups <- BackupEngine.list_recent_backups (db_scan env) 1000 ;;
  pruned_backups <- prune_loop env retention_config dry_run 0 old_backups [] ;;
  BackupEngine._cleanup_temp_files backup_engine ;;
  ret pruned_backups.

End Prune.
End Cli.

(** ** Vocabulary of the statements *)

(** Two characters that are equal up to the case of an ASCII letter. *)
Definition same_letter (c d : ascii) : Prop :=
  c = d
  \/ (Py.is_upper c = true /\ Py.code d = (Py.code c + 32)%N)
  \/ (Py.is_upper d = true /\ Py.code c = (Py.code d + 32)%N).

(** Two strings that are equal up to the case of their ASCII letters. *)
Inductive same_up_to_case : string -> string -> Prop :=
| same_empty : same_up_to_case "" ""
| same_char c d s t :
    same_letter c d -> same_up_to_case s t ->
    same_up_to_case (String c s) (String d t).

(** ** A small hash algorithm for the examples *)

Definition hex_digit (n : N) : ascii :=
  nth (N.to_nat n)
    ["0"; "1"; "2"; "3"; "4"; "5"; "6"; "7"; "8"; "9"; "a"; "b"; "c"; "d"; "e"; "f"]%char
    "0"%char.

Definition byte_sum (b : bytes) : N :=
  fold_right (fun x acc => ((Byte.to_N x + acc) mod 256)%N) 0%N b.

(** The sum of the bytes modulo 256, as two lower-case hexadecimal digits. *)
Definition sum8_hex (b : bytes) : string :=
  String (hex_digit (byte_sum b / 16)) (String (hex_digit (byte_sum b mod 16)) "").

Lemma hex_digit_lower n : Py.lower_char (hex_digit n) = hex_digit n.
Proof.
  unfold hex_digit. generalize (N.to_nat n). intros k.
  do 16 (destruct k as [|k]; [reflexivity|]). destruct k; reflexivity.
Qed.

Lemma sum8_hex_lower b : Py.lower (sum8_hex b) = sum8_hex b.
Proof. unfold sum8_hex. cbn [Py.lower]. now rewrite !hex_digit_lower. Qed.

Definition sum8 : HashAlgorithm :=
  {| digest_hex := sum8_hex; digest_hex_lower := sum8_hex_lower |}.

Definition empty_ledger : Ledger := {| backups := []; wals := []; restores := [] |}.
Definition empty_world : World :=
  {| files := ∅; bucket := ∅; ledger := empty_ledger; log := []; procs := [] |}.

Definition one_file (path : string) (content : bytes) : World :=
  set_files (<[path := content]> ∅) empty_world.


(** A digit of a PostgreSQL segment name: [0]-[9] or [A]-[F]. *)
Definition is_wal_digit (c : ascii) : bool :=
  Py.between 48 57 c || Py.between 65 70 c.

Fixpoint wal_digits (s : string) : bool :=
  match s with
  | EmptyString => true
  | String c r => is_wal_digit c && wal_digits r
  end.

(** The value of a string of hexadecimal digits read in base 16, most
    significant digit first, continuing from [acc]. *)
Fixpoint base16 (acc : Z) (s : string) : Z :=
  match s with
  | EmptyString => acc
  | String c r => base16 (16 * acc + default 0 (Py.hex_value c)) r
  end.

(** The order of [ORDER BY sequence_number] without its ties. *)
Definition strictly_by_sequence (a b : wal_metadata.row) : Prop :=
  MetadataManager.by_sequence a b
  /\ wal_metadata.sequence_number a <> wal_metadata.sequence_number b.

(** The name [upload_file] stores an object under: the given file name, or
    the base name of the local path. *)
Definition upload_name (local_path : string) (filename : option string) : string :=
  if Py.truthy filename then default "" filename else Py.basename local_path.

(** The log grew, and its last entry is an error. *)
Definition logged_error (w w' : World) : Prop :=
  exists entries msg, log w' = (log w ++ entries ++ [(ERROR, msg)])%list.

(** A row of [wal_metadata] as an incremental backup writes it: it names its
    batch, and its sequence number is the decoding of its own name. *)
Definition wal_row_of (backup_id : string) (r : wal_metadata.row) : Prop :=
  wal_metadata.backup_id r = Some backup_id
  /\ wal_metadata.sequence_number r
     = Some (BackupEngine._extract_wal_sequence (wal_metadata.wal_name r)).



(** The row that the values of an [INSERT] describe. *)
Definition backup_row (v : backup_values.t) (r : backup_metadata.row) : Prop :=
  backup_values.backup_id v = Some (backup_metadata.backup_id r)
  /\ backup_values.backup_type v = Some (backup_metadata.backup_type r)
  /\ backup_values.status v = Some (backup_metadata.status r)
  /\ backup_values.start_ts v = Some (backup_metadata.start_ts r)
  /\ backup_values.end_ts v = backup_metadata.end_ts r
  /\ backup_values.size_bytes v = backup_metadata.size_bytes r
  /\ backup_values.s3_key v = backup_metadata.s3_key r
  /\ backup_values.checksum v = backup_metadata.checksum r.


(** What leaves a writing method of the ledger whose body has raised [e]:
    [e] itself when the connection is usable, the exception of the rollback
    when it is lost, and [UnboundLocalError] when it could not be opened. *)
Definition after_rollback (db : db_call) (e : exn) : exn :=
  match db with
  | Statement _ => e
  | ConnectionLost _ rollback_msg => rollback_msg
  | Unreachable _ => MetadataManager.unbound_local "cursor"
  end.

(** The [psql] that [create_full_backup] starts to ask for the version of
    the server, when the configuration names a user and a database. *)
Definition version_query (self : BackupEngine.t) : list (list string) :=
  match BackupEngine.pg_config self !! "user",
        BackupEngine.pg_config self !! "database" with
  | Some user, Some database =>
      [("psql" :: BackupEngine.connection_args self
          ++ ["-U"; user; "-d"; database; "-t"; "-c"; "SELECT version();"])%list]
  | _, _ => []
  end.

(** The command [_apply_single_wal] runs for a row of [wal_metadata]. *)
Definition walfile_command (self : RestoreEngine.t) (destination : string)
    (r : wal_metadata.row) : list string :=
  ["pg_walfile"; "--path"; destination;
   Py.path_join (RestoreEngine.temp_dir self)
     (Py.basename (default "" (wal_metadata.s3_key r)))].

(** The interval of the row ends at or before the target. *)
Definition ends_by (target : datetime) (r : wal_metadata.row) : Prop :=
  dt_gt (wal_metadata.end_ts r) target = Some false.


(** The retention threshold of a kind of backup, in days: the configured
    value, 30 days for full and 7 days for incremental backups by default;
    no other kind has one. *)
Definition retention_threshold (policy : gmap string Z) (kind : string) : option Z :=
  if String.eqb kind "full" then Some (default 30 (policy !! "full_days"))
  else if String.eqb kind "incremental" then Some (default 7 (policy !! "incremental_days"))
  else None.

(** The age exceeds the threshold of the record's kind. *)
Definition exceeds_retention (policy : gmap string Z) (b : backup_metadata.row)
    (age : Z) : Prop :=
  exists threshold,
    retention_threshold policy (backup_metadata.backup_type b) = Some threshold
    /\ threshold < age.

(** The entry of the candidate list for a record of a given age. *)
Definition candidate_of (b : backup_metadata.row) (age : Z) : Cli.candidate :=
  {| Cli.c_backup_id := backup_metadata.backup_id b;
     Cli.c_type := backup_metadata.backup_type b;
     Cli.c_age_days := age;
     Cli.c_size_bytes := backup_metadata.size_bytes b |}.

(** The candidates among the scanned records, in the order of the scan;
    the clock is read once per record, [turn] counts the readings. *)
Fixpoint candidates (env : Cli.prune_env) (policy : gmap string Z) (turn : nat)
    (scanned : list backup_metadata.row) : list Cli.candidate :=
  match scanned with
  | [] => []
  | b :: rest =>
      let age := Cli.backup_age (Cli.now env turn) b in
      if Cli.should_prune policy b age
      then candidate_of b age :: candidates env policy (S turn) rest
      else candidates env policy (S turn) rest
  end.

(** ** Concrete scenarios for the examples *)

Definition demo_aws : gmap string string :=
  <["bucket" := "test-bucket"]>
    (<["prefix" := "test-backups"]> (<["encryption" := "SSE-S3"]> ∅)).

Definition demo_pg : gmap string string :=
  <["host" := "localhost"]>
    (<["user" := "test_user"]> (<["database" := "test_db"]> ∅)).

Definition demo_s3 : S3Client := S3Client_init demo_aws.

Definition demo_engine : BackupEngine.t :=
  {| BackupEngine.pg_config := demo_pg;
     BackupEngine.aws_config := demo_aws;
     BackupEngine.compression_enabled := false;
     BackupEngine.compression_level := 6;
     BackupEngine.s3_client := demo_s3;
     BackupEngine.temp_dir := "/tmp/backupctl_demo" |}.

Definition demo_restore_engine : RestoreEngine.t :=
  {| RestoreEngine.pg_config := demo_pg;
     RestoreEngine.restore_config := ∅;
     RestoreEngine.aws_config := demo_aws;
     RestoreEngine.s3_client := demo_s3;
     RestoreEngine.temp_dir := "/tmp/restorectl_demo" |}.

(** A transfer in which nothing goes wrong and [content] is what arrives. *)
Definition clean_transfer (content : bytes) : transfer :=
  {| utcnow_ymd := "2024/01/15";
     utcnow_iso := "2024-01-15T10:30:00";
     net_put := PutStores content;
     net_head := NetOk;
     net_get := NetOk |}.

(** A time of day on 2024-01-15, UTC, [s] seconds after midnight. *)
Definition utc (s : Z) : datetime :=
  {| wall := 1705276800000000 + s * 1000000; utcoffset := Some 0 |}.

Definition segment_a : string := "00000001000000000000A.gz".
Definition segment_a_path : string :=
  "/var/lib/postgresql/data/pg_wal/00000001000000000000A.gz".
Definition segment_a_key : string :=
  "test-backups/incremental/2024/01/15/00000001000000000000A.gz".
Definition segment_bytes : bytes := [Byte.x01; Byte.x02; Byte.x03].

(** One segment in the archive directory; its upload works and the store
    executes every statement. *)
Definition one_segment : BackupEngine.incr_env :=
  {| BackupEngine.incr_uuid4 := "b-incr";
     BackupEngine.incr_start := utc 0;
     BackupEngine.incr_start_label := "20240115-000000";
     BackupEngine.incr_listdir := Entries [(segment_a, true)];
     BackupEngine.incr_wal := fun _ =>
       {| BackupEngine.wal_net := clean_transfer segment_bytes;
          BackupEngine.wal_now := utc 5;
          BackupEngine.wal_db := Executes |};
     BackupEngine.incr_end := utc 9;
     BackupEngine.incr_db_create := Executes |}.

Definition segment_on_disk : World := one_file segment_a_path segment_bytes.

(** A full backup recorded earlier under the identifier [id]. *)
Definition completed_full (id : string) : backup_metadata.row :=
  {| backup_metadata.backup_id := id;
     backup_metadata.backup_type := "full";
     backup_metadata.status := "completed";
     backup_metadata.start_ts := utc (-3600);
     backup_metadata.end_ts := Some (utc (-3000));
     backup_metadata.size_bytes := Some 3;
     backup_metadata.s3_key := Some "test-backups/full/2024/01/14/base.sql";
     backup_metadata.s3_bucket := None;
     backup_metadata.checksum := Some "06";
     backup_metadata.compression := None;
     backup_metadata.encryption := None;
     backup_metadata.label := None;
     backup_metadata.description := None;
     backup_metadata.metadata_json := None |}.

Definition with_backups (rows : list backup_metadata.row) (w : World) : World :=
  set_ledger {| backups := rows; wals := wals (ledger w);
                restores := restores (ledger w) |} w.

(** A dump, an upload and a store that would all work. *)
Definition all_works : BackupEngine.full_env :=
  {| BackupEngine.full_uuid4 := "b-full";
     BackupEngine.full_start := utc 0;
     BackupEngine.full_start_label := "20240115-000000";
     BackupEngine.full_hostname := "db1";
     BackupEngine.full_psql := Exited 0 " PostgreSQL 13.7 " "";
     BackupEngine.full_db_create := Executes;
     BackupEngine.full_pg_dump := Exited 0 "" "";
     BackupEngine.full_pg_dump_output := Some segment_bytes;
     BackupEngine.full_gzip := fun _ _ => GzipRaises None;
     BackupEngine.full_net := clean_transfer segment_bytes;
     BackupEngine.full_end := utc 60;
     BackupEngine.full_db_completed := Executes;
     BackupEngine.full_failed_at := utc 61;
     BackupEngine.full_db_failed := Executes |}.


(** A running record of a full backup. *)
Definition running_full (id : string) : backup_metadata.row :=
  {| backup_metadata.backup_id := id;
     backup_metadata.backup_type := "full";
     backup_metadata.status := "running";
     backup_metadata.start_ts := utc 0;
     backup_metadata.end_ts := None;
     backup_metadata.size_bytes := None;
     backup_metadata.s3_key := None;
     backup_metadata.s3_bucket := None;
     backup_metadata.checksum := None;
     backup_metadata.compression := None;
     backup_metadata.encryption := None;
     backup_metadata.label := None;
     backup_metadata.description := None;
     backup_metadata.metadata_json := None |}.

(** The dictionary that has every key of the [INSERT], with the values of a
    row and no [metadata_json]. *)
Definition every_key (r : backup_metadata.row) : backup_data.t :=
  {| backup_data.backup_id := Some (Some (backup_metadata.backup_id r));
     backup_data.backup_type := Some (Some (backup_metadata.backup_type r));
     backup_data.status := Some (Some (backup_metadata.status r));
     backup_data.start_ts := Some (Some (backup_metadata.start_ts r));
     backup_data.end_ts := Some (backup_metadata.end_ts r);
     backup_data.size_bytes := Some (backup_metadata.size_bytes r);
     backup_data.s3_key := Some (backup_metadata.s3_key r);
     backup_data.s3_bucket := Some (backup_metadata.s3_bucket r);
     backup_data.checksum := Some (backup_metadata.checksum r);
     backup_data.compression := Some (backup_metadata.compression r);
     backup_data.encryption := Some (backup_metadata.encryption r);
     backup_data.label := Some (backup_metadata.label r);
     backup_data.description := Some (backup_metadata.description r);
     backup_data.metadata_json := Some None |}.

(** The ledger after three calls: a record is created as [running], marked
    [completed] without any field, then marked [running] again. *)
Definition after_create : World :=
  snd (MetadataManager.create_backup_record Executes (every_key (running_full "b1"))
         empty_world).

(** A transfer that stores a corrupted object. *)
Definition corrupting_transfer : transfer :=
  {| utcnow_ymd := "2024/01/15";
     utcnow_iso := "2024-01-15T10:30:00";
     net_put := PutStores [Byte.x00];
     net_head := NetOk;
     net_get := NetOk |}.

(** A transfer in which every call raises. *)
Definition broken_transfer : transfer :=
  {| utcnow_ymd := "2024/01/15";
     utcnow_iso := "2024-01-15T10:30:00";
     net_put := PutRaises "Connection reset by peer";
     net_head := NetRaises "Connection reset by peer";
     net_get := NetRaises "Connection reset by peer" |}.

(** Two archived segments of the backup [base]: their intervals end 10 and
    12 seconds after midnight. *)
Definition segment_b : string := "00000001000000000000B.gz".
Definition segment_b_key : string :=
  "test-backups/incremental/2024/01/15/00000001000000000000B.gz".

Definition archived (name key : string) (seq ends : Z) : wal_metadata.row :=
  {| wal_metadata.wal_name := name;
     wal_metadata.backup_id := Some "base";
     wal_metadata.start_ts := utc 0;
     wal_metadata.end_ts := utc ends;
     wal_metadata.size_bytes := Some 3;
     wal_metadata.s3_key := Some key;
     wal_metadata.checksum := Some "06";
     wal_metadata.sequence_number := Some seq |}.

Definition first_segment : wal_metadata.row := archived segment_a segment_a_key 1 10.
Definition second_segment : wal_metadata.row := archived segment_b segment_b_key 2 12.

Definition stored (content : bytes) (checksum : string) : s3_object :=
  {| body := content;
     Metadata := <["checksum" := checksum]> ∅;
     ServerSideEncryption := Some "AES256";
     SSEKMSKeyId := None |}.

(** The base artifact and both segments are in the bucket; the ledger knows
    the base backup and the two segments. *)
Definition archive : World :=
  {| files := ∅;
     bucket :=
       <["test-backups/full/2024/01/14/base.sql" := stored segment_bytes "06"]>
         (<[segment_a_key := stored segment_bytes "06"]>
            (<[segment_b_key := stored segment_bytes "06"]> ∅));
     ledger := {| backups := [completed_full "base"];
                  wals := [first_segment; second_segment];
                  restores := [] |};
     log := [];
     procs := [] |}.

Definition seven_past_midnight : string := "2024-01-15T00:00:07+00:00".

(** A restore in which everything works, except that the transfer of the
    keys in [unreachable] raises. *)
Definition restore_run (unreachable : list string) : RestoreEngine.restore_env :=
  {| RestoreEngine.restore_uuid4 := "r-1";
     RestoreEngine.restore_start := utc 100;
     RestoreEngine.db_latest := Executes;
     RestoreEngine.db_get := Executes;
     RestoreEngine.makedirs_error := None;
     RestoreEngine.fromisoformat := fun s =>
       if String.eqb s seven_past_midnight then Some (utc 7) else None;
     RestoreEngine.db_create := Executes;
     RestoreEngine.net_base := clean_transfer segment_bytes;
     RestoreEngine.gunzip := fun _ => GzipRaises None;
     RestoreEngine.restore_tool := Exited 0 "" "";
     RestoreEngine.db_wals := Executes;
     RestoreEngine.net_wal := fun key =>
       if existsb (String.eqb key) unreachable then broken_transfer
       else clean_transfer segment_bytes;
     RestoreEngine.walfile_tool := fun _ => Exited 0 "" "";
     RestoreEngine.recovery_conf_error := None;
     RestoreEngine.restore_end := utc 200;
     RestoreEngine.db_completed := Executes;
     RestoreEngine.failed_at := utc 201;
     RestoreEngine.db_failed := Executes |}.

(** Two rows of one backup whose names differ in the case of a digit. *)
Definition upper_a : string := "00000000000000000000A.gz".
Definition lower_a : string := "00000000000000000000a.gz".

Definition same_number_twice : World :=
  set_ledger
    {| backups := [completed_full "base"];
       wals := [archived upper_a "k1" (BackupEngine._extract_wal_sequence upper_a) 10;
                archived lower_a "k2" (BackupEngine._extract_wal_sequence lower_a) 12];
       restores := [] |} empty_world.

(** A ledger with one old and one recent full backup, and a clock. *)
Definition old_and_recent : World :=
  with_backups
    [{| backup_metadata.backup_id := "old";
        backup_metadata.backup_type := "full";
        backup_metadata.status := "completed";
        backup_metadata.start_ts := utc (-(31 * 86400));
        backup_metadata.end_ts := None;
        backup_metadata.size_bytes := Some 3;
        backup_metadata.s3_key := Some "test-backups/full/2024/01/14/base.sql";
        backup_metadata.s3_bucket := None;
        backup_metadata.checksum := Some "06";
        backup_metadata.compression := None;
        backup_metadata.encryption := None;
        backup_metadata.label := None;
        backup_metadata.description := None;
        backup_metadata.metadata_json := None |};
     completed_full "recent"] archive.

Definition prune_run : Cli.prune_env :=
  {| Cli.db_scan := Executes;
     Cli.now := fun _ => {| wall := wall (utc 0); utcoffset := None |};
     Cli.net_delete := fun _ => NetOk |}.
(** ** More vocabulary: the ledger *)

(** What the schema promises of the three tables: no two rows of
    [backup_metadata] share a [backup_id], no two rows of
    [restore_operations] share a [restore_id], and every non-null
    [backup_id] of [wal_metadata] and of [restore_operations] is the
    [backup_id] of a row of [backup_metadata]. *)
Definition ledger_consistent (l : Ledger) : Prop :=
  NoDup (map backup_metadata.backup_id (backups l))
  /\ NoDup (map restore_operations.restore_id (restores l))
  /\ Forall (fun r => MetadataManager.references_backup l (wal_metadata.backup_id r) = true)
       (wals l)
  /\ Forall (fun r =>
               MetadataManager.references_backup l (restore_operations.backup_id r) = true)
       (restores l).

(** A run that takes a consistent ledger to a consistent ledger. *)
Definition stays_consistent : World -> World -> Prop :=
  fun w w' => ledger_consistent (ledger w) -> ledger_consistent (ledger w').

(** The rows [list_backups] selects from. *)
Definition matching (backup_type status : option string) (r : backup_metadata.row)
  : bool :=
  MetadataManager.opt_filter backup_type (backup_metadata.backup_type r)
  && MetadataManager.opt_filter status (backup_metadata.status r).

(** A completed backup of a kind. *)
Definition completed_of (backup_type : string) (r : backup_metadata.row) : Prop :=
  backup_metadata.backup_type r = backup_type
  /\ backup_metadata.status r = "completed".
(** ** More vocabulary: the gateway *)

(** A file name without a slash. *)
Fixpoint no_slash (s : string) : bool :=
  match s with
  | EmptyString => true
  | String c r => negb (Ascii.eqb c "/") && no_slash r
  end.

(** The object [upload_file] asks the transport to store. *)
Definition uploaded_object {sha256 : HashAlgorithm} (self : S3Client) (net : transfer)
    (name backup_type : string) (content stored : bytes) : s3_object :=
  {| body := stored;
     Metadata := upload_metadata net name (digest_hex content) backup_type;
     ServerSideEncryption := fst (encryption_args self);
     SSEKMSKeyId := snd (encryption_args self) |}.
(** ** More vocabulary: the backup engine *)

(** The name PostgreSQL gives a WAL segment: 24 hexadecimal digits. *)
Definition pg_segment_name (s : string) : Prop :=
  String.length s = 24%nat /\ wal_digits s = true.

(** The directory [_get_wal_files] scans. *)
Definition wal_directory (self : BackupEngine.t) : string :=
  default "/var/lib/postgresql/data/pg_wal"
    (BackupEngine.pg_config self !! "wal_directory").
(** ** More vocabulary: the restore engine *)

(** The connection of a call is open, or can be opened. *)
Definition connection_opens (db : db_call) : Prop :=
  match db with
  | Unreachable _ => False
  | Statement _ | ConnectionLost _ _ => True
  end.
(** ** More vocabulary: what [prune] removes *)

(** The scan holds a record of the backup [id] that is older than its
    retention threshold when its turn comes, it names the object [key], and
    the transport executes the deletion of that key. *)
Definition pruned_object (env : Cli.prune_env) (policy : gmap string Z) (turn : nat)
    (scanned : list backup_metadata.row) (id key : string) : Prop :=
  exists i b,
    scanned !! i = Some b
    /\ exceeds_retention policy b (Cli.backup_age (Cli.now env (turn + i)) b)
    /\ backup_metadata.backup_id b = id
    /\ backup_metadata.s3_key b = Some key
    /\ key <> ""
    /\ Cli.net_delete env key = NetOk.
(** ** More vocabulary: the external tools *)

(** The command [_execute_pg_dump] runs for a backup identifier. *)
Definition pg_dump_command (self : BackupEngine.t) (backup_id : string) : list string :=
  ("pg_dump" :: BackupEngine.connection_args self
     ++ ["-U"; default "" (BackupEngine.pg_config self !! "user");
         "-d"; default "" (BackupEngine.pg_config self !! "database");
         "-f"; Py.path_join (BackupEngine.temp_dir self) (backup_id ++ ".sql");
         "--verbose"; "--no-password"; "--format=custom"; "--compress=9"])%list.

(** A key whose last component is named as [create_full_backup] names its
    artifact: [<stem>.sql], or [<stem>.sql.gz] when it was compressed. *)
Definition sql_artifact (key : string) : Prop :=
  exists stem, Py.basename key = stem ++ ".sql" \/ Py.basename key = stem ++ ".sql.gz".

(** The local file [restore_backup] hands to [_restore_base_backup] for the
    artifact stored under a key: the copy in the temporary directory, named
    by the last component of the key, without its [.gz]. *)
Definition restored_file (self : RestoreEngine.t) (key : string) : string :=
  let local_path := Py.path_join (RestoreEngine.temp_dir self) (Py.basename key) in
  if Py.endswith local_path ".gz" then Py.drop_last3 local_path else local_path.

(** The command [_restore_base_backup] runs for a file. *)
Definition restore_command (backup_file : string) : list string :=
  if Py.endswith backup_file ".dump" || Py.endswith backup_file ".backup" then
    ["pg_restore"; "-h"; "localhost"; "-p"; "5433"; "-U"; "postgres";
     "-d"; "postgres_restore"; "--verbose"; "--clean"; "--if-exists";
     "--no-password"; backup_file]
  else
    ["psql"; "-h"; "localhost"; "-p"; "5433"; "-U"; "postgres";
     "-d"; "postgres_restore"; "-f"; backup_file].
(** ** More of Python's [str], and [int] *)

Module PyStr.

(** [c in s] for a one-character [c]. *)
Fixpoint contains (c : ascii) (s : string) : bool :=
  match s with
  | EmptyString => false
  | String a r => Ascii.eqb a c || contains c r
  end.

(** [s.split(sep)] for a one-character separator: never empty. *)
Fixpoint split (sep : ascii) (s : string) : list string :=
  match s with
  | EmptyString => [""]
  | String a r =>
      if Ascii.eqb a sep then "" :: split sep r
      else
        match split sep r with
        | first :: others => String a first :: others
        | [] => [String a ""]
        end
  end.

(** [s.split(sep, 1)] for a separator that occurs in [s]: what stands
    before its first occurrence, and what stands after it. *)
Fixpoint split_once (sep : ascii) (s : string) : string * string :=
  match s with
  | EmptyString => ("", "")
  | String a r =>
      if Ascii.eqb a sep then ("", r)
      else let '(before, after) := split_once sep r in (String a before, after)
  end.

(** [s[2:-1]]. *)
Definition slice_2_m1 (s : string) : string :=
  String.substring 2 (String.length s - 3) s.

(** *** [int(s)]

    Leading and trailing white space is stripped, one sign is accepted,
    then decimal digits in which single underscores may separate digits.
    [None] stands for [ValueError].  [max_str_digits] is the interpreter's
    limit on the number of digits ([sys.get_int_max_str_digits()]: 0 for no
    limit, as in the interpreters that have none; otherwise 640 at least,
    4300 by default). *)

Definition dec_value (c : ascii) : option Z :=
  if Py.between 48 57 c then Some (Z.of_N (Py.code c) - 48) else None.

Fixpoint dec_digits (acc : Z) (after_us : bool) (s : string) : option Z :=
  match s with
  | EmptyString => if after_us then None else Some acc
  | String c r =>
      if Ascii.eqb c "_" then
        if after_us then None else dec_digits acc true r
      else
        match dec_value c with
        | Some d => dec_digits (10 * acc + d) false r
        | None => None
        end
  end.

Definition dec_number (s : string) : option Z :=
  match s with
  | EmptyString => None
  | String c _ => if Ascii.eqb c "_" then None else dec_digits 0 false s
  end.

Fixpoint count_digits (s : string) : nat :=
  match s with
  | EmptyString => 0
  | String c r => ((if Py.between 48 57 c then 1 else 0) + count_digits r)%nat
  end.

Definition int10 (max_str_digits : nat) (s : string) : option Z :=
  let within (digits : string) : bool :=
    Nat.eqb max_str_digits 0 || Nat.leb (count_digits digits) max_str_digits in
  match Py.strip s with
  | String "+" r => if within r then dec_number r else None
  | String "-" r => if within r then option_map Z.opp (dec_number r) else None
  | t => if within t then dec_number t else None
  end.

Definition invalid_literal (s : string) : exn :=
  "invalid literal for int() with base 10: '" ++ s ++ "'".

End PyStr.

(** ** [cli.py]: the [--policy] option of [prune] *)

Module CliOptions.

(** [for rule in policy.split(','): if '=' in rule: ...]: a rule
    [key=value] stores [int(value)] under [key]; anything else is skipped. *)
Fixpoint apply_rules (max_str_digits : nat) (rules : list string)
    (retention_config : gmap string Z) : result (gmap string Z) :=
  match rules with
  | [] => Return retention_config
  | rule :: rest =>
      if PyStr.contains "=" rule then
        let '(key, value) := PyStr.split_once "=" rule in
        match PyStr.int10 max_str_digits value with
        | Some n => apply_rules max_str_digits rest (<[key := n]> retention_config)
        | None => Raise (PyStr.invalid_literal value)
        end
      else apply_rules max_str_digits rest retention_config
  end.

(** The retention policy [prune] works with: the configured one, with the
    overrides of [--policy]. *)
Definition parse_policy (max_str_digits : nat) (retention_config : gmap string Z)
    (policy : option string) : result (gmap string Z) :=
  if Py.truthy policy
  then apply_rules max_str_digits (PyStr.split "," (default "" policy)) retention_config
  else Return retention_config.

(** A computation that changes nothing. *)
Definition pure {A} (r : result A) : M A := fun w => (r, w).

(** The [try] block of the [prune] command, from the parsing of [--policy]
    on, with its handler; [None] stands for [sys.exit(1)]. *)
Definition prune (backup_engine : BackupEngine.t) (env : Cli.prune_env)
    (max_str_digits : nat) (retention_config : gmap string Z)
    (policy : option string) (dry_run : bool) : M (option (list Cli.candidate)) :=
  try_except
    (retention_config <- pure (parse_policy max_str_digits retention_config policy) ;;
     pruned_backups <- Cli.prune backup_engine env retention_config dry_run ;;
     ret (Some pruned_backups))
    (fun e =>
       logger_error ("Erro no prune: " ++ e) ;;
       ret None).

End CliOptions.

(** The keys of the rules of a [--policy] value. *)
Definition rule_keys (policy : string) : list string :=
  map (fun rule => fst (PyStr.split_once "=" rule))
    (List.filter (PyStr.contains "=") (PyStr.split "," policy)).
(** ** [utils/config.py] *)

Module Config.

(** What [yaml.safe_load] returns.  A mapping is kept as its entries under
    string keys, with a flag for the presence of keys that are not strings
    (no lookup of the modelled code finds those); [YOther] stands for every
    other value (a float, a date, ...), of which the modelled code reads the
    truth value only. *)
#[warnings="-register-all"] Inductive yaml :=
| YNull
| YBool (b : bool)
| YInt (n : Z)
| YStr (s : string)
| YList (items : list yaml)
| YDict (entries : gmap string yaml) (other_keys : bool)
| YOther (truth : bool).

(** [bool(value)]. *)
Definition truth (value : yaml) : bool :=
  match value with
  | YNull => false
  | YBool b => b
  | YInt n => negb (n =? 0)
  | YStr s => negb (String.eqb s "")
  | YList items => match items with [] => false | _ => true end
  | YDict entries other_keys => negb (bool_decide (entries = ∅)) || other_keys
  | YOther t => t
  end.

(** [for k in keys: ...]: [None] when the loop returns the default. *)
Fixpoint descend (keys : list string) (value : yaml) : option yaml :=
  match keys with
  | [] => Some value
  | k :: rest =>
      match value with
      | YDict entries _ =>
          match entries !! k with
          | Some inner => descend rest inner
          | None => None
          end
      | _ => None
      end
  end.

(** [Config.get]; [self] is [self._config], [environ] is [os.environ]. *)
Definition get (self : yaml) (environ : gmap string string) (key : string)
    (default : yaml) : yaml :=
  let keys := PyStr.split "." key in
  match descend keys self with
  | None => default
  | Some (YStr value) =>
      if Py.startswith value "${" && Py.endswith value "}" then
        let env_var := PyStr.slice_2_m1 value in
        if PyStr.contains ":" env_var then
          let '(var_name, default_value) := PyStr.split_once ":" env_var in
          match environ !! var_name with
          | Some v => YStr v
          | None => YStr default_value
          end
        else
          match environ !! env_var with
          | Some v => YStr v
          | None => YNull
          end
      else YStr value
  | Some value => value
  end.

Definition get_postgresql_config (self : yaml) (environ : gmap string string) : yaml :=
  get self environ "postgresql" (YDict ∅ false).
Definition get_aws_config (self : yaml) (environ : gmap string string) : yaml :=
  get self environ "aws" (YDict ∅ false).
Definition get_backup_config (self : yaml) (environ : gmap string string) : yaml :=
  get self environ "backup" (YDict ∅ false).
Definition get_logging_config (self : yaml) (environ : gmap string string) : yaml :=
  get self environ "logging" (YDict ∅ false).
Definition get_alerts_config (self : yaml) (environ : gmap string string) : yaml :=
  get self environ "alerts" (YDict ∅ false).

Definition required_keys : list string :=
  ["postgresql.host"; "postgresql.user"; "postgresql.database"; "aws.bucket"].

(** [for key in required_keys: if not self.get(key): raise ValueError(...)]. *)
Fixpoint check_keys (self : yaml) (environ : gmap string string)
    (keys : list string) : result bool :=
  match keys with
  | [] => Return true
  | key :: rest =>
      if negb (truth (get self environ key YNull))
      then Raise ("Configuração obrigatória ausente: " ++ key)
      else check_keys self environ rest
  end.

Definition validate (self : yaml) (environ : gmap string string) : result bool :=
  check_keys self environ required_keys.

End Config.

(** A reference to the environment as the configuration file writes it. *)
Definition env_reference (body : string) : string := "${" ++ body ++ "}".
(** ** [utils/logger.py]: the size of the log file *)

Module Logger.

(** [str.upper()], on ASCII text. *)
Definition upper_char (c : ascii) : ascii :=
  if Py.is_lower c then ascii_of_N (Py.code c - 32) else c.

Fixpoint upper (s : string) : string :=
  match s with
  | EmptyString => EmptyString
  | String c r => String (upper_char c) (upper r)
  end.

(** [s[:-2]]. *)
Definition drop_last2 (s : string) : string :=
  String.substring 0 (String.length s - 2) s.

(** [int(text) * unit]. *)
Definition scaled (max_str_digits : nat) (text : string) (unit : Z) : result Z :=
  match PyStr.int10 max_str_digits text with
  | Some n => Return (n * unit)
  | None => Raise (PyStr.invalid_literal text)
  end.

Definition _parse_size (max_str_digits : nat) (size_str : string) : result Z :=
  let size_str := upper size_str in
  if Py.endswith size_str "KB" then
    scaled max_str_digits (drop_last2 size_str) 1024
  else if Py.endswith size_str "MB" then
    scaled max_str_digits (drop_last2 size_str) (1024 * 1024)
  else if Py.endswith size_str "GB" then
    scaled max_str_digits (drop_last2 size_str) (1024 * 1024 * 1024)
  else scaled max_str_digits size_str 1.

End Logger.

(** A string of decimal digits, and the number it writes. *)
Fixpoint all_digits (s : string) : bool :=
  match s with
  | EmptyString => true
  | String c r => Py.between 48 57 c && all_digits r
  end.

Fixpoint decimal (acc : Z) (s : string) : Z :=
  match s with
  | EmptyString => acc
  | String c r => decimal (10 * acc + (Z.of_N (Py.code c) - 48)) r
  end.

(** The number of digits is within the interpreter's limit. *)
Definition within_limit (max_str_digits : nat) (s : string) : Prop :=
  max_str_digits = 0%nat \/ (String.length s <= max_str_digits)%nat.

(** A string without white space. *)
Fixpoint no_space (s : string) : bool :=
  match s with
  | EmptyString => true
  | String c r => negb (Py.is_space c) && no_space r
  end.

(** ** [core/restore.py]: the state of a restore *)

Module RestoreStatus.



End RestoreStatus.
(** ** [utils/crypto.py]: [encrypt_file] and [decrypt_file] *)

(** The part of the [cryptography] package the two functions use: the key
    derivation ([PBKDF2HMAC] with the fixed salt, then base 64), and Fernet.
    A Fernet token depends on the key, on the data and on what the library
    draws when it builds the token (the initialisation vector and the
    time); [decrypt] returns [None] where the library raises
    [InvalidToken].  What is assumed of the library is that a token opens
    to its data under the key that made it. *)
Class Fernet := {
  derive_key : bytes -> bytes;
  encrypt : bytes -> bytes -> bytes -> bytes;
  decrypt : bytes -> bytes -> option bytes;
  decrypt_encrypt : forall key drawn data,
    decrypt key (encrypt key drawn data) = Some data
}.

Module Encryption.
Section Files.
Context {fernet : Fernet}.

(** [shutil.copy2(input_path, output_path)], which the handlers of
    [ImportError] run: it raises outside of any [try]. *)
Definition copy2 (input_path output_path : string) : M bool :=
  fun w =>
    if String.eqb input_path output_path then
      (Raise ("'" ++ input_path ++ "' and '" ++ output_path ++ "' are the same file"), w)
    else
      match files w !! input_path with
      | Some data =>
          (Return true, set_files (<[output_path := data]> (files w)) w)
      | None =>
          (Raise ("[Errno 2] No such file or directory: '" ++ input_path ++ "'"), w)
      end.

(** [installed] tells whether the import of [cryptography] succeeds;
    [drawn] is what Fernet draws for the token.  Every exception of the
    [try] block other than [ImportError] ends in [return False]. *)
Definition encrypt_file (installed : bool) (drawn : bytes)
    (input_path output_path : string) (key : bytes) : M bool :=
  if installed then
    fun w =>
      match files w !! input_path with
      | Some data =>
          let encrypted_data := encrypt (derive_key key) drawn data in
          (Return true, set_files (<[output_path := encrypted_data]> (files w)) w)
      | None => (Return false, w)
      end
  else copy2 input_path output_path.

Definition decrypt_file (installed : bool)
    (input_path output_path : string) (key : bytes) : M bool :=
  if installed then
    fun w =>
      match files w !! input_path with
      | Some encrypted_data =>
          match decrypt (derive_key key) encrypted_data with
          | Some decrypted_data =>
              (Return true,
               set_files (<[output_path := decrypted_data]> (files w)) w)
          | None => (Return false, w)
          end
      | None => (Return false, w)
      end
  else copy2 input_path output_path.

End Files.
End Encryption.

(** A toy instance, for the examples: the token is the key followed by the
    data. *)
Fixpoint strip_prefix (p l : bytes) : option bytes :=
  match p, l with
  | [], _ => Some l
  | a :: p', b :: l' => if Byte.eqb a b then strip_prefix p' l' else None
  | _ :: _, [] => None
  end.

Lemma strip_prefix_app p l : strip_prefix p (p ++ l)%list = Some l.
Proof.
  induction p as [|a p IH]; [reflexivity|]. cbn.
  now rewrite (Byte.byte_dec_lb eq_refl).
Qed.

Definition key_prefix : Fernet :=
  {| derive_key := fun key => key;
     encrypt := fun key _ data => (key ++ data)%list;
     decrypt := strip_prefix;
     decrypt_encrypt := fun key _ data => strip_prefix_app key data |}.
(** * Facts *)

Lemma code_inj c d : Py.code c = Py.code d -> c = d.
Proof.
  unfold Py.code. intros H.
  rewrite <- (ascii_N_embedding c), <- (ascii_N_embedding d). now rewrite H.
Qed.

Lemma code_lt c : (Py.code c < 256)%N.
Proof. apply N_ascii_bounded. Qed.

Lemma between_iff lo hi c :
  Py.between lo hi c = true <-> (lo <= Py.code c <= hi)%N.
Proof. unfold Py.between. rewrite andb_true_iff, !N.leb_le. tauto. Qed.

Lemma between_false_iff lo hi c :
  Py.between lo hi c = false <-> (Py.code c < lo \/ hi < Py.code c)%N.
Proof. unfold Py.between. rewrite andb_false_iff, !N.leb_gt. tauto. Qed.

Lemma code_lower_char c :
  Py.code (Py.lower_char c) = if Py.is_upper c then (Py.code c + 32)%N else Py.code c.
Proof.
  unfold Py.lower_char. destruct (Py.is_upper c) eqn:E; [|reflexivity].
  unfold Py.code at 1. apply N_ascii_embedding.
  apply between_iff in E. lia.
Qed.

Lemma lower_char_eq_iff c d :
  Py.lower_char c = Py.lower_char d <-> same_letter c d.
Proof.
  unfold same_letter. split.
  - intros H. apply (f_equal Py.code) in H. rewrite !code_lower_char in H.
    destruct (Py.is_upper c) eqn:Ec, (Py.is_upper d) eqn:Ed.
    + left. apply code_inj. lia.
    + right; left. split; [reflexivity | lia].
    + right; right. split; [reflexivity | lia].
    + left. now apply code_inj.
  - intros [-> | [[Hc Hd] | [Hd Hc]]]; [reflexivity | |]; apply code_inj;
      rewrite !code_lower_char.
    + rewrite Hc. destruct (Py.is_upper d) eqn:Ed; [|lia].
      apply between_iff in Hc, Ed. lia.
    + rewrite Hd. destruct (Py.is_upper c) eqn:Ec; [|lia].
      apply between_iff in Hd, Ec. lia.
Qed.

Lemma lower_eq_iff a b : Py.lower a = Py.lower b <-> same_up_to_case a b.
Proof.
  split.
  - revert b. induction a as [|c a IH]; intros [|d b] H; cbn in H; try discriminate.
    + constructor.
    + injection H as Hc Hr. constructor; [now apply lower_char_eq_iff | now apply IH].
  - induction 1 as [|c d s t Hcd _ IH]; [reflexivity|].
    cbn. f_equal; [now apply lower_char_eq_iff | exact IH].
Qed.

Section CryptoFacts.
Context {sha256 : HashAlgorithm}.

Lemma read_chunks_all fuel : forall rest h,
  (length rest <= fuel)%nat -> fed (read_chunks fuel rest h) = (fed h ++ rest)%list.
Proof.
  induction fuel as [|fuel IH]; intros rest h Hlen.
  - destruct rest; [|cbn in Hlen; lia]. cbn. now rewrite app_nil_r.
  - cbn [read_chunks].
    destruct (firstn 4096 rest) as [|x chunk] eqn:E.
    + destruct rest; [now rewrite app_nil_r | discriminate].
    + rewrite IH.
      * unfold hash_update. cbn [fed]. rewrite <- E, <- app_assoc.
        now rewrite firstn_skipn.
      * pose proof (length_skipn 4096 rest).
        destruct rest; [discriminate|]. cbn [length] in *. lia.
Qed.

Lemma calculate_checksum_reads w file_path content :
  files w !! file_path = Some content ->
  calculate_checksum file_path w = (Return (digest_hex content), w).
Proof.
  intros Hf. unfold calculate_checksum, bind, open_rb, ret. rewrite Hf.
  unfold hexdigest. now rewrite read_chunks_all.
Qed.

Lemma calculate_checksum_missing w file_path :
  files w !! file_path = None ->
  exists e, calculate_checksum file_path w = (Raise e, w).
Proof.
  intros Hf. unfold calculate_checksum, bind, open_rb. rewrite Hf. eauto.
Qed.

Lemma verify_checksum_reads w file_path content expected :
  files w !! file_path = Some content ->
  verify_checksum file_path expected w
  = (Return (Py.str_eq (digest_hex content) (Py.lower expected)), w).
Proof.
  intros Hf. unfold verify_checksum, bind.
  rewrite (calculate_checksum_reads _ _ _ Hf). unfold ret.
  now rewrite digest_hex_lower.
Qed.

(** C10. [verify_checksum] succeeds exactly when the digest computed from
    the file and the expected string are equal up to the case of their ASCII
    letters. *)
Theorem verify_checksum_ignores_case w file_path content expected_checksum :
  files w !! file_path = Some content ->
  exists ok,
    verify_checksum file_path expected_checksum w = (Return ok, w)
    /\ (ok = true <-> same_up_to_case (digest_hex content) expected_checksum).
Proof.
  intros Hf. eexists. split; [apply (verify_checksum_reads _ _ _ _ Hf)|].
  unfold Py.str_eq. rewrite String.eqb_eq, <- lower_eq_iff.
  now rewrite digest_hex_lower.
Qed.

End CryptoFacts.

Lemma verify_checksum_ignores_case_witness :
  exists ok,
    verify_checksum (sha256 := sum8) "/tmp/a" "AB" (one_file "/tmp/a" [Byte.xab])
    = (Return ok, one_file "/tmp/a" [Byte.xab])
    /\ (ok = true <-> same_up_to_case (digest_hex (HashAlgorithm := sum8) [Byte.xab]) "AB").
Proof.
  apply (verify_checksum_ignores_case (sha256 := sum8)). reflexivity.
Defined.
(** ** Facts about segment names and [int(s, 16)] *)

Lemma append_cons c r s : String c r ++ s = String c (r ++ s).
Proof. reflexivity. Qed.

Lemma append_empty_l s : "" ++ s = s.
Proof. reflexivity. Qed.

Lemma rev_string_rev s : forall a b,
  Py.rev_string (Py.rev_string s a) b = Py.rev_string a (s ++ b).
Proof.
  induction s as [|c r IH]; intros a b; [reflexivity|].
  cbn [Py.rev_string]. now rewrite IH, append_cons.
Qed.

Lemma append_empty_r s : s ++ "" = s.
Proof. induction s as [|c r IH]; [reflexivity|]. now rewrite append_cons, IH. Qed.

Lemma rev_string_involutive s : Py.rev_string (Py.rev_string s "") "" = s.
Proof. rewrite rev_string_rev. apply append_empty_r. Qed.

Lemma wal_digits_rev s : forall acc,
  wal_digits (Py.rev_string s acc) = wal_digits s && wal_digits acc.
Proof.
  induction s as [|c r IH]; intros acc; [reflexivity|].
  cbn [Py.rev_string wal_digits]. rewrite IH. cbn [wal_digits].
  now destruct (is_wal_digit c), (wal_digits r), (wal_digits acc).
Qed.

Lemma wal_digit_code c :
  is_wal_digit c = true <-> (48 <= Py.code c <= 57 \/ 65 <= Py.code c <= 70)%N.
Proof. unfold is_wal_digit. now rewrite orb_true_iff, !between_iff. Qed.

Lemma wal_digit_not_space c : is_wal_digit c = true -> Py.is_space c = false.
Proof.
  rewrite wal_digit_code. intros H. unfold Py.is_space.
  apply orb_false_iff. rewrite !between_false_iff. lia.
Qed.

Lemma lstrip_wal_digits s : wal_digits s = true -> Py.lstrip s = s.
Proof.
  destruct s as [|c r]; [reflexivity|]. cbn. intros H.
  apply andb_true_iff in H as [Hc _]. now rewrite (wal_digit_not_space c Hc).
Qed.

Lemma strip_wal_digits s : wal_digits s = true -> Py.strip s = s.
Proof.
  intros H. unfold Py.strip. rewrite (lstrip_wal_digits s H).
  rewrite lstrip_wal_digits; [apply rev_string_involutive|].
  rewrite wal_digits_rev, H. reflexivity.
Qed.

Lemma ascii_eqb_code c d : Ascii.eqb c d = (Py.code c =? Py.code d)%N.
Proof.
  destruct (Ascii.eqb_spec c d) as [->|Hne]; symmetry.
  - apply N.eqb_refl.
  - apply N.eqb_neq. intros H. apply Hne. now apply code_inj.
Qed.

Lemma hex_value_wal_digit c :
  is_wal_digit c = true ->
  exists d, Py.hex_value c = Some d /\ 0 <= d < 16
            /\ d = (if Py.between 48 57 c then Z.of_N (Py.code c) - 48
                    else Z.of_N (Py.code c) - 55).
Proof.
  intros H. apply wal_digit_code in H. unfold Py.hex_value.
  destruct (Py.between 48 57 c) eqn:E1.
  - apply between_iff in E1. eexists. split; [reflexivity|]. lia.
  - apply between_false_iff in E1.
    destruct (Py.between 65 70 c) eqn:E2.
    + apply between_iff in E2. eexists. split; [reflexivity|]. lia.
    + apply between_false_iff in E2. lia.
Qed.

Lemma hex_digits_wal_digits s : forall acc,
  wal_digits s = true -> Py.hex_digits acc false s = Some (base16 acc s).
Proof.
  induction s as [|c r IH]; intros acc H; [reflexivity|].
  cbn in H. apply andb_true_iff in H as [Hc Hr].
  cbn [Py.hex_digits base16].
  destruct (hex_value_wal_digit c Hc) as (d & Hd & _ & _).
  rewrite ascii_eqb_code.
  replace (Py.code c =? Py.code "_")%N with false.
  - rewrite Hd. cbn [default]. now apply IH.
  - symmetry. apply N.eqb_neq. apply wal_digit_code in Hc.
    change (Py.code "_") with 95%N. lia.
Qed.

Lemma skip_0x_wal_digits s : wal_digits s = true -> Py.skip_0x s = s.
Proof.
  destruct s as [|c1 [|c2 r]]; intros H.
  - reflexivity.
  - destruct c1 as [[] [] [] [] [] [] [] []]; reflexivity.
  - cbn in H. apply andb_true_iff in H as [_ H].
    apply andb_true_iff in H as [H2 _].
    assert (Hx : Ascii.eqb c2 "x" || Ascii.eqb c2 "X" = false).
    { rewrite !ascii_eqb_code. apply wal_digit_code in H2.
      change (Py.code "x") with 120%N. change (Py.code "X") with 88%N.
      apply orb_false_iff. rewrite !N.eqb_neq. lia. }
    destruct c1 as [[] [] [] [] [] [] [] []]; try reflexivity.
    cbn. now rewrite Hx.
Qed.

Lemma int16_no_sign c r :
  c <> "+"%char -> c <> "-"%char -> Py.strip (String c r) = String c r ->
  Py.int16 (String c r) = Py.hex_number (Py.skip_0x (String c r)).
Proof.
  intros Hp Hm Hs. unfold Py.int16. rewrite Hs.
  destruct c as [[] [] [] [] [] [] [] []]; try reflexivity; congruence.
Qed.

(** On a non-empty string of segment digits [int(s, 16)] is the base-16
    value. *)
Lemma int16_wal_digits s :
  wal_digits s = true -> s <> "" -> Py.int16 s = Some (base16 0 s).
Proof.
  intros H Hne. destruct s as [|c r]; [congruence|].
  assert (Hc : is_wal_digit c = true).
  { cbn in H. now apply andb_true_iff in H as [Hc _]. }
  apply wal_digit_code in Hc.
  rewrite int16_no_sign.
  - rewrite (skip_0x_wal_digits _ H). unfold Py.hex_number.
    rewrite ascii_eqb_code.
    replace (Py.code c =? Py.code "_")%N with false.
    + now apply hex_digits_wal_digits.
    + symmetry. apply N.eqb_neq. change (Py.code "_") with 95%N. lia.
  - intros ->. change (Py.code "+") with 43%N in Hc. lia.
  - intros ->. change (Py.code "-") with 45%N in Hc. lia.
  - now apply strip_wal_digits.
Qed.

Lemma before_dot_wal_digits s ext :
  wal_digits s = true -> (ext = "" \/ exists e, ext = String "." e) ->
  Py.before_dot (s ++ ext) = s.
Proof.
  intros H Hext. induction s as [|c r IH].
  - destruct Hext as [->|[e ->]]; reflexivity.
  - cbn in H. apply andb_true_iff in H as [Hc Hr].
    rewrite append_cons. cbn [Py.before_dot]. rewrite ascii_eqb_code.
    replace (Py.code c =? Py.code ".")%N with false.
    + now rewrite IH.
    + symmetry. apply N.eqb_neq. apply wal_digit_code in Hc.
      change (Py.code ".") with 46%N. lia.
Qed.

Lemma extract_wal_digits s ext :
  wal_digits s = true -> s <> "" -> (ext = "" \/ exists e, ext = String "." e) ->
  BackupEngine._extract_wal_sequence (s ++ ext) = base16 0 s.
Proof.
  intros H Hne Hext. unfold BackupEngine._extract_wal_sequence.
  rewrite (before_dot_wal_digits s ext H Hext).
  now rewrite (int16_wal_digits s H Hne).
Qed.

(** *** Lexical order and numeric order *)

Lemma base16_acc s : forall acc,
  base16 acc s = acc * 16 ^ Z.of_nat (String.length s) + base16 0 s.
Proof.
  induction s as [|c r IH]; intros acc.
  - cbn. lia.
  - cbn [base16 String.length]. rewrite IH.
    rewrite (IH (16 * 0 + _)). rewrite Nat2Z.inj_succ, Z.pow_succ_r by lia. lia.
Qed.

Lemma base16_bound s :
  wal_digits s = true -> 0 <= base16 0 s < 16 ^ Z.of_nat (String.length s).
Proof.
  induction s as [|c r IH]; intros H.
  - cbn. lia.
  - cbn in H. apply andb_true_iff in H as [Hc Hr].
    destruct (hex_value_wal_digit c Hc) as (d & Hd & Hrange & _).
    cbn [base16 String.length]. rewrite base16_acc, Hd. cbn [default].
    specialize (IH Hr). rewrite Nat2Z.inj_succ, Z.pow_succ_r by lia.
    unfold id. generalize dependent (16 ^ Z.of_nat (String.length r)).
    intros P IH. assert (0 <= d * P <= 15 * P) by nia. lia.
Qed.

Lemma wal_digit_value_mono c1 c2 d1 d2 :
  is_wal_digit c1 = true -> is_wal_digit c2 = true ->
  Py.hex_value c1 = Some d1 -> Py.hex_value c2 = Some d2 ->
  (Py.code c1 < Py.code c2)%N -> d1 < d2.
Proof.
  intros H1 H2 E1 E2 Hlt.
  destruct (hex_value_wal_digit c1 H1) as (x1 & X1 & _ & V1).
  destruct (hex_value_wal_digit c2 H2) as (x2 & X2 & _ & V2).
  rewrite E1 in X1. rewrite E2 in X2. injection X1 as <-. injection X2 as <-.
  apply wal_digit_code in H1, H2.
  destruct (Py.between 48 57 c1) eqn:B1, (Py.between 48 57 c2) eqn:B2;
    try apply between_iff in B1; try apply between_iff in B2;
    try apply between_false_iff in B1; try apply between_false_iff in B2; lia.
Qed.

Lemma compare_lt_base16 s1 : forall s2,
  wal_digits s1 = true -> wal_digits s2 = true ->
  String.length s1 = String.length s2 ->
  String.compare s1 s2 = Lt -> base16 0 s1 < base16 0 s2.
Proof.
  induction s1 as [|c1 r1 IH]; intros [|c2 r2] H1 H2 Hlen Hcmp;
    try discriminate.
  cbn in H1, H2. apply andb_true_iff in H1 as [Hc1 Hr1].
  apply andb_true_iff in H2 as [Hc2 Hr2].
  injection Hlen as Hlen. cbn in Hcmp.
  destruct (hex_value_wal_digit c1 Hc1) as (d1 & Hd1 & Hrange1 & _).
  destruct (hex_value_wal_digit c2 Hc2) as (d2 & Hd2 & Hrange2 & _).
  cbn [base16]. rewrite (base16_acc r1), (base16_acc r2), Hd1, Hd2.
  cbn [default]. rewrite <- Hlen.
  pose proof (base16_bound r1 Hr1) as B1.
  pose proof (base16_bound r2 Hr2) as B2. rewrite <- Hlen in B2.
  unfold Ascii.compare in Hcmp.
  destruct (N.compare_spec (N_of_ascii c1) (N_of_ascii c2)) as [Heq|Hlt|Hgt];
    try discriminate.
  - apply code_inj in Heq. subst c2. rewrite Hd1 in Hd2. injection Hd2 as <-.
    specialize (IH r2 Hr1 Hr2 Hlen Hcmp). unfold id. lia.
  - pose proof (wal_digit_value_mono c1 c2 d1 d2 Hc1 Hc2 Hd1 Hd2 Hlt) as Hd.
    unfold id. generalize dependent (16 ^ Z.of_nat (String.length r1)).
    intros P B1 B2. assert ((d1 + 1) * P <= d2 * P) by nia. lia.
Qed.

Lemma string_compare_refl s : String.compare s s = Eq.
Proof.
  induction s as [|c r IH]; [reflexivity|]. cbn.
  unfold Ascii.compare. now rewrite N.compare_refl.
Qed.

Lemma compare_append_same s1 : forall s2 ext,
  String.length s1 = String.length s2 ->
  String.compare (s1 ++ ext) (s2 ++ ext) = Lt -> String.compare s1 s2 = Lt.
Proof.
  induction s1 as [|c1 r1 IH]; intros [|c2 r2] ext Hlen Hcmp; try discriminate.
  - rewrite !append_empty_l in Hcmp.
    rewrite string_compare_refl in Hcmp. discriminate.
  - injection Hlen as Hlen. rewrite !append_cons in Hcmp. cbn in *.
    destruct (Ascii.compare c1 c2); try assumption. now apply (IH r2 ext).
Qed.

(** For names made of the same number of segment digits, followed by the
    same extension, the lexical order is the order of the sequence numbers. *)
Lemma lexical_order_is_sequence_order s1 s2 ext :
  wal_digits s1 = true -> wal_digits s2 = true ->
  String.length s1 = String.length s2 ->
  (ext = "" \/ exists e, ext = String "." e) ->
  String.ltb (s1 ++ ext) (s2 ++ ext) = true ->
  BackupEngine._extract_wal_sequence (s1 ++ ext)
  < BackupEngine._extract_wal_sequence (s2 ++ ext).
Proof.
  intros H1 H2 Hlen Hext Hlt.
  assert (Hcmp : String.compare s1 s2 = Lt).
  { apply (compare_append_same s1 s2 ext Hlen). unfold String.ltb in Hlt.
    now destruct (String.compare (s1 ++ ext) (s2 ++ ext)). }
  assert (s1 <> "" /\ s2 <> "") as [N1 N2].
  { destruct s1, s2; try discriminate; split; discriminate. }
  rewrite !extract_wal_digits by assumption.
  now apply compare_lt_base16.
Qed.
(** ** Facts about the gateway ([utils/s3_client.py]) *)

Section S3Facts.
Context {sha256 : HashAlgorithm}.

Lemma verify_upload_stored self net local_path s3_key expected w obj :
  bucket w !! s3_key = Some obj ->
  net_get net = NetOk ->
  exists w',
    _verify_upload self net local_path s3_key expected w
    = (Return (Py.str_eq (digest_hex (body obj)) (Py.lower expected)), w')
    /\ bucket w' = bucket w /\ ledger w' = ledger w /\ log w' = log w.
Proof.
  intros Hobj Hget.
  unfold _verify_upload, try_except, bind, client_download_file.
  rewrite Hget, Hobj.
  erewrite verify_checksum_reads by (cbn; apply lookup_insert_eq).
  unfold os_remove. cbn [files set_files]. rewrite lookup_insert_eq.
  eexists. split; [reflexivity|]. repeat split.
Qed.

Lemma verify_upload_unreachable self net local_path s3_key expected w msg :
  net_get net = NetRaises msg ->
  exists w',
    _verify_upload self net local_path s3_key expected w = (Return false, w')
    /\ bucket w' = bucket w /\ ledger w' = ledger w.
Proof.
  intros Hget.
  unfold _verify_upload, try_except, bind, client_download_file.
  rewrite Hget. eexists. split; [reflexivity|]. split; reflexivity.
Qed.

(** The outcome of [upload_file], case by case. *)
Lemma upload_file_outcome self net local_path backup_type filename w :
  let s3_key := _get_s3_key self net backup_type (upload_name local_path filename) in
  match files w !! local_path with
  | None =>
      exists e w',
        upload_file self net local_path backup_type filename w = (Return (false, e), w')
        /\ bucket w' = bucket w
  | Some content =>
      match net_put net with
      | PutRaises msg =>
          exists w',
            upload_file self net local_path backup_type filename w
            = (Return (false, msg), w')
            /\ bucket w' = bucket w
      | PutStores stored =>
          exists obj w',
            body obj = stored
            /\ bucket w' = <[s3_key := obj]> (bucket w)
            /\ upload_file self net local_path backup_type filename w
               = (Return
                    (match net_get net with
                     | NetOk =>
                         if String.eqb (digest_hex stored) (digest_hex content)
                         then (true, s3_key) else (false, integrity_failure)
                     | NetRaises _ => (false, integrity_failure)
                     end), w')
      end
  end.
Proof.
  intros s3_key. unfold upload_file, try_except, bind.
  fold (upload_name local_path filename). fold s3_key.
  destruct (files w !! local_path) as [content|] eqn:Hf.
  2:{ destruct (calculate_checksum_missing w local_path Hf) as [e ->].
      do 2 eexists. split; reflexivity. }
  rewrite (calculate_checksum_reads _ _ _ Hf).
  destruct (encryption_args self) as [sse kms].
  unfold client_upload_file.
  destruct (net_put net) as [stored|msg] eqn:Hput.
  2:{ eexists. split; reflexivity. }
  set (obj := {| body := stored; Metadata := _; ServerSideEncryption := sse;
                 SSEKMSKeyId := kms |}).
  set (w1 := set_bucket _ w).
  assert (Hobj : bucket w1 !! s3_key = Some obj) by apply lookup_insert_eq.
  exists obj.
  destruct (net_get net) as [|msg] eqn:Hget.
  - destruct (verify_upload_stored self net local_path s3_key (digest_hex content)
                w1 obj Hobj Hget) as (w2 & -> & Hb & _ & _).
    rewrite digest_hex_lower. unfold Py.str_eq. cbn [body obj].
    destruct (String.eqb (digest_hex stored) (digest_hex content)).
    + eexists. split; [reflexivity|]. split; [|reflexivity]. exact Hb.
    + eexists. split; [reflexivity|]. split; [|reflexivity]. exact Hb.
  - destruct (verify_upload_unreachable self net local_path s3_key
                (digest_hex content) w1 msg Hget) as (w2 & -> & Hb & _).
    eexists. split; [reflexivity|]. split; [|reflexivity]. exact Hb.
Qed.

Lemma upload_file_returns self net p t f w :
  exists ok detail w', upload_file self net p t f w = (Return (ok, detail), w').
Proof.
  pose proof (upload_file_outcome self net p t f w) as H. cbn zeta in H.
  destruct (files w !! p).
  - destruct (net_put net).
    + destruct H as (obj & w' & _ & _ & ->).
      destruct (net_get net); [destruct (String.eqb _ _)|]; eauto.
    + destruct H as (w' & -> & _). eauto.
  - destruct H as (e & w' & -> & _). eauto.
Qed.

(** C4. [upload_file] always returns a pair.  It reports success only when
    the local file was read, the transfer stored an object under the key,
    that object was downloaded again and the digest of the stored bytes is
    the digest of the local file.  When the object was stored and downloaded
    but the digests differ, it reports the integrity failure although the
    object is in the bucket. *)
Theorem upload_file_verified self net local_path backup_type filename w :
  let s3_key := _get_s3_key self net backup_type (upload_name local_path filename) in
  exists ok detail w',
    upload_file self net local_path backup_type filename w = (Return (ok, detail), w')
    /\ (ok = true ->
        detail = s3_key
        /\ exists content obj,
             files w !! local_path = Some content
             /\ net_put net = PutStores (body obj)
             /\ net_get net = NetOk
             /\ bucket w' !! s3_key = Some obj
             /\ digest_hex (body obj) = digest_hex content)
    /\ (forall content stored,
          files w !! local_path = Some content ->
          net_put net = PutStores stored ->
          net_get net = NetOk ->
          digest_hex stored <> digest_hex content ->
          ok = false /\ detail = integrity_failure
          /\ exists obj, bucket w' !! s3_key = Some obj /\ body obj = stored).
Proof.
  intros s3_key.
  pose proof (upload_file_outcome self net local_path backup_type filename w) as H.
  cbn zeta in H. fold s3_key in H.
  destruct (files w !! local_path) as [content|].
  2:{ destruct H as (e & w' & -> & _). do 3 eexists.
      split; [reflexivity|]. split; [discriminate|]. intros ? ? [=]. }
  destruct (net_put net) as [stored|msg].
  2:{ destruct H as (w' & -> & _). do 3 eexists.
      split; [reflexivity|]. split; [discriminate|]. intros ? ? _ [=]. }
  destruct H as (obj & w' & Hbody & Hb & ->).
  assert (Hobj : bucket w' !! s3_key = Some obj).
  { rewrite Hb. apply lookup_insert_eq. }
  destruct (net_get net) as [|msg].
  2:{ do 3 eexists. split; [reflexivity|]. split; [discriminate|].
      intros ? ? _ _ [=]. }
  destruct (String.eqb_spec (digest_hex stored) (digest_hex content)) as [Heq|Hne].
  - do 3 eexists. split; [reflexivity|]. split.
    + intros _. split; [reflexivity|]. exists content, obj. subst stored.
      repeat split; assumption.
    + intros c s [= <-] [= <-] _ Hd. now destruct Hd.
  - do 3 eexists. split; [reflexivity|]. split; [discriminate|].
    intros c s [= <-] [= <-] _ _. repeat split. exists obj. now split.
Qed.

End S3Facts.
(** ** Running a computation step by step *)

Lemma bind_Return {A B} (m : M A) (k : A -> M B) w a w1 :
  m w = (Return a, w1) -> bind m k w = k a w1.
Proof. intros H. unfold bind. now rewrite H. Qed.

Lemma bind_Raise {A B} (m : M A) (k : A -> M B) w e w1 :
  m w = (Raise e, w1) -> bind m k w = (Raise e, w1).
Proof. intros H. unfold bind. now rewrite H. Qed.

Lemma try_except_Return {A} (body : M A) handler w a w1 :
  body w = (Return a, w1) -> try_except body handler w = (Return a, w1).
Proof. intros H. unfold try_except. now rewrite H. Qed.

Lemma try_except_Raise {A} (body : M A) handler w e w1 :
  body w = (Raise e, w1) -> try_except body handler w = handler e w1.
Proof. intros H. unfold try_except. now rewrite H. Qed.

(** ** Frame rules: what a computation leaves untouched *)

(** Every run of [m] takes a world to one that is [R]-related to it. *)
Definition keeps {A} (R : World -> World -> Prop) (m : M A) : Prop :=
  forall w, R w (snd (m w)).

(** The part of the world that [part] reads is the same. *)
Definition same {X} (part : World -> X) : World -> World -> Prop :=
  fun w w' => part w' = part w.

(** The log only grew. *)
Definition log_extends : World -> World -> Prop :=
  fun w w' => exists entries, log w' = (log w ++ entries)%list.

Abbreviation preserves part m := (keeps (same part) m).

(** Nothing but the ledger and the log may have changed. *)
Definition ledger_and_log_only : World -> World -> Prop :=
  fun w w' => procs w' = procs w /\ bucket w' = bucket w /\ files w' = files w.

#[export] Instance same_preorder {X} (part : World -> X) : PreOrder (same part).
Proof. split; [intros w; reflexivity | intros a b c; unfold same; congruence]. Qed.

#[export] Instance ledger_and_log_only_preorder : PreOrder ledger_and_log_only.
Proof.
  split.
  - intros w. repeat split.
  - intros a b c (H1 & H2 & H3) (H4 & H5 & H6). repeat split; congruence.
Qed.

#[export] Instance log_extends_preorder : PreOrder log_extends.
Proof.
  split.
  - intros w. exists []. now rewrite app_nil_r.
  - intros a b c [e1 H1] [e2 H2]. exists (e1 ++ e2)%list.
    now rewrite H2, H1, app_assoc.
Qed.

Section Keeps.
Context (R : World -> World -> Prop) `{!PreOrder R}.

Lemma keeps_ret {A} (a : A) : keeps R (ret a).
Proof. intros w. reflexivity. Qed.

Lemma keeps_raise {A} e : keeps R (@raise A e).
Proof. intros w. reflexivity. Qed.

Lemma keeps_get_world : keeps R get_world.
Proof. intros w. reflexivity. Qed.

Lemma keeps_bind {A B} (m : M A) (k : A -> M B) :
  keeps R m -> (forall a, keeps R (k a)) -> keeps R (bind m k).
Proof.
  intros Hm Hk w. unfold bind. specialize (Hm w).
  destruct (m w) as [[a|e] w1]; cbn in *; [|exact Hm].
  etransitivity; [exact Hm | apply Hk].
Qed.

Lemma keeps_try_except {A} (body : M A) handler :
  keeps R body -> (forall e, keeps R (handler e)) ->
  keeps R (try_except body handler).
Proof.
  intros Hm Hk w. unfold try_except. specialize (Hm w).
  destruct (body w) as [[a|e] w1]; cbn in *; [exact Hm|].
  etransitivity; [exact Hm | apply Hk].
Qed.

Lemma keeps_try_finally {A} (body : M A) fin :
  keeps R body -> keeps R fin -> keeps R (try_finally body fin).
Proof.
  intros Hm Hf w. unfold try_finally. specialize (Hm w).
  destruct (body w) as [r w1]. specialize (Hf w1).
  destruct (fin w1) as [[[]|e] w2]; cbn in *; etransitivity; eassumption.
Qed.

Lemma keeps_modify f : (forall w, R w (f w)) -> keeps R (modify f).
Proof. intros H w. apply H. Qed.

End Keeps.

(** The primitive steps, unfolded. *)
Ltac unfold_steps :=
  unfold logger_error, logger_warning, subprocess_run, os_remove, open_rb,
    compress_file, decompress_file, client_upload_file, client_head_object,
    client_download_file, client_delete_object,
    MetadataManager._get_connection, MetadataManager.execute,
    MetadataManager.rollback, MetadataManager.close_cursor,
    MetadataManager.item, MetadataManager.not_null,
    MetadataManager.update_backup, MetadataManager.select_backup,
    MetadataManager.select_backups, MetadataManager.select_latest_backup,
    MetadataManager.insert_wal, MetadataManager.select_wals,
    RestoreEngine.update_restore,
    modify, get_world, bind, ret, raise.

Ltac close_step :=
  unfold same, log_extends, ledger_and_log_only; cbn;
  first [ reflexivity
        | exists []; symmetry; apply app_nil_r
        | eexists; reflexivity
        | repeat split ].

Ltac keeps_step :=
  first
    [ progress cbv zeta
    | apply keeps_ret; apply _
    | apply keeps_raise; apply _
    | apply keeps_get_world; apply _
    | assumption
    | match goal with
      | H : _ |- keeps _ _ => apply H
      end
    | apply keeps_bind; [apply _ | | intros ?]
    | apply keeps_try_except; [apply _ | | intros ?]
    | apply keeps_try_finally; [apply _ | | ]
    | match goal with
      | |- keeps _ (match ?x with _ => _ end) => destruct x
      end
    | solve [ intros ?; unfold_steps;
              repeat match goal with
                     | |- context [match ?x with _ => _ end] => destruct x
                     end; close_step ] ].

Ltac keeps_auto := repeat keeps_step.

Section Frames.
Context {sha256 : HashAlgorithm}.

Lemma calculate_checksum_pure {X} (part : World -> X) p :
  preserves part (calculate_checksum p).
Proof. unfold calculate_checksum. keeps_auto. Qed.

Lemma calculate_checksum_log p : keeps log_extends (calculate_checksum p).
Proof. unfold calculate_checksum. keeps_auto. Qed.

Lemma verify_checksum_pure {X} (part : World -> X) p e :
  preserves part (verify_checksum p e).
Proof.
  unfold verify_checksum. pose proof (calculate_checksum_pure part).
  keeps_auto.
Qed.

Lemma verify_checksum_log p e : keeps log_extends (verify_checksum p e).
Proof.
  unfold verify_checksum. pose proof calculate_checksum_log. keeps_auto.
Qed.

Lemma upload_file_ledger self net p t f :
  preserves ledger (upload_file self net p t f).
Proof.
  unfold upload_file, _verify_upload.
  pose proof (calculate_checksum_pure ledger).
  pose proof (verify_checksum_pure ledger).
  keeps_auto.
Qed.

Lemma upload_file_procs self net p t f :
  preserves procs (upload_file self net p t f).
Proof.
  unfold upload_file, _verify_upload.
  pose proof (calculate_checksum_pure procs).
  pose proof (verify_checksum_pure procs).
  keeps_auto.
Qed.

Lemma upload_file_log self net p t f :
  keeps log_extends (upload_file self net p t f).
Proof.
  unfold upload_file, _verify_upload.
  pose proof calculate_checksum_log.
  pose proof verify_checksum_log.
  keeps_auto.
Qed.

Lemma download_file_ledger self net k p :
  preserves ledger (download_file self net k p).
Proof.
  unfold download_file. pose proof (verify_checksum_pure ledger). keeps_auto.
Qed.

Lemma download_file_procs self net k p :
  preserves procs (download_file self net k p).
Proof.
  unfold download_file. pose proof (verify_checksum_pure procs). keeps_auto.
Qed.

Lemma download_file_bucket self net k p :
  preserves bucket (download_file self net k p).
Proof.
  unfold download_file. pose proof (verify_checksum_pure bucket). keeps_auto.
Qed.

(** Every outcome of [download_file] is a returned pair. *)
Lemma download_file_returns self net k p w :
  exists ok msg w', download_file self net k p w = (Return (ok, msg), w').
Proof.
  unfold download_file, try_except, bind.
  destruct (client_head_object net k w) as [[md|e] w1]; [|do 3 eexists; reflexivity].
  destruct (client_download_file net k p w1) as [[[]|e] w2]; [|do 3 eexists; reflexivity].
  destruct (Py.truthy (md !! "checksum")); [|do 3 eexists; reflexivity].
  destruct (verify_checksum p _ w2) as [[[]|e] w3]; try (do 3 eexists; reflexivity).
  unfold logger_error, modify, os_remove. cbn.
  destruct (files w3 !! p); do 3 eexists; reflexivity.
Qed.

End Frames.
(** ** Facts about the ledger ([utils/metadata.py]) *)

(** The frame of the methods, unfolded. *)
Ltac ledger_frame :=
  unfold MetadataManager._get_connection, MetadataManager.execute,
    MetadataManager.rollback, MetadataManager.close_cursor,
    try_finally, try_except, bind, ret, raise, logger_error, modify, get_world.

(** *** What a method may change *)

(** The statements, once executed, change nothing but the ledger. *)
Lemma format_backup_data_pure d w :
  snd (MetadataManager.format_backup_data d w) = w.
Proof.
  revert w. change (preserves (fun w => w) (MetadataManager.format_backup_data d)).
  unfold MetadataManager.format_backup_data. keeps_auto.
Qed.

Lemma format_restore_data_pure d w :
  snd (MetadataManager.format_restore_data d w) = w.
Proof.
  revert w. change (preserves (fun w => w) (MetadataManager.format_restore_data d)).
  unfold MetadataManager.format_restore_data. keeps_auto.
Qed.

Lemma insert_backup_frame v :
  keeps ledger_and_log_only (MetadataManager.insert_backup v)
  /\ preserves log (MetadataManager.insert_backup v).
Proof. split; unfold MetadataManager.insert_backup; keeps_auto. Qed.

Lemma insert_restore_frame v :
  keeps ledger_and_log_only (MetadataManager.insert_restore v)
  /\ preserves log (MetadataManager.insert_restore v).
Proof. split; unfold MetadataManager.insert_restore; keeps_auto. Qed.

Lemma insert_wal_frame d :
  keeps ledger_and_log_only (MetadataManager.insert_wal d)
  /\ preserves log (MetadataManager.insert_wal d).
Proof. split; unfold MetadataManager.insert_wal; keeps_auto. Qed.

(** A method that runs [body] inside the frame changes what [body] and the
    log lines of the frame change. *)
Lemma framed_keeps {A} (R : World -> World -> Prop) `{!PreOrder R} db
    (body : M A) (handler : exn -> M A) :
  (forall w msg, R w (set_log (log w ++ [(ERROR, msg)])%list w)) ->
  keeps R body ->
  (forall e, keeps R (handler e)) ->
  keeps R
    (try_finally
       (try_except (MetadataManager._get_connection db ;; body) handler)
       (MetadataManager.close_cursor db)).
Proof.
  intros Hlog Hbody Hhandler.
  apply keeps_try_finally; [apply _ | |].
  - apply keeps_try_except; [apply _ | | exact Hhandler].
    apply keeps_bind; [apply _ | | intros _; exact Hbody].
    intros w. unfold MetadataManager._get_connection.
    destruct db as [o|m r|m]; try reflexivity.
    unfold bind, logger_error, modify, raise. cbn. apply Hlog.
  - intros w. unfold MetadataManager.close_cursor.
    destruct db as [o|m r|m]; reflexivity.
Qed.

Lemma execute_keeps {A} (R : World -> World -> Prop) `{!PreOrder R} db (run : M A) :
  keeps R run -> keeps R (MetadataManager.execute db run).
Proof.
  intros H. unfold MetadataManager.execute.
  destruct db as [[|m]|m r|m]; [exact H | | |]; intros w; reflexivity.
Qed.

Lemma rollback_keeps (R : World -> World -> Prop) `{!PreOrder R} db :
  keeps R (MetadataManager.rollback db).
Proof.
  unfold MetadataManager.rollback. destruct db as [o|m r|m]; intros w; reflexivity.
Qed.

Lemma logger_error_keeps (R : World -> World -> Prop) msg :
  (forall w msg, R w (set_log (log w ++ [(ERROR, msg)])%list w)) ->
  keeps R (logger_error msg).
Proof. intros H w. apply H. Qed.

Lemma log_line_outside w msg :
  ledger_and_log_only w (set_log (log w ++ [(ERROR, msg)])%list w).
Proof. repeat split. Qed.

Lemma log_line_extends w msg :
  log_extends w (set_log (log w ++ [(ERROR, msg)])%list w).
Proof. eexists. reflexivity. Qed.

Lemma log_line_same {X} (part : Ledger -> X) w msg :
  same (fun w => part (ledger w)) w (set_log (log w ++ [(ERROR, msg)])%list w).
Proof. reflexivity. Qed.

Lemma same_snd {A} (R : World -> World -> Prop) `{!PreOrder R} (m : M A) :
  (forall w, snd (m w) = w) -> keeps R m.
Proof. intros H w. rewrite H. reflexivity. Qed.

(** The steps of a method of the ledger, for a relation that the log lines
    respect. *)
Ltac method_keeps Hlog :=
  apply framed_keeps; [apply _ | exact Hlog | | intros ?];
  repeat lazymatch goal with
         | |- keeps _ (bind _ _) => apply keeps_bind; [apply _ | | intros ?]
         | |- keeps _ (ret _) => apply keeps_ret; apply _
         | |- keeps _ (raise _) => apply keeps_raise; apply _
         | |- keeps _ (logger_error _) => apply logger_error_keeps; exact Hlog
         | |- keeps _ (MetadataManager.rollback _) => apply rollback_keeps; apply _
         | |- keeps _ (MetadataManager.execute _ _) =>
             apply execute_keeps; [apply _ |]
         | |- keeps _ (MetadataManager.format_backup_data _) =>
             apply same_snd; [apply _ | apply format_backup_data_pure]
         | |- keeps _ (MetadataManager.format_restore_data _) =>
             apply same_snd; [apply _ | apply format_restore_data_pure]
         end.

Section LedgerFrames.
Context (R : World -> World -> Prop) `{!PreOrder R}.
Hypothesis Hlog : forall w msg, R w (set_log (log w ++ [(ERROR, msg)])%list w).

Lemma create_backup_record_keeps db d :
  (forall v, keeps R (MetadataManager.insert_backup v)) ->
  keeps R (MetadataManager.create_backup_record db d).
Proof.
  intros Hrun. unfold MetadataManager.create_backup_record. method_keeps Hlog.
  apply Hrun.
Qed.

Lemma create_restore_record_keeps db d :
  (forall v, keeps R (MetadataManager.insert_restore v)) ->
  keeps R (MetadataManager.create_restore_record db d).
Proof.
  intros Hrun. unfold MetadataManager.create_restore_record. method_keeps Hlog.
  apply Hrun.
Qed.

Lemma create_wal_record_keeps db d :
  keeps R (MetadataManager.insert_wal d) ->
  keeps R (MetadataManager.create_wal_record db d).
Proof.
  intros Hrun. unfold MetadataManager.create_wal_record. method_keeps Hlog.
  exact Hrun.
Qed.

Lemma update_backup_status_keeps db id status end_ts kwargs :
  keeps R (MetadataManager.update_backup id status end_ts kwargs) ->
  keeps R (MetadataManager.update_backup_status db id status end_ts kwargs).
Proof.
  intros Hrun. unfold MetadataManager.update_backup_status. method_keeps Hlog.
  exact Hrun.
Qed.

Lemma update_restore_status_keeps db id status end_time error :
  keeps R (RestoreEngine.update_restore id status end_time error) ->
  keeps R (RestoreEngine._update_restore_status db id status end_time error).
Proof.
  intros Hrun. unfold RestoreEngine._update_restore_status. method_keeps Hlog.
  exact Hrun.
Qed.

(** The queries read the ledger and may write to the log. *)
Lemma get_backup_by_id_keeps db id :
  keeps R (MetadataManager.get_backup_by_id db id).
Proof.
  unfold MetadataManager.get_backup_by_id. method_keeps Hlog.
  apply same_snd; [apply _ | reflexivity].
Qed.

Lemma get_latest_backup_keeps db backup_type :
  keeps R (MetadataManager.get_latest_backup db backup_type).
Proof.
  unfold MetadataManager.get_latest_backup. method_keeps Hlog.
  apply same_snd; [apply _ | reflexivity].
Qed.

Lemma list_backups_keeps db backup_type status limit :
  keeps R (MetadataManager.list_backups db backup_type status limit).
Proof.
  unfold MetadataManager.list_backups. method_keeps Hlog.
  apply same_snd; [apply _ |]. intros w. unfold MetadataManager.select_backups.
  now destruct (limit <? 0).
Qed.

Lemma get_wals_for_backup_keeps db id :
  keeps R (MetadataManager.get_wals_for_backup db id).
Proof.
  unfold MetadataManager.get_wals_for_backup. method_keeps Hlog.
  apply same_snd; [apply _ | reflexivity].
Qed.

End LedgerFrames.

(** *** [create_wal_record] *)

Lemma create_wal_record_outcome db d w :
  match MetadataManager.create_wal_record db d w with
  | (Return _, w') =>
      db = Executes
      /\ MetadataManager.references_backup (ledger w) (wal_metadata.backup_id d) = true
      /\ backups (ledger w') = backups (ledger w)
      /\ wals (ledger w') = (wals (ledger w) ++ [d])%list
      /\ restores (ledger w') = restores (ledger w)
      /\ log w' = log w
      /\ MetadataManager.fits_bigint (wal_metadata.sequence_number d) = true
  | (Raise e, w') => ledger w' = ledger w /\ log_extends w w'
  end.
Proof.
  unfold MetadataManager.create_wal_record, MetadataManager.insert_wal.
  ledger_frame.
  destruct db as [[|msg]|msg rb|msg]; cbn.
  - destruct (MetadataManager.fits_bigint (wal_metadata.sequence_number d)) eqn:Hfits;
      cbn [negb].
    + destruct (MetadataManager.references_backup (ledger w) (wal_metadata.backup_id d))
        eqn:Href; cbn.
      * repeat split.
      * split; [reflexivity | close_step].
    + split; [reflexivity | close_step].
  - split; [reflexivity | close_step].
  - split; [reflexivity | close_step].
  - split; [reflexivity | close_step].
Qed.

(** *** [create_backup_record] *)

Lemma insert_backup_outcome v w :
  match MetadataManager.insert_backup v w with
  | (Return id, w') =>
      exists r,
        backup_row v r
        /\ backup_metadata.backup_id r = id
        /\ MetadataManager.has_backup (ledger w) id = false
        /\ backups (ledger w') = (backups (ledger w) ++ [r])%list
        /\ wals (ledger w') = wals (ledger w)
        /\ restores (ledger w') = restores (ledger w)
  | (Raise e, w') => w' = w
  end.
Proof.
  unfold MetadataManager.insert_backup, MetadataManager.not_null, bind, ret, raise.
  destruct (MetadataManager.fits_bigint (backup_values.size_bytes v)); [|reflexivity].
  destruct (backup_values.backup_id v) as [id|] eqn:H1; [|reflexivity].
  destruct (backup_values.backup_type v) as [ty|] eqn:H2; [|reflexivity].
  destruct (backup_values.status v) as [st|] eqn:H3; [|reflexivity].
  destruct (backup_values.start_ts v) as [ts|] eqn:H4; [|reflexivity].
  destruct (MetadataManager.has_backup (ledger w) id) eqn:Hhas; [reflexivity|].
  eexists. split; [|repeat split; try reflexivity; exact Hhas].
  repeat split; cbn; congruence.
Qed.


(** A dictionary that lacks a key of the statement is refused before
    anything is sent, whatever the connection does. *)
Lemma create_backup_record_refused db d w e :
  MetadataManager.format_backup_data d w = (Raise e, w) ->
  exists w',
    MetadataManager.create_backup_record db d w = (Raise (after_rollback db e), w')
    /\ ledger w' = ledger w
    /\ ledger_and_log_only w w'.
Proof.
  intros Hfmt. unfold MetadataManager.create_backup_record. ledger_frame.
  destruct db as [[|msg]|msg rb|msg]; cbn; rewrite ?Hfmt;
    eexists; (split; [reflexivity|]); repeat split.
Qed.

Lemma create_restore_record_refused db d w e :
  MetadataManager.format_restore_data d w = (Raise e, w) ->
  exists w',
    MetadataManager.create_restore_record db d w = (Raise (after_rollback db e), w')
    /\ ledger w' = ledger w
    /\ ledger_and_log_only w w'.
Proof.
  intros Hfmt. unfold MetadataManager.create_restore_record. ledger_frame.
  destruct db as [[|msg]|msg rb|msg]; cbn; rewrite ?Hfmt;
    eexists; (split; [reflexivity|]); repeat split.
Qed.

(** *** [update_backup_status] *)

(** [update_backup_status] returns [True] when the statement is executed,
    [False] when it raises on a connection that stays usable; it raises
    when the connection is lost or cannot be opened.  Unless the statement
    is executed the ledger is as before. *)
Lemma update_backup_status_outcome db id status end_ts kwargs w :
  exists w',
    MetadataManager.update_backup_status db id status end_ts kwargs w
    = (match db with
       | Statement Executes => Return true
       | Statement (DbRaises _) => Return false
       | ConnectionLost _ rollback_msg => Raise rollback_msg
       | Unreachable _ => Raise (MetadataManager.unbound_local "cursor")
       end, w')
    /\ backups (ledger w')
       = match db with
         | Statement Executes =>
             map (fun r =>
                    if String.eqb (backup_metadata.backup_id r) id
                    then MetadataManager.set_clause status end_ts kwargs r else r)
                 (backups (ledger w))
         | _ => backups (ledger w)
         end
    /\ wals (ledger w') = wals (ledger w)
    /\ restores (ledger w') = restores (ledger w)
    /\ ledger_and_log_only w w'
    /\ log w'
       = match db with
         | Statement Executes => log w
         | Statement (DbRaises msg) =>
             (log w ++ [(ERROR, ("Erro ao atualizar status do backup: " ++ msg)%string)])%list
         | ConnectionLost _ _ => log w
         | Unreachable msg =>
             (log w ++ [(ERROR, ("Erro ao conectar ao PostgreSQL: " ++ msg)%string)])%list
         end.
Proof.
  unfold MetadataManager.update_backup_status, MetadataManager.update_backup.
  ledger_frame.
  destruct db as [[|msg]|msg rb|msg]; cbn; eexists; repeat split.
Qed.

(** An update addressed to an identifier that no row carries changes nothing. *)
Lemma update_absent_backup id (f : backup_metadata.row -> backup_metadata.row) rows :
  existsb (fun r => String.eqb (backup_metadata.backup_id r) id) rows = false ->
  map (fun r => if String.eqb (backup_metadata.backup_id r) id then f r else r) rows
  = rows.
Proof.
  induction rows as [|r rows IH]; [reflexivity|]. cbn.
  intros H. apply orb_false_iff in H as [-> H]. now rewrite IH.
Qed.

(** *** [_update_restore_status] *)

(** [_update_restore_status] has no rollback in its handler: it raises only
    when the connection cannot be opened. *)
Lemma update_restore_status_outcome db id status end_time error_message w :
  exists w',
    RestoreEngine._update_restore_status db id status end_time error_message w
    = (match db with
       | Statement Executes => Return true
       | Statement (DbRaises _) => Return false
       | ConnectionLost _ _ => Return false
       | Unreachable _ => Raise (MetadataManager.unbound_local "cursor")
       end, w')
    /\ ledger_and_log_only w w'
    /\ backups (ledger w') = backups (ledger w)
    /\ wals (ledger w') = wals (ledger w)
    /\ map restore_operations.restore_id (restores (ledger w'))
       = map restore_operations.restore_id (restores (ledger w))
    /\ (MetadataManager.has_restore (ledger w) id = false ->
        restores (ledger w') = restores (ledger w)).
Proof.
  unfold RestoreEngine._update_restore_status, RestoreEngine.update_restore.
  ledger_frame.
  destruct db as [[|msg]|msg rb|msg]; cbn; eexists; (split; [reflexivity|]);
    (split; [repeat split|]); (split; [reflexivity|]); (split; [reflexivity|]);
    cbn; try (split; reflexivity).
  split.
  - rewrite map_map. apply map_ext. intros r. now destruct (String.eqb _ _).
  - unfold MetadataManager.has_restore.
    induction (restores (ledger w)) as [|r rows IH]; [reflexivity|]. cbn.
    intros H. apply orb_false_iff in H as [-> H]. now rewrite IH.
Qed.

(** *** [get_wals_for_backup] *)

#[export] Instance by_sequence_total : Total MetadataManager.by_sequence.
Proof.
  intros a b. unfold MetadataManager.by_sequence, MetadataManager.seq_leb.
  destruct (wal_metadata.sequence_number a), (wal_metadata.sequence_number b);
    auto; rewrite !Z.leb_le; lia.
Qed.

#[export] Instance by_sequence_trans : Transitive MetadataManager.by_sequence.
Proof.
  intros a b c. unfold MetadataManager.by_sequence, MetadataManager.seq_leb.
  destruct (wal_metadata.sequence_number a), (wal_metadata.sequence_number b),
    (wal_metadata.sequence_number c); try discriminate; auto;
    rewrite !Z.leb_le; lia.
Qed.

Lemma by_sequence_antisym a b :
  MetadataManager.by_sequence a b -> MetadataManager.by_sequence b a ->
  wal_metadata.sequence_number a = wal_metadata.sequence_number b.
Proof.
  unfold MetadataManager.by_sequence, MetadataManager.seq_leb.
  destruct (wal_metadata.sequence_number a), (wal_metadata.sequence_number b);
    try discriminate; auto.
  rewrite !Z.leb_le. intros. f_equal. lia.
Qed.

Lemma strongly_sorted_strict (l : list wal_metadata.row) :
  StronglySorted MetadataManager.by_sequence l ->
  NoDup (map wal_metadata.sequence_number l) ->
  StronglySorted strictly_by_sequence l.
Proof.
  induction 1 as [|a l Hl IH Ha]; intros Hnd; [constructor|].
  cbn in Hnd. apply NoDup_cons in Hnd as [Hnotin Hnd].
  constructor; [now apply IH|].
  rewrite Forall_forall in Ha |- *. intros b Hb. split; [now apply Ha|].
  intros Heq. apply Hnotin. rewrite Heq.
  apply list_elem_of_fmap. exists b. split; [reflexivity|exact Hb].
Qed.

(** The rows [get_wals_for_backup] returns over a connection that is open:
    those of the backup, in non-decreasing order of sequence number. *)
Lemma get_wals_for_backup_sorted (db : db_outcome) id w :
  exists rows w',
    MetadataManager.get_wals_for_backup db id w = (Return rows, w')
    /\ ledger w' = ledger w /\ procs w' = procs w /\ files w' = files w
    /\ bucket w' = bucket w
    /\ StronglySorted MetadataManager.by_sequence rows
    /\ (forall r, r ∈ rows ->
                  r ∈ wals (ledger w) /\ wal_metadata.backup_id r = Some id)
    /\ (db = Executes ->
        rows ≡ₚ List.filter (MetadataManager.of_backup id) (wals (ledger w))).
Proof.
  unfold MetadataManager.get_wals_for_backup, MetadataManager.select_wals.
  ledger_frame.
  destruct db as [|msg]; cbn.
  - do 2 eexists. split; [reflexivity|]. repeat split.
    + apply Sorted_StronglySorted; [apply _|]. apply Sorted_merge_sort; apply _.
    + rewrite merge_sort_Permutation in H.
      apply list_elem_of_In, filter_In in H as [H _]. now apply list_elem_of_In.
    + rewrite merge_sort_Permutation in H.
      apply list_elem_of_In, filter_In in H as [_ H].
      unfold MetadataManager.of_backup in H.
      destruct (wal_metadata.backup_id r); [|discriminate].
      apply String.eqb_eq in H. now subst.
    + intros _. apply merge_sort_Permutation.
  - do 2 eexists. split; [reflexivity|]. repeat split; try constructor.
    + inversion H.
    + inversion H.
    + discriminate.
Qed.

(** Whatever the connection does, [get_wals_for_backup] returns rows of the
    backup in that order, or raises. *)
Lemma get_wals_for_backup_outcome db id w :
  exists w',
    ledger w' = ledger w /\ ledger_and_log_only w w'
    /\ match db with
       | Statement o =>
           exists rows,
             MetadataManager.get_wals_for_backup db id w = (Return rows, w')
             /\ StronglySorted MetadataManager.by_sequence rows
             /\ (forall r, r ∈ rows ->
                           r ∈ wals (ledger w) /\ wal_metadata.backup_id r = Some id)
       | ConnectionLost _ _ =>
           MetadataManager.get_wals_for_backup db id w = (Return [], w')
       | Unreachable _ =>
           MetadataManager.get_wals_for_backup db id w
           = (Raise (MetadataManager.unbound_local "cursor"), w')
       end.
Proof.
  destruct db as [o|msg rb|msg].
  - destruct (get_wals_for_backup_sorted o id w)
      as (rows & w' & Hrun & Hl & Hp & Hf & Hb & Hs & Hrows & _).
    exists w'. split; [exact Hl|]. split; [now repeat split|].
    exists rows. repeat split; try assumption; now apply Hrows.
  - eexists. split; [|split; [|reflexivity]]; repeat split.
  - eexists. split; [|split; [|reflexivity]]; repeat split.
Qed.
(** ** Facts about the backup engine ([core/backup.py]) *)

Section BackupFacts.
Context {sha256 : HashAlgorithm}.
Variable self : BackupEngine.t.

Lemma logged_error_one w w' msg :
  log w' = (log w ++ [(ERROR, msg)])%list -> logged_error w w'.
Proof. intros H. exists [], msg. exact H. Qed.

Lemma logged_error_after w w1 w' :
  log_extends w w1 -> logged_error w1 w' -> logged_error w w'.
Proof.
  intros [e1 H1] (e2 & msg & H2). exists (e1 ++ e2)%list, msg.
  now rewrite H2, H1, <- !app_assoc.
Qed.

Lemma verify_upload_log s3 net p k e :
  keeps log_extends (_verify_upload s3 net p k e).
Proof. unfold _verify_upload. pose proof verify_checksum_log. keeps_auto. Qed.

(** A failed upload leaves an error in the log. *)
Lemma upload_file_failure_logged s3 net p t f w detail w' :
  upload_file s3 net p t f w = (Return (false, detail), w') -> logged_error w w'.
Proof.
  unfold upload_file, try_except, bind.
  pose proof (calculate_checksum_pure log p w) as Hc.
  destruct (calculate_checksum p w) as [[c|x] w1]; cbn in Hc.
  2:{ intros [= _ <-]. eapply logged_error_one. cbn. now rewrite Hc. }
  destruct (encryption_args s3) as [sse kms].
  unfold client_upload_file. destruct (net_put net) as [stored|msg].
  2:{ intros [= _ <-]. eapply logged_error_one. cbn. now rewrite Hc. }
  match goal with |- context [_verify_upload s3 net p ?k ?e ?w2] =>
    pose proof (verify_upload_log s3 net p k e w2) as Hl;
    destruct (_verify_upload s3 net p k e w2) as [[[]|x] w3]
  end; destruct Hl as [entries Hl]; cbn in Hl.
  - discriminate.
  - intros [= _ <-]. eexists entries, _. cbn. rewrite Hl.
    now rewrite Hc, <- app_assoc.
  - intros [= _ <-]. eexists entries, _. cbn. rewrite Hl.
    now rewrite Hc, <- app_assoc.
Qed.

Lemma getsize_pure {X} (part : World -> X) p :
  preserves part (BackupEngine.getsize p).
Proof. unfold BackupEngine.getsize. keeps_auto. Qed.

(** One turn of the loop over the WAL files never raises.  Either the file
    is skipped (nothing is recorded, an error is in the log) or exactly one
    row is added to [wal_metadata], which requires that a row of
    [backup_metadata] carries the batch identifier already. *)
Lemma process_wal_file_outcome backup_id start_time io uploaded wal_file w :
  exists uploaded' w',
    BackupEngine.process_wal_file self backup_id start_time io uploaded wal_file w
    = (Return uploaded', w')
    /\ backups (ledger w') = backups (ledger w)
    /\ restores (ledger w') = restores (ledger w)
    /\ ((uploaded' = uploaded
         /\ wals (ledger w') = wals (ledger w)
         /\ logged_error w w')
        \/ (exists row,
              uploaded' = (uploaded ++ [Py.basename wal_file])%list
              /\ wals (ledger w') = (wals (ledger w) ++ [row])%list
              /\ wal_metadata.wal_name row = Py.basename wal_file
              /\ wal_row_of backup_id row
              /\ MetadataManager.has_backup (ledger w) backup_id = true
              /\ BackupEngine.wal_db (io wal_file) = Executes
              /\ MetadataManager.fits_bigint (wal_metadata.sequence_number row) = true)).
Proof.
  unfold BackupEngine.process_wal_file, try_except, bind.
  destruct (upload_file_returns (BackupEngine.s3_client self)
              (BackupEngine.wal_net (io wal_file)) wal_file "incremental"
              (Some (Py.basename wal_file)) w) as (ok & s3_key & w1 & Hup).
  pose proof (upload_file_ledger (BackupEngine.s3_client self)
                (BackupEngine.wal_net (io wal_file)) wal_file "incremental"
                (Some (Py.basename wal_file)) w) as Hl1.
  rewrite Hup in Hl1 |- *. cbn in Hl1.
  destruct ok.
  2:{ do 2 eexists. split; [reflexivity|]. rewrite Hl1. repeat split.
      left. repeat split. eapply upload_file_failure_logged. exact Hup. }
  pose proof (upload_file_log (BackupEngine.s3_client self)
                (BackupEngine.wal_net (io wal_file)) wal_file "incremental"
                (Some (Py.basename wal_file)) w) as Hext.
  rewrite Hup in Hext. cbn in Hext.
  pose proof (calculate_checksum_pure ledger wal_file w1) as Hc1.
  pose proof (calculate_checksum_pure log wal_file w1) as Hc2.
  destruct (calculate_checksum wal_file w1) as [[checksum|e] w2]; cbn in Hc1, Hc2.
  2:{ do 2 eexists. split; [reflexivity|]. cbn. rewrite Hc1, Hl1. repeat split.
      left. repeat split. apply (logged_error_after w w1); [exact Hext|].
      eapply logged_error_one. cbn. now rewrite Hc2. }
  pose proof (getsize_pure ledger wal_file w2) as Hg1.
  pose proof (getsize_pure log wal_file w2) as Hg2.
  destruct (BackupEngine.getsize wal_file w2) as [[file_size|e] w3]; cbn in Hg1, Hg2.
  2:{ do 2 eexists. split; [reflexivity|]. cbn. rewrite Hg1, Hc1, Hl1. repeat split.
      left. repeat split. apply (logged_error_after w w1); [exact Hext|].
      eapply logged_error_one. cbn. now rewrite Hg2, Hc2. }
  match goal with |- context [MetadataManager.create_wal_record ?db ?d w3] =>
    pose proof (create_wal_record_outcome db d w3) as Hrec;
    destruct (MetadataManager.create_wal_record db d w3) as [[[]|e] w4]
  end.
  - destruct Hrec as (Hdb & Href & Hb & Hw & Hr & _ & Hfits).
    do 2 eexists. split; [reflexivity|].
    rewrite Hb, Hr, Hw, Hg1, Hc1, Hl1. repeat split.
    right. eexists. repeat split; try reflexivity; try assumption.
    cbn in Href. now rewrite Hg1, Hc1, Hl1 in Href.
  - destruct Hrec as (Hled & entries & Hlog).
    do 2 eexists. split; [reflexivity|]. cbn. rewrite Hled, Hg1, Hc1, Hl1.
    repeat split. left. repeat split.
    apply (logged_error_after w w1); [exact Hext|].
    eexists entries, _. cbn. rewrite Hlog, Hg2, Hc2. now rewrite <- app_assoc.
Qed.

(** The loop over the WAL files never raises.  It leaves [backup_metadata]
    and [restore_operations] alone; the rows it adds to [wal_metadata] are
    those of the recorded files, and it adds none unless the batch
    identifier is already in [backup_metadata]. *)
Lemma process_wal_files_outcome backup_id start_time io wal_files :
  forall uploaded w,
  exists rows w',
    BackupEngine.process_wal_files self backup_id start_time io wal_files uploaded w
    = (Return (uploaded ++ map wal_metadata.wal_name rows)%list, w')
    /\ backups (ledger w') = backups (ledger w)
    /\ restores (ledger w') = restores (ledger w)
    /\ wals (ledger w') = (wals (ledger w) ++ rows)%list
    /\ Forall (wal_row_of backup_id) rows
    /\ (MetadataManager.has_backup (ledger w) backup_id = false -> rows = []).
Proof.
  induction wal_files as [|wal_file rest IH]; intros uploaded w.
  - exists [], w. cbn. rewrite !app_nil_r. repeat split. constructor.
  - cbn [BackupEngine.process_wal_files]. unfold bind.
    destruct (process_wal_file_outcome backup_id start_time io uploaded wal_file w)
      as (uploaded' & w1 & -> & Hb & Hr & Hcase).
    destruct (IH uploaded' w1) as (rows & w' & -> & Hb' & Hr' & Hw' & Hrows & Hnone).
    assert (Hhas : MetadataManager.has_backup (ledger w1) backup_id
                   = MetadataManager.has_backup (ledger w) backup_id).
    { unfold MetadataManager.has_backup. now rewrite Hb. }
    destruct Hcase as [(-> & Hw & _) | (row & -> & Hw & Hname & Hrow & Hparent & _)].
    + exists rows, w'. split; [reflexivity|]. rewrite Hb', Hr', Hw', Hb, Hr, Hw.
      repeat split; [assumption|]. intros Hf. apply Hnone. now rewrite Hhas.
    + exists (row :: rows), w'. cbn [map]. rewrite Hname.
      rewrite <- app_assoc. split; [reflexivity|].
      rewrite Hb', Hr', Hw', Hb, Hr, Hw, <- app_assoc. repeat split.
      * now constructor.
      * intros Hf. congruence.
Qed.

Lemma get_wal_files_outcome listing w :
  exists wal_files w0,
    BackupEngine._get_wal_files self listing w = (Return wal_files, w0)
    /\ ledger w0 = ledger w.
Proof.
  unfold BackupEngine._get_wal_files. destruct listing; do 2 eexists; split; reflexivity.
Qed.

Lemma cleanup_outcome w :
  exists w',
    BackupEngine._cleanup_temp_files self w = (Return tt, w')
    /\ ledger w' = ledger w /\ bucket w' = bucket w /\ log w' = log w
    /\ procs w' = procs w.
Proof. eexists. split; [reflexivity|]. repeat split. Qed.

(** The dictionary of the batch record has no [size_bytes]: psycopg2
    refuses it with [KeyError] before anything is sent. *)
Lemma batch_record_refused db d w :
  backup_data.backup_id d <> None ->
  backup_data.backup_type d <> None ->
  backup_data.status d <> None ->
  backup_data.start_ts d <> None ->
  backup_data.end_ts d <> None ->
  backup_data.size_bytes d = None ->
  exists w',
    MetadataManager.create_backup_record db d w
    = (Raise (after_rollback db (MetadataManager.key_error "size_bytes")), w')
    /\ ledger w' = ledger w
    /\ ledger_and_log_only w w'.
Proof.
  intros H1 H2 H3 H4 H5 H6. apply create_backup_record_refused.
  unfold MetadataManager.format_backup_data, MetadataManager.item, bind, ret, raise.
  destruct (backup_data.backup_id d); [|congruence].
  destruct (backup_data.backup_type d); [|congruence].
  destruct (backup_data.status d); [|congruence].
  destruct (backup_data.start_ts d); [|congruence].
  destruct (backup_data.end_ts d); [|congruence].
  now rewrite H6.
Qed.

(** The outcome of [create_incremental_backup] when WAL files were found:
    it returns a failure, for want of a recorded segment or because its
    batch record is refused. *)
Lemma create_incremental_backup_outcome env label w wal_files w0 :
  BackupEngine._get_wal_files self (BackupEngine.incr_listdir env) w
  = (Return wal_files, w0) ->
  wal_files <> [] ->
  exists rows w1 detail w2,
    BackupEngine.process_wal_files self (BackupEngine.incr_uuid4 env)
      (BackupEngine.incr_start env) (BackupEngine.incr_wal env) wal_files [] w0
    = (Return (map wal_metadata.wal_name rows), w1)
    /\ wals (ledger w1) = (wals (ledger w) ++ rows)%list
    /\ backups (ledger w1) = backups (ledger w)
    /\ restores (ledger w1) = restores (ledger w)
    /\ Forall (wal_row_of (BackupEngine.incr_uuid4 env)) rows
    /\ (MetadataManager.has_backup (ledger w) (BackupEngine.incr_uuid4 env) = false ->
        rows = [])
    /\ BackupEngine.create_incremental_backup self env label w
       = (Return (false, detail), w2)
    /\ ledger w2 = ledger w1
    /\ detail
       = match rows with
         | [] => BackupEngine.no_wal_processed
         | _ =>
             after_rollback (BackupEngine.incr_db_create env)
               (MetadataManager.key_error "size_bytes")
         end.
Proof.
  intros Hfound Hne.
  destruct (get_wal_files_outcome (BackupEngine.incr_listdir env) w)
    as (fs & w0' & Hfound' & Hl0).
  rewrite Hfound in Hfound'. injection Hfound' as <- <-.
  destruct (process_wal_files_outcome (BackupEngine.incr_uuid4 env)
              (BackupEngine.incr_start env) (BackupEngine.incr_wal env) wal_files [] w0)
    as (rows & w1 & Hloop & Hb & Hr & Hw & Hrows & Hnone).
  cbn [app] in Hloop. rewrite Hl0 in Hb, Hr, Hw, Hnone.
  exists rows, w1.
  unfold BackupEngine.create_incremental_backup, try_finally, try_except, bind.
  rewrite Hfound. destruct wal_files as [|f fs']; [congruence|].
  rewrite Hloop.
  destruct rows as [|row rows].
  - cbn [map]. do 2 eexists. repeat split; try reflexivity; assumption.
  - cbn [map].
    match goal with |- context [MetadataManager.create_backup_record ?db ?d w1] =>
      destruct (batch_record_refused db d w1) as (w3 & -> & Hl3 & _);
        try discriminate; try reflexivity
    end.
    do 2 eexists. repeat split; try reflexivity; try assumption.
Qed.

(** Whatever the input, [create_incremental_backup] returns a failure and
    leaves [backup_metadata] and [restore_operations] as they were; the
    rows it adds to [wal_metadata] name the batch identifier, and it adds
    none unless a row of [backup_metadata] carried that identifier before
    the call. *)
Lemma create_incremental_backup_rows env label w :
  exists detail w' rows,
    BackupEngine.create_incremental_backup self env label w
    = (Return (false, detail), w')
    /\ wals (ledger w') = (wals (ledger w) ++ rows)%list
    /\ backups (ledger w') = backups (ledger w)
    /\ restores (ledger w') = restores (ledger w)
    /\ Forall (wal_row_of (BackupEngine.incr_uuid4 env)) rows
    /\ (MetadataManager.has_backup (ledger w) (BackupEngine.incr_uuid4 env) = false ->
        rows = []).
Proof.
  destruct (get_wal_files_outcome (BackupEngine.incr_listdir env) w)
    as (wal_files & w0 & Hfound & Hl0).
  destruct wal_files as [|f fs].
  - unfold BackupEngine.create_incremental_backup, try_finally, try_except, bind.
    rewrite Hfound. do 2 eexists. exists [].
    split; [reflexivity|]. cbn. rewrite Hl0, app_nil_r.
    repeat split. constructor.
  - destruct (create_incremental_backup_outcome env label w (f :: fs) w0 Hfound
                ltac:(discriminate))
      as (rows & w1 & detail & w2 & _ & Hw1 & Hb1 & Hr1 & Hrows & Hnone & Hrun & Hl2 & _).
    exists detail, w2, rows. rewrite Hl2.
    repeat split; assumption.
Qed.

End BackupFacts.
(** *** [create_full_backup] *)

Section FullBackupFacts.
Context {sha256 : HashAlgorithm}.
Variable self : BackupEngine.t.

Lemma get_postgres_version_outcome out w :
  exists v w0,
    BackupEngine._get_postgres_version self out w = (Return v, w0)
    /\ ledger w0 = ledger w
    /\ bucket w0 = bucket w
    /\ files w0 = files w
    /\ procs w0 = (procs w ++ version_query self)%list.
Proof.
  unfold BackupEngine._get_postgres_version, version_query.
  destruct (BackupEngine.pg_config self !! "user");
    [destruct (BackupEngine.pg_config self !! "database")|];
    try (do 2 eexists; repeat split; cbn; now rewrite app_nil_r).
  unfold bind, subprocess_run, modify. cbn.
  destruct out as [rc so se| |msg]; [destruct (rc =? 0)| |];
    do 2 eexists; repeat split.
Qed.

Lemma execute_pg_dump_ledger out output id :
  preserves ledger (BackupEngine._execute_pg_dump self out output id).
Proof. unfold BackupEngine._execute_pg_dump. keeps_auto. Qed.

Lemma dump_and_upload_ledger env id :
  preserves ledger (BackupEngine.dump_and_upload self env id).
Proof.
  unfold BackupEngine.dump_and_upload.
  pose proof execute_pg_dump_ledger.
  pose proof (calculate_checksum_pure ledger).
  pose proof (getsize_pure ledger).
  pose proof upload_file_ledger.
  keeps_auto.
Qed.

(** The dictionary that [create_full_backup] builds has no [end_ts]:
    psycopg2 refuses it with [KeyError] before anything is sent. *)
Lemma running_record_refused db d w :
  backup_data.backup_id d <> None ->
  backup_data.backup_type d <> None ->
  backup_data.status d <> None ->
  backup_data.start_ts d <> None ->
  backup_data.end_ts d = None ->
  exists w',
    MetadataManager.create_backup_record db d w
    = (Raise (after_rollback db (MetadataManager.key_error "end_ts")), w')
    /\ ledger w' = ledger w
    /\ ledger_and_log_only w w'.
Proof.
  intros H1 H2 H3 H4 H5. apply create_backup_record_refused.
  unfold MetadataManager.format_backup_data, MetadataManager.item, bind, ret, raise.
  destruct (backup_data.backup_id d); [|congruence].
  destruct (backup_data.backup_type d); [|congruence].
  destruct (backup_data.status d); [|congruence].
  destruct (backup_data.start_ts d); [|congruence].
  now rewrite H5.
Qed.

(** The outcome of [create_full_backup].  Its first statement on the
    ledger raises, so nothing follows but the handler: no dump is taken and
    nothing is uploaded.  The update of the handler marks the rows that
    carry the identifier as [failed]; when it cannot use the connection its
    exception leaves the function. *)
Lemma create_full_backup_outcome env label description w :
  let e := after_rollback (BackupEngine.full_db_create env)
             (MetadataManager.key_error "end_ts") in
  exists w',
    BackupEngine.create_full_backup self env label description w
    = (match BackupEngine.full_db_failed env with
       | Statement _ => Return (false, e)
       | ConnectionLost _ rollback_msg => Raise rollback_msg
       | Unreachable _ => Raise (MetadataManager.unbound_local "cursor")
       end, w')
    /\ procs w' = (procs w ++ version_query self)%list
    /\ bucket w' = bucket w
    /\ wals (ledger w') = wals (ledger w)
    /\ restores (ledger w') = restores (ledger w)
    /\ backups (ledger w')
       = match BackupEngine.full_db_failed env with
         | Statement Executes =>
             map (fun r =>
                    if String.eqb (backup_metadata.backup_id r)
                         (BackupEngine.full_uuid4 env)
                    then MetadataManager.set_clause "failed"
                           (Some (BackupEngine.full_failed_at env))
                           MetadataManager.no_kwargs r
                    else r)
                 (backups (ledger w))
         | _ => backups (ledger w)
         end.
Proof.
  intros e. unfold BackupEngine.create_full_backup, bind.
  destruct (get_postgres_version_outcome (BackupEngine.full_psql env) w)
    as (v & w0 & -> & Hl0 & Hb0 & _ & Hp0).
  unfold try_finally, try_except, bind.
  match goal with |- context [MetadataManager.create_backup_record ?db ?d w0] =>
    destruct (running_record_refused db d w0) as (w1 & -> & Hl1 & Hp1 & Hb1 & _);
      try discriminate; try reflexivity
  end.
  fold e. cbv beta iota zeta delta [logger_error modify].
  match goal with
  | |- context [MetadataManager.update_backup_status ?db ?i ?s ?t ?k ?w2] =>
      destruct (update_backup_status_outcome db i s t k w2)
        as (w3 & -> & Hb3 & Hw3 & Hr3 & (Hp3 & Hbk3 & _) & _)
  end.
  cbn [ledger set_log procs bucket] in Hb3, Hw3, Hr3, Hp3, Hbk3.
  rewrite Hl1, Hl0 in Hb3, Hw3, Hr3.
  destruct (BackupEngine.full_db_failed env) as [[|msg]|msg rb|msg]; cbn;
    eexists; (split; [reflexivity|]); cbn;
    rewrite ?Hp3, ?Hbk3, ?Hp1, ?Hb1, ?Hp0, ?Hb0, ?Hb3, ?Hw3, ?Hr3; repeat split.
Qed.

End FullBackupFacts.
(** ** Facts about the restore engine ([core/restore.py]) *)

Section RestoreFacts.
Context {sha256 : HashAlgorithm}.
Variable self : RestoreEngine.t.

Lemma apply_single_wal_outcome out wal_file destination w :
  exists ok w',
    RestoreEngine._apply_single_wal out wal_file destination w = (Return ok, w')
    /\ procs w' = (procs w ++ [["pg_walfile"; "--path"; destination; wal_file]])%list
    /\ ledger w' = ledger w.
Proof.
  unfold RestoreEngine._apply_single_wal, bind, subprocess_run, modify, ret.
  destruct out; do 2 eexists; repeat split.
Qed.

(** One turn of the loop of [_apply_wal_files] never raises.  The segment
    is handed to [pg_walfile] only when it was downloaded and its interval
    does not end after the target; the turn ends the loop only when the
    segment was downloaded and its interval ends after the target. *)
Lemma apply_wal_record_outcome env target_dt destination applied row w :
  exists exit applied' w',
    RestoreEngine.apply_wal_record self env target_dt destination applied row w
    = (Return (exit, applied'), w')
    /\ ledger w' = ledger w
    /\ match wal_metadata.s3_key row with
       | None => exit = RestoreEngine.Continue /\ applied' = applied /\ procs w' = procs w
       | Some s3_key =>
           exists ok msg w1,
             download_file (RestoreEngine.s3_client self)
               (RestoreEngine.net_wal env s3_key) s3_key
               (Py.path_join (RestoreEngine.temp_dir self) (Py.basename s3_key)) w
             = (Return (ok, msg), w1)
             /\ if ok then
                  match dt_gt (wal_metadata.end_ts row) target_dt with
                  | Some true =>
                      exit = RestoreEngine.Break /\ applied' = applied /\ w' = w1
                  | Some false =>
                      exit = RestoreEngine.Continue
                      /\ procs w'
                         = (procs w ++ [walfile_command self destination row])%list
                  | None =>
                      exit = RestoreEngine.Continue /\ applied' = applied /\ procs w' = procs w
                  end
                else exit = RestoreEngine.Continue /\ applied' = applied /\ w' = w1
       end.
Proof.
  unfold RestoreEngine.apply_wal_record, try_except, bind.
  destruct (wal_metadata.s3_key row) as [s3_key|] eqn:Hkey.
  2:{ do 3 eexists. split; [reflexivity|]. repeat split. }
  set (path := Py.path_join (RestoreEngine.temp_dir self) (Py.basename s3_key)).
  destruct (download_file_returns (RestoreEngine.s3_client self)
              (RestoreEngine.net_wal env s3_key) s3_key path w)
    as (ok & msg & w1 & Hdl).
  pose proof (download_file_ledger (RestoreEngine.s3_client self)
                (RestoreEngine.net_wal env s3_key) s3_key path w) as Hl1.
  pose proof (download_file_procs (RestoreEngine.s3_client self)
                (RestoreEngine.net_wal env s3_key) s3_key path w) as Hp1.
  rewrite Hdl in Hl1, Hp1 |- *. cbn in Hl1, Hp1. cbn [fst negb].
  destruct ok; cbn [negb].
  2:{ do 3 eexists. split; [reflexivity|]. split; [exact Hl1|].
      exists false, msg, w1. repeat split. }
  destruct (dt_gt (wal_metadata.end_ts row) target_dt) as [[|]|] eqn:Hgt.
  - do 3 eexists. split; [reflexivity|]. split; [exact Hl1|].
    exists true, msg, w1. repeat split.
  - destruct (apply_single_wal_outcome (RestoreEngine.walfile_tool env path)
                path destination w1) as (applied_ok & w2 & -> & Hp2 & Hl2).
    destruct applied_ok; do 3 eexists; (split; [reflexivity|]);
      (split; [cbn; congruence|]); exists true, msg, w1;
      (split; [reflexivity|]); (split; [reflexivity|]); cbn;
      rewrite Hp2, Hp1; unfold walfile_command; now rewrite Hkey.
  - do 3 eexists. split; [reflexivity|]. split; [exact Hl1|].
    exists true, msg, w1. repeat split. cbn. exact Hp1.
Qed.

(** The whole loop: every [pg_walfile] it starts is for a row of the list
    whose interval ends at or before the target. *)
Lemma apply_wal_records_outcome env target_dt destination wal_files :
  forall applied w,
  exists applied' w' replayed,
    RestoreEngine.apply_wal_records self env target_dt destination wal_files applied w
    = (Return applied', w')
    /\ ledger w' = ledger w
    /\ procs w' = (procs w ++ map (walfile_command self destination) replayed)%list
    /\ Forall (fun r => r ∈ wal_files /\ ends_by target_dt r) replayed.
Proof.
  induction wal_files as [|row rest IH]; intros applied w.
  - exists applied, w, []. cbn. rewrite app_nil_r. repeat split. constructor.
  - cbn [RestoreEngine.apply_wal_records]. unfold bind.
    destruct (apply_wal_record_outcome env target_dt destination applied row w)
      as (exit & applied1 & w1 & -> & Hl1 & Hcase).
    assert (Hstep : procs w1 = procs w
                    \/ (procs w1 = (procs w ++ [walfile_command self destination row])%list
                        /\ ends_by target_dt row /\ exit = RestoreEngine.Continue)).
    { destruct (wal_metadata.s3_key row) as [k|].
      - destruct Hcase as (ok & msg & w0 & Hdl & Hcase).
        pose proof (download_file_procs (RestoreEngine.s3_client self)
                      (RestoreEngine.net_wal env k) k
                      (Py.path_join (RestoreEngine.temp_dir self) (Py.basename k)) w)
          as Hp0.
        rewrite Hdl in Hp0. cbn in Hp0.
        destruct ok.
        + destruct (dt_gt (wal_metadata.end_ts row) target_dt) as [[|]|] eqn:Hgt.
          * destruct Hcase as (_ & _ & ->). now left.
          * destruct Hcase as (-> & Hp). right. repeat split; assumption.
          * destruct Hcase as (_ & _ & Hp). now left.
        + destruct Hcase as (_ & _ & ->). now left.
      - destruct Hcase as (_ & _ & Hp). now left. }
    destruct exit.
    + destruct Hstep as [Hp | (_ & _ & [=])].
      exists applied1, w1, []. cbn. rewrite app_nil_r. repeat split; try assumption.
      constructor.
    + destruct (IH applied1 w1) as (applied' & w' & replayed & -> & Hl & Hp & Hall).
      assert (Hall' : Forall (fun r => r ∈ row :: rest /\ ends_by target_dt r) replayed).
      { eapply Forall_impl; [exact Hall|]. intros r [Hin He]. split; [|exact He].
        now apply list_elem_of_further. }
      destruct Hstep as [Hp1 | (Hp1 & Hby & _)].
      * exists applied', w', replayed. split; [reflexivity|].
        rewrite Hl, Hl1, Hp, Hp1. repeat split. exact Hall'.
      * exists applied', w', (row :: replayed). split; [reflexivity|].
        rewrite Hl, Hl1, Hp, Hp1. cbn [map]. rewrite <- app_assoc. repeat split.
        constructor; [|exact Hall']. split; [apply list_elem_of_here | exact Hby].
Qed.



(** [_apply_wal_files] never raises and leaves the ledger alone. *)
Lemma apply_wal_files_returns env backup_id target_time destination w :
  exists ok w',
    RestoreEngine._apply_wal_files self env backup_id target_time destination w
    = (Return ok, w')
    /\ ledger w' = ledger w.
Proof.
  unfold RestoreEngine._apply_wal_files, try_except, bind.
  destruct (get_wals_for_backup_outcome (RestoreEngine.db_wals env) backup_id w)
    as (w0 & Hl0 & _ & Hcase).
  destruct (RestoreEngine.db_wals env) as [o|msg rb|msg].
  - destruct Hcase as (rows & -> & _).
    destruct rows as [|row rows]; [do 2 eexists; split; [reflexivity | exact Hl0]|].
    destruct (RestoreEngine.fromisoformat env target_time) as [target_dt|];
      [|do 2 eexists; split; [reflexivity | exact Hl0]].
    destruct (apply_wal_records_outcome env target_dt destination (row :: rows) [] w0)
      as (applied & w' & replayed & -> & Hl & _).
    do 2 eexists; split; [reflexivity | cbn; congruence].
  - rewrite Hcase. do 2 eexists; split; [reflexivity | exact Hl0].
  - rewrite Hcase. do 2 eexists; split; [reflexivity | exact Hl0].
Qed.

(** *** [restore_backup] *)

(** Every run of [m] ends in an exception, in a world that is [R]-related
    to the one it started in. *)
Definition fails_within {A} (R : World -> World -> Prop) (m : M A) : Prop :=
  forall w, exists e w', m w = (Raise e, w') /\ R w w'.

Lemma fails_raise {A} (R : World -> World -> Prop) `{!PreOrder R} e :
  fails_within R (@raise A e).
Proof. intros w. exists e, w. split; reflexivity. Qed.

Lemma fails_bind_l {A B} (R : World -> World -> Prop) (m : M A) (k : A -> M B) :
  fails_within R m -> fails_within R (bind m k).
Proof.
  intros H w. destruct (H w) as (e & w' & Hm & HR).
  exists e, w'. unfold bind. now rewrite Hm.
Qed.

Lemma fails_bind_r {A B} (R : World -> World -> Prop) `{!PreOrder R}
    (m : M A) (k : A -> M B) :
  keeps R m -> (forall a, fails_within R (k a)) -> fails_within R (bind m k).
Proof.
  intros Hm Hk w. unfold bind. specialize (Hm w).
  destruct (m w) as [[a|e] w1]; cbn in Hm.
  - destruct (Hk a w1) as (e & w' & -> & HR).
    exists e, w'. split; [reflexivity|]. now transitivity w1.
  - exists e, w1. split; [reflexivity | exact Hm].
Qed.

(** The ledger is as it was, and nothing but the log has changed. *)
Definition log_only : World -> World -> Prop :=
  fun w w' => ledger w' = ledger w /\ ledger_and_log_only w w'.

#[export] Instance log_only_preorder : PreOrder log_only.
Proof.
  split.
  - intros w. split; reflexivity.
  - intros a b c [H1 H2] [H3 H4]. split; [congruence | now transitivity b].
Qed.

Lemma log_line_only w msg : log_only w (set_log (log w ++ [(ERROR, msg)])%list w).
Proof. repeat split. Qed.

Lemma find_latest_full_backup_keeps db :
  keeps log_only (RestoreEngine._find_latest_full_backup db).
Proof.
  unfold RestoreEngine._find_latest_full_backup.
  apply keeps_try_except; [apply _ | |].
  - apply keeps_bind; [apply _ | |].
    + apply get_latest_backup_keeps; [apply _ | exact log_line_only].
    + intros [r|]; apply keeps_ret; apply _.
  - intros e. apply keeps_bind; [apply _ | | intros _; apply keeps_ret; apply _].
    intros w. apply log_line_only.
Qed.

(** The dictionary that [restore_backup] builds has no [target_xid]:
    psycopg2 refuses it with [KeyError] before anything is sent. *)
Lemma restore_record_refused db d :
  restore_data.restore_id d <> None ->
  restore_data.backup_id d <> None ->
  restore_data.target_time d <> None ->
  restore_data.target_xid d = None ->
  forall w,
  exists w',
    MetadataManager.create_restore_record db d w
    = (Raise (after_rollback db (MetadataManager.key_error "target_xid")), w')
    /\ log_only w w'.
Proof.
  intros H1 H2 H3 H4 w.
  destruct (create_restore_record_refused db d w
              (MetadataManager.key_error "target_xid")) as (w' & Hrun & Hl & Ho).
  - unfold MetadataManager.format_restore_data, MetadataManager.item, bind, ret, raise.
    destruct (restore_data.restore_id d); [|congruence].
    destruct (restore_data.backup_id d); [|congruence].
    destruct (restore_data.target_time d); [|congruence].
    now rewrite H4.
  - exists w'. repeat split; try assumption; apply Ho.
Qed.

(** The statements of [restore_backup] up to the restoration of the base
    artifact always end in an exception: the insertion of the record of the
    restore is refused, if nothing raised before.  Nothing but the log has
    changed by then. *)
Lemma restore_base_raises env backup_id target_time destination :
  fails_within log_only
    (RestoreEngine.restore_base self env backup_id target_time destination).
Proof.
  unfold RestoreEngine.restore_base.
  apply fails_bind_r; [apply _ | |].
  { destruct (negb (Py.truthy backup_id)); [|apply keeps_ret; apply _].
    apply keeps_bind; [apply _ | apply find_latest_full_backup_keeps |].
    intros found. destruct (negb (Py.truthy found));
      [apply keeps_raise | apply keeps_ret]; apply _. }
  intros id. apply fails_bind_r; [apply _ | |].
  { apply get_backup_by_id_keeps; [apply _ | exact log_line_only]. }
  intros [record|]; [|apply fails_raise; apply _].
  destruct (negb (String.eqb (backup_metadata.status record) "completed"));
    [apply fails_raise; apply _|].
  destruct (RestoreEngine.makedirs_error env); [apply fails_raise; apply _|].
  apply fails_bind_r; [apply _ | |].
  { destruct (Py.truthy target_time); [|apply keeps_ret; apply _].
    destruct (RestoreEngine.fromisoformat env _);
      [apply keeps_ret | apply keeps_raise]; apply _. }
  intros target_dt. apply fails_bind_l.
  intros w.
  match goal with |- context [MetadataManager.create_restore_record ?db ?d] =>
    destruct (restore_record_refused db d) with (w := w) as (w' & Hrun & HR);
      try discriminate; try reflexivity
  end.
  eauto.
Qed.

(** The outcome of [restore_backup]: it never gets to the download of the
    artifact.  It returns a failure, unless the update of its handler finds
    no connection: then the exception of that update leaves it.  It starts
    no process, leaves the bucket alone and adds no row to the ledger. *)
Lemma restore_backup_outcome env backup_id target_time destination w :
  exists e w1 w',
    RestoreEngine.restore_base self env backup_id target_time destination w
    = (Raise e, w1)
    /\ log_only w w1
    /\ RestoreEngine.restore_backup self env backup_id target_time destination w
       = (match RestoreEngine.db_failed env with
          | Unreachable _ => Raise (MetadataManager.unbound_local "cursor")
          | _ => Return (false, e)
          end, w')
    /\ procs w' = procs w
    /\ bucket w' = bucket w
    /\ backups (ledger w') = backups (ledger w)
    /\ wals (ledger w') = wals (ledger w)
    /\ map restore_operations.restore_id (restores (ledger w'))
       = map restore_operations.restore_id (restores (ledger w))
    /\ (MetadataManager.has_restore (ledger w) (RestoreEngine.restore_uuid4 env) = false ->
        restores (ledger w') = restores (ledger w))
    /\ files w'
       = filter (fun kv : string * bytes =>
                   Py.startswith kv.1 (RestoreEngine.temp_dir self ++ "/") = false)
           (files w).
Proof.
  destruct (restore_base_raises env backup_id target_time destination w)
    as (e & w1 & Hbase & HR).
  pose proof HR as (Hl1 & Hp1 & Hb1 & Hf1).
  exists e, w1.
  unfold RestoreEngine.restore_backup, try_finally.
  erewrite try_except_Raise; [|apply (bind_Raise _ _ _ _ _ Hbase)].
  unfold bind at 1. unfold logger_error at 1, modify at 1.
  unfold bind at 1.
  match goal with
  | |- context [RestoreEngine._update_restore_status ?db ?i ?s ?t ?m ?w2] =>
      destruct (update_restore_status_outcome db i s t m w2)
        as (w3 & -> & (Hp3 & Hb3 & Hf3) & Hbk3 & Hw3 & Hid3 & Hr3)
  end.
  cbn [ledger set_log procs bucket files] in Hp3, Hb3, Hf3, Hbk3, Hw3, Hid3, Hr3.
  rewrite Hl1 in Hbk3, Hw3, Hid3, Hr3.
  destruct (RestoreEngine.db_failed env) as [[|msg]|msg rb|msg]; cbn;
    eexists; (split; [exact Hbase|]); (split; [exact HR|]);
    (split; [reflexivity|]); cbn;
    rewrite ?Hp3, ?Hb3, ?Hf3, ?Hp1, ?Hb1, ?Hf1; repeat split; assumption.
Qed.

End RestoreFacts.
(** ** Facts about [prune] ([cli.py]) *)

Section PruneFacts.
Variable backup_engine : BackupEngine.t.

(** The age is the difference of the two calendar readings in whole days. *)
Lemma backup_age_whole_days now b :
  Cli.backup_age now b
  = (wall now - wall (backup_metadata.start_ts b)) / microseconds_per_day.
Proof. reflexivity. Qed.

Lemma should_prune_iff policy b age :
  Cli.should_prune policy b age = true <-> exceeds_retention policy b age.
Proof.
  unfold Cli.should_prune, exceeds_retention, retention_threshold.
  destruct (String.eqb (backup_metadata.backup_type b) "full").
  - rewrite Z.ltb_lt. split; [eauto|]. now intros (t & [= <-] & H).
  - destruct (String.eqb (backup_metadata.backup_type b) "incremental").
    + rewrite Z.ltb_lt. split; [eauto|]. now intros (t & [= <-] & H).
    + split; [discriminate|]. now intros (t & [=] & _).
Qed.

Lemma delete_file_outcome s3 net key w :
  exists ok w',
    delete_file s3 net key w = (Return ok, w')
    /\ ledger w' = ledger w /\ files w' = files w.
Proof.
  unfold delete_file, try_except, bind, client_delete_object.
  destruct net; do 2 eexists; repeat split.
Qed.

(** The loop of [prune] never raises; what it adds to the candidate list
    does not depend on the mode, and in dry-run mode the bucket is as
    before. *)
Lemma prune_loop_outcome env policy dry_run old_backups :
  forall turn pruned w,
  exists w',
    Cli.prune_loop backup_engine env policy dry_run turn old_backups pruned w
    = (Return (pruned ++ candidates env policy turn old_backups)%list, w')
    /\ ledger w' = ledger w
    /\ files w' = files w
    /\ (dry_run = true -> bucket w' = bucket w).
Proof.
  induction old_backups as [|b rest IH]; intros turn pruned w.
  - exists w. cbn. rewrite app_nil_r. repeat split.
  - cbn [Cli.prune_loop candidates].
    destruct (Cli.should_prune policy b (Cli.backup_age (Cli.now env turn) b)).
    + assert (Hstep : exists w1,
        (if negb dry_run then
           if Py.truthy (backup_metadata.s3_key b) then
             delete_file (BackupEngine.s3_client backup_engine)
               (Cli.net_delete env (default "" (backup_metadata.s3_key b)))
               (default "" (backup_metadata.s3_key b)) ;;
             ret tt
           else ret tt
         else ret tt) w = (Return tt, w1)
        /\ ledger w1 = ledger w /\ files w1 = files w
        /\ (dry_run = true -> bucket w1 = bucket w)).
      { destruct dry_run; cbn [negb]; [exists w; repeat split|].
        destruct (Py.truthy (backup_metadata.s3_key b)); [|exists w; repeat split].
        destruct (delete_file_outcome (BackupEngine.s3_client backup_engine)
                    (Cli.net_delete env (default "" (backup_metadata.s3_key b)))
                    (default "" (backup_metadata.s3_key b)) w)
          as (ok & w1 & H & Hl & Hf).
        exists w1. rewrite (bind_Return _ _ _ _ _ H).
        repeat split; try assumption. discriminate. }
      destruct Hstep as (w1 & H1 & Hl1 & Hf1 & Hb1).
      rewrite (bind_Return _ _ _ _ _ H1).
      destruct (IH (S turn)
                  (pruned ++ [candidate_of b (Cli.backup_age (Cli.now env turn) b)])%list
                  w1) as (w' & H' & Hl' & Hf' & Hb').
      exists w'. unfold candidate_of in H'. rewrite H', <- app_assoc.
      split; [reflexivity|]. repeat split; try congruence.
      intros Hd. rewrite Hb', Hb1; auto.
    + apply IH.
Qed.

(** The scan of [prune] runs on a connection that is open: it returns. *)
Lemma list_recent_backups_outcome (db : db_outcome) limit w :
  exists rows w',
    BackupEngine.list_recent_backups db limit w = (Return rows, w')
    /\ ledger w' = ledger w /\ bucket w' = bucket w /\ files w' = files w.
Proof.
  unfold BackupEngine.list_recent_backups, MetadataManager.list_backups,
    MetadataManager.select_backups.
  ledger_frame.
  destruct db; cbn; [destruct (limit <? 0)|]; do 2 eexists; repeat split.
Qed.

(** The outcome of [prune]: the candidates among the scanned records. *)
Lemma prune_outcome env policy dry_run w :
  exists scanned w0 w',
    BackupEngine.list_recent_backups (Cli.db_scan env) 1000 w = (Return scanned, w0)
    /\ Cli.prune backup_engine env policy dry_run w
       = (Return (candidates env policy 0 scanned), w')
    /\ ledger w' = ledger w
    /\ (dry_run = true -> bucket w' = bucket w).
Proof.
  destruct (list_recent_backups_outcome (Cli.db_scan env) 1000 w)
    as (scanned & w0 & Hscan & Hl0 & Hb0 & _).
  destruct (prune_loop_outcome env policy dry_run scanned 0%nat [] w0)
    as (w1 & Hloop & Hl1 & _ & Hb1).
  exists scanned, w0. eexists. split; [exact Hscan|].
  unfold Cli.prune. rewrite (bind_Return _ _ _ _ _ Hscan).
  rewrite (bind_Return _ _ _ _ _ Hloop). cbn [app].
  split; [reflexivity|]. cbn. split; [congruence|].
  intros Hd. rewrite Hb1; auto.
Qed.

End PruneFacts.
(** * The claims *)

(** ** C1 *)

(** One run with a fresh batch identifier, a clean upload and a store that
    executes every statement: the segment is uploaded, its row is refused by
    the foreign key, nothing is recorded and the operation reports a
    failure. *)
Example fresh_identifier_records_nothing :
  let '(r, w') :=
    BackupEngine.create_incremental_backup (sha256 := sum8) demo_engine one_segment
      None segment_on_disk in
  MetadataManager.has_backup (ledger segment_on_disk) "b-incr" = false
  /\ r = Return (false, BackupEngine.no_wal_processed)
  /\ is_Some (bucket w' !! segment_a_key)
  /\ wals (ledger w') = []
  /\ backups (ledger w') = []
  /\ In (ERROR,
         "Erro ao criar registro de WAL: "
           ++ MetadataManager.foreign_key_violation "wal_metadata_backup_id_fkey")
        (log w').
Proof.
  vm_compute. repeat split.
  - eexists. reflexivity.
  - left. reflexivity.
Qed.

(** One run with a batch identifier that a row of [backup_metadata] carries
    already: the row of the segment is written, and it references that
    row. *)
Example taken_identifier_records_the_segment :
  let '(_, w') :=
    BackupEngine.create_incremental_backup (sha256 := sum8) demo_engine one_segment
      None (with_backups [completed_full "b-incr"] segment_on_disk) in
  map wal_metadata.backup_id (wals (ledger w')) = [Some "b-incr"]
  /\ MetadataManager.has_backup
       (ledger (with_backups [completed_full "b-incr"] segment_on_disk)) "b-incr"
     = true.
Proof. vm_compute. split; reflexivity. Qed.

Section WalRowsHaveAParent.
Context {sha256 : HashAlgorithm}.

(** C1. A row of [wal_metadata] is written only when the row of
    [backup_metadata] it references exists already.  (1) In the ledger:
    [create_wal_record] adds the row exactly when it returns, and then the
    foreign key of the row was satisfied in the ledger it was given;
    otherwise the ledger is as before.  (2) In one turn of the loop of
    [create_incremental_backup]: a row is added only if a row of
    [backup_metadata] carries the batch identifier at that moment.  (3) For
    the whole operation: every row it adds names the batch identifier, and
    that identifier was in [backup_metadata] before the call.  Since the
    operation inserts its own batch record last, with a fresh identifier it
    adds no row at all. *)
Theorem wal_rows_reference_existing_backup self env label w :
  (forall db d w0,
     match MetadataManager.create_wal_record db d w0 with
     | (Return _, w1) =>
         MetadataManager.references_backup (ledger w0) (wal_metadata.backup_id d) = true
         /\ wals (ledger w1) = (wals (ledger w0) ++ [d])%list
         /\ backups (ledger w1) = backups (ledger w0)
     | (Raise _, w1) => ledger w1 = ledger w0
     end)
  /\ (forall uploaded wal_file w1,
        exists uploaded' w2,
          BackupEngine.process_wal_file self (BackupEngine.incr_uuid4 env)
            (BackupEngine.incr_start env) (BackupEngine.incr_wal env)
            uploaded wal_file w1
          = (Return uploaded', w2)
          /\ backups (ledger w2) = backups (ledger w1)
          /\ (wals (ledger w2) = wals (ledger w1)
              \/ exists row,
                   wals (ledger w2) = (wals (ledger w1) ++ [row])%list
                   /\ wal_metadata.backup_id row = Some (BackupEngine.incr_uuid4 env)
                   /\ MetadataManager.has_backup (ledger w1)
                        (BackupEngine.incr_uuid4 env) = true))
  /\ exists ok detail w' rows,
       BackupEngine.create_incremental_backup self env label w
       = (Return (ok, detail), w')
       /\ wals (ledger w') = (wals (ledger w) ++ rows)%list
       /\ Forall (fun row =>
                    wal_metadata.backup_id row = Some (BackupEngine.incr_uuid4 env)
                    /\ MetadataManager.references_backup (ledger w)
                         (wal_metadata.backup_id row) = true) rows
       /\ (MetadataManager.has_backup (ledger w) (BackupEngine.incr_uuid4 env) = false ->
           rows = []).
Proof.
  split; [|split].
  - intros db d w0. pose proof (create_wal_record_outcome db d w0) as H.
    destruct (MetadataManager.create_wal_record db d w0) as [[[]|e] w1].
    + destruct H as (_ & Href & Hb & Hw & _). repeat split; assumption.
    + apply H.
  - intros uploaded wal_file w1.
    destruct (process_wal_file_outcome self (BackupEngine.incr_uuid4 env)
                (BackupEngine.incr_start env) (BackupEngine.incr_wal env)
                uploaded wal_file w1)
      as (uploaded' & w2 & Hturn & Hb & _ & Hcase).
    exists uploaded', w2. split; [exact Hturn|]. split; [exact Hb|].
    destruct Hcase as [(_ & Hw & _) | (row & _ & Hw & _ & [Hid _] & Hhas & _)];
      [now left|].
    right. exists row. repeat split; assumption.
  - destruct (create_incremental_backup_rows self env label w)
      as (detail & w' & rows & Hrun & Hw & _ & _ & Hrows & Hnone).
    exists false, detail, w', rows. split; [exact Hrun|]. split; [exact Hw|].
    split; [|exact Hnone].
    destruct (MetadataManager.has_backup (ledger w) (BackupEngine.incr_uuid4 env))
      eqn:Hhas.
    + eapply Forall_impl; [exact Hrows|]. intros row [Hid _]. split; [exact Hid|].
      rewrite Hid. exact Hhas.
    + rewrite (Hnone eq_refl). constructor.
Qed.

End WalRowsHaveAParent.

(** ** C2 *)


Section LedgerFailures.
Context {sha256 : HashAlgorithm}.


End LedgerFailures.

(** ** C3 *)


Section StatusRule.
Context {sha256 : HashAlgorithm}.


End StatusRule.


(** ** C4 *)

(** A corrupted transfer: the object is in the bucket, the upload is
    reported as failed. *)
Lemma upload_file_verified_witness :
  exists w',
    upload_file (sha256 := sum8) demo_s3 corrupting_transfer segment_a_path
      "incremental" None segment_on_disk
    = (Return (false, integrity_failure), w')
    /\ exists obj, bucket w' !! segment_a_key = Some obj /\ body obj = [Byte.x00].
Proof.
  destruct (upload_file_verified (sha256 := sum8) demo_s3 corrupting_transfer
              segment_a_path "incremental" None segment_on_disk)
    as (ok & detail & w' & Hrun & _ & Hbad).
  destruct (Hbad segment_bytes [Byte.x00] eq_refl eq_refl eq_refl
              ltac:(vm_compute; discriminate)) as (-> & -> & Hobj).
  exists w'. split; [exact Hrun | exact Hobj].
Defined.

(** ** C5 *)


Section ReplayRule.
Context {sha256 : HashAlgorithm}.


End ReplayRule.


(** ** C6 *)

Section IncrementalRule.
Context {sha256 : HashAlgorithm}.


End IncrementalRule.


(** ** C7 *)

(** C7, as stated, fails twice: two names that the scan of the archive
    directory accepts and that decode as base-16 numbers are in lexical
    order without their sequence numbers increasing; and
    [get_wals_for_backup] returns two rows with the same sequence number. *)
Lemma lexical_order_without_increase :
  BackupEngine.is_wal_name upper_a = true
  /\ BackupEngine.is_wal_name lower_a = true
  /\ Py.int16 (Py.before_dot upper_a) = Some 10
  /\ Py.int16 (Py.before_dot lower_a) = Some 10
  /\ String.ltb upper_a lower_a = true
  /\ ~ (BackupEngine._extract_wal_sequence upper_a
        < BackupEngine._extract_wal_sequence lower_a)
  /\ map wal_metadata.sequence_number
       (match fst (MetadataManager.get_wals_for_backup Executes "base" same_number_twice)
        with
        | Return rows => rows
        | Raise _ => []
        end)
     = [Some 10; Some 10].
Proof. vm_compute. repeat split. intros H. discriminate H. Qed.

Section SequenceRule.
Context {sha256 : HashAlgorithm}.

(** C7, amended.  (1) The sequence number is the part of the name before
    its first dot read by [int(_, 16)], and 0 when that is not a number; on
    a name made of segment digits and an extension it is the base-16 value
    of the digits.  (2) Every row an incremental backup writes carries the
    sequence number of its own name, which fits a signed 64-bit column (a
    segment whose number does not is skipped).  (3) For names made of the
    same number of segment digits ([0]-[9], [A]-[F]) and the same extension, lexical
    order implies strictly increasing sequence numbers.  (4)
    [get_wals_for_backup] returns the rows of the backup in non-decreasing
    order of sequence number, strictly increasing when no two of them have
    the same number. *)
Theorem wal_sequence_rule :
  (forall name,
     BackupEngine._extract_wal_sequence name
     = default 0 (Py.int16 (Py.before_dot name)))
  /\ (forall digits ext,
        wal_digits digits = true -> digits <> "" ->
        ext = "" \/ (exists e, ext = String "." e) ->
        BackupEngine._extract_wal_sequence (digits ++ ext) = base16 0 digits)
  /\ (forall self backup_id start_time io uploaded wal_file w,
        exists uploaded' w',
          BackupEngine.process_wal_file self backup_id start_time io uploaded
            wal_file w
          = (Return uploaded', w')
          /\ (wals (ledger w') = wals (ledger w)
              \/ exists row,
                   wals (ledger w') = (wals (ledger w) ++ [row])%list
                   /\ wal_metadata.sequence_number row
                      = Some (BackupEngine._extract_wal_sequence
                                (wal_metadata.wal_name row))
                   /\ MetadataManager.fits_bigint
                        (wal_metadata.sequence_number row) = true))
  /\ (forall s1 s2 ext,
        wal_digits s1 = true -> wal_digits s2 = true ->
        String.length s1 = String.length s2 ->
        ext = "" \/ (exists e, ext = String "." e) ->
        String.ltb (s1 ++ ext) (s2 ++ ext) = true ->
        BackupEngine._extract_wal_sequence (s1 ++ ext)
        < BackupEngine._extract_wal_sequence (s2 ++ ext))
  /\ (forall (db : db_outcome) backup_id w,
        exists rows w',
          MetadataManager.get_wals_for_backup db backup_id w = (Return rows, w')
          /\ StronglySorted MetadataManager.by_sequence rows
          /\ (forall r, r ∈ rows ->
                        r ∈ wals (ledger w) /\ wal_metadata.backup_id r = Some backup_id)
          /\ (db = Executes ->
              rows ≡ₚ List.filter (MetadataManager.of_backup backup_id) (wals (ledger w)))
          /\ (NoDup (map wal_metadata.sequence_number rows) ->
              StronglySorted strictly_by_sequence rows)).
Proof.
  split; [|split; [|split; [|split]]].
  - intros name. unfold BackupEngine._extract_wal_sequence.
    now destruct (Py.int16 (Py.before_dot name)).
  - intros. now apply extract_wal_digits.
  - intros self backup_id start_time io uploaded wal_file w.
    destruct (process_wal_file_outcome self backup_id start_time io uploaded wal_file w)
      as (uploaded' & w' & Hturn & _ & _ & Hcase).
    exists uploaded', w'. split; [exact Hturn|].
    destruct Hcase as [(_ & Hw & _) | (row & _ & Hw & _ & [_ Hseq] & _ & _ & Hfits)];
      [now left|].
    right. exists row. repeat split; assumption.
  - intros. now apply lexical_order_is_sequence_order.
  - intros db backup_id w.
    destruct (get_wals_for_backup_sorted db backup_id w)
      as (rows & w' & Hrun & _ & _ & _ & _ & Hsorted & Hrows & Hperm).
    exists rows, w'. repeat split; try assumption.
    + now apply Hrows.
    + now apply Hrows.
    + now apply strongly_sorted_strict.
Qed.

End SequenceRule.

Lemma wal_sequence_rule_witness :
  BackupEngine._extract_wal_sequence ("00000001000000000000A" ++ ".gz")
  < BackupEngine._extract_wal_sequence ("00000001000000000000B" ++ ".gz").
Proof.
  apply (proj1 (proj2 (proj2 (proj2 (wal_sequence_rule (sha256 := sum8)))))).
  - reflexivity.
  - reflexivity.
  - reflexivity.
  - right. eexists. reflexivity.
  - reflexivity.
Defined.

(** ** C8 and C9 *)

Lemma candidates_elem env policy scanned : forall turn c,
  c ∈ candidates env policy turn scanned
  <-> exists i b,
        scanned !! i = Some b
        /\ c = candidate_of b (Cli.backup_age (Cli.now env (turn + i)) b)
        /\ exceeds_retention policy b (Cli.backup_age (Cli.now env (turn + i)) b).
Proof.
  induction scanned as [|b rest IH]; intros turn c.
  - cbn. split; [intros H; inversion H | intros (i & x & H & _); discriminate].
  - cbn [candidates]. split.
    + destruct (Cli.should_prune policy b (Cli.backup_age (Cli.now env turn) b))
        eqn:Hsel; intros Hin.
      * apply elem_of_cons in Hin as [-> | Hin].
        -- exists 0%nat, b. rewrite Nat.add_0_r. repeat split.
           now apply should_prune_iff.
        -- apply IH in Hin as (i & x & Hi & Hc & Hx).
           exists (S i), x. rewrite Nat.add_succ_r. repeat split; assumption.
      * apply IH in Hin as (i & x & Hi & Hc & Hx).
        exists (S i), x. rewrite Nat.add_succ_r. repeat split; assumption.
    + intros ([|i] & x & Hi & Hc & Hx).
      * cbn in Hi. injection Hi as <-. rewrite Nat.add_0_r in Hc, Hx.
        apply should_prune_iff in Hx. rewrite Hx, Hc. apply list_elem_of_here.
      * cbn in Hi. rewrite Nat.add_succ_r in Hc, Hx.
        assert (Hin : c ∈ candidates env policy (S turn) rest)
          by (apply IH; eauto).
        destruct (Cli.should_prune policy b _); [now apply list_elem_of_further|].
        exact Hin.
Qed.

(** C8. [prune] returns the candidates among the records it scans: the
    record scanned in turn [i] is a candidate, with its identifier, kind,
    age and size, exactly when its age in whole days at that turn exceeds
    the retention threshold of its kind.  The thresholds default to 30 days
    for full and 7 days for incremental backups, and a full record one day
    past the threshold is selected while one a day short of it is not. *)
Theorem prune_selects_by_age backup_engine env policy dry_run w :
  (exists scanned w0 pruned w',
     BackupEngine.list_recent_backups (Cli.db_scan env) 1000 w = (Return scanned, w0)
     /\ Cli.prune backup_engine env policy dry_run w = (Return pruned, w')
     /\ forall c,
          c ∈ pruned
          <-> exists i b,
                scanned !! i = Some b
                /\ c = candidate_of b (Cli.backup_age (Cli.now env i) b)
                /\ exceeds_retention policy b (Cli.backup_age (Cli.now env i) b))
  /\ (forall now b,
        Cli.backup_age now b
        = (wall now - wall (backup_metadata.start_ts b)) / microseconds_per_day)
  /\ (forall b age,
        Cli.should_prune ∅ b age = true
        <-> (backup_metadata.backup_type b = "full" /\ 30 < age)
            \/ (backup_metadata.backup_type b = "incremental" /\ 7 < age))
  /\ (forall b full_days,
        backup_metadata.backup_type b = "full" ->
        policy !! "full_days" = Some full_days ->
        Cli.should_prune policy b (full_days + 1) = true
        /\ Cli.should_prune policy b (full_days - 1) = false).
Proof.
  split; [|split; [|split]]; try reflexivity.
  - destruct (prune_outcome backup_engine env policy dry_run w)
      as (scanned & w0 & w' & Hscan & Hrun & _).
    exists scanned, w0, (candidates env policy 0 scanned), w'.
    split; [exact Hscan|]. split; [exact Hrun|].
    intros c. apply (candidates_elem env policy scanned 0%nat c).
  - intros b age. unfold Cli.should_prune. rewrite lookup_empty. cbn [default].
    destruct (String.eqb_spec (backup_metadata.backup_type b) "full") as [Hf | Hf].
    + rewrite Z.ltb_lt, Hf. split; [now left|]. now intros [[_ H] | [[=] _]].
    + destruct (String.eqb_spec (backup_metadata.backup_type b) "incremental")
        as [Hi | Hi].
      * rewrite Z.ltb_lt, Hi. split; [now right|]. now intros [[[=] _] | [_ H]].
      * split; [discriminate|]. now intros [[H _] | [H _]].
  - intros b full_days Hkind Hthr. unfold Cli.should_prune.
    rewrite Hkind, Hthr. cbn. split; lia.
Qed.

(** C9. For every ledger, policy and environment, [prune] in dry-run mode
    returns the candidate list that it returns otherwise, and leaves the
    bucket as it was. *)
Theorem prune_dry_run_changes_nothing backup_engine env policy w :
  fst (Cli.prune backup_engine env policy true w)
  = fst (Cli.prune backup_engine env policy false w)
  /\ bucket (snd (Cli.prune backup_engine env policy true w)) = bucket w
  /\ ledger (snd (Cli.prune backup_engine env policy true w)) = ledger w.
Proof.
  destruct (prune_outcome backup_engine env policy true w)
    as (s1 & w1 & w1' & Hs1 & Hr1 & Hl1 & Hb1).
  destruct (prune_outcome backup_engine env policy false w)
    as (s2 & w2 & w2' & Hs2 & Hr2 & _).
  rewrite Hs1 in Hs2. injection Hs2 as <- <-.
  rewrite Hr1, Hr2. cbn. split; [reflexivity|]. split; [now apply Hb1 | exact Hl1].
Qed.

(** The same scan in both modes: one candidate; its object is deleted only
    when the run is not a dry run. *)
Example prune_modes :
  fst (Cli.prune demo_engine prune_run ∅ true old_and_recent)
  = Return [{| Cli.c_backup_id := "old"; Cli.c_type := "full";
               Cli.c_age_days := 31; Cli.c_size_bytes := Some 3 |}]
  /\ is_Some (bucket (snd (Cli.prune demo_engine prune_run ∅ true old_and_recent))
              !! "test-backups/full/2024/01/14/base.sql")
  /\ bucket (snd (Cli.prune demo_engine prune_run ∅ false old_and_recent))
     !! "test-backups/full/2024/01/14/base.sql" = None.
Proof. vm_compute. repeat split. eexists. reflexivity. Qed.
(** * Further properties *)

(** ** The ledger ([utils/metadata.py]) *)

Lemma has_backup_elem l id :
  MetadataManager.has_backup l id = true
  <-> id ∈ map backup_metadata.backup_id (backups l).
Proof.
  unfold MetadataManager.has_backup. rewrite existsb_exists, list_elem_of_fmap.
  split.
  - intros (r & Hin & Heq). apply String.eqb_eq in Heq.
    exists r. split; [now symmetry | now apply list_elem_of_In].
  - intros (r & Heq & Hin). exists r. split; [now apply list_elem_of_In|].
    apply String.eqb_eq. now symmetry.
Qed.

Lemma has_restore_elem l id :
  MetadataManager.has_restore l id = true
  <-> id ∈ map restore_operations.restore_id (restores l).
Proof.
  unfold MetadataManager.has_restore. rewrite existsb_exists, list_elem_of_fmap.
  split.
  - intros (r & Hin & Heq). apply String.eqb_eq in Heq.
    exists r. split; [now symmetry | now apply list_elem_of_In].
  - intros (r & Heq & Hin). exists r. split; [now apply list_elem_of_In|].
    apply String.eqb_eq. now symmetry.
Qed.

(** What a row references depends on the identifiers in [backup_metadata]
    only. *)
Lemma references_backup_ids l l' ref :
  (forall id, id ∈ map backup_metadata.backup_id (backups l) ->
              id ∈ map backup_metadata.backup_id (backups l')) ->
  MetadataManager.references_backup l ref = true ->
  MetadataManager.references_backup l' ref = true.
Proof.
  intros Hsub. destruct ref as [id|]; [|reflexivity]. cbn.
  rewrite !has_backup_elem. apply Hsub.
Qed.

#[export] Instance stays_consistent_preorder : PreOrder stays_consistent.
Proof.
  split.
  - intros w H. exact H.
  - intros a b c Hab Hbc H. apply Hbc, Hab, H.
Qed.

(** A run that leaves the ledger alone keeps it consistent. *)
Lemma same_ledger_consistent {A} (m : M A) :
  preserves ledger m -> keeps stays_consistent m.
Proof. intros H w Hc. now rewrite (H w). Qed.

Lemma log_line_consistent w msg :
  stays_consistent w (set_log (log w ++ [(ERROR, msg)])%list w).
Proof. intros H. exact H. Qed.

Lemma log_line_ledger w msg :
  same ledger w (set_log (log w ++ [(ERROR, msg)])%list w).
Proof. reflexivity. Qed.

Lemma map_update_ids id (f : backup_metadata.row -> backup_metadata.row) rows :
  (forall r, backup_metadata.backup_id (f r) = backup_metadata.backup_id r) ->
  map backup_metadata.backup_id
    (map (fun r => if String.eqb (backup_metadata.backup_id r) id then f r else r) rows)
  = map backup_metadata.backup_id rows.
Proof.
  intros Hf. rewrite map_map. apply map_ext. intros r.
  destruct (String.eqb _ _); [apply Hf | reflexivity].
Qed.

(** The statements, once executed, keep the promises of the schema. *)
Lemma insert_backup_consistent v :
  keeps stays_consistent (MetadataManager.insert_backup v).
Proof.
  intros w (Hb & Hr & Hw & Hrs).
  pose proof (insert_backup_outcome v w) as H.
  destruct (MetadataManager.insert_backup v w) as [[id|e] w']; cbn.
  - destruct H as (r & _ & Hid & Hfresh & Hb' & Hw' & Hr').
    assert (Hsub : forall i, i ∈ map backup_metadata.backup_id (backups (ledger w)) ->
                             i ∈ map backup_metadata.backup_id (backups (ledger w'))).
    { intros i Hi. rewrite Hb', map_app. apply elem_of_app. now left. }
    unfold ledger_consistent. rewrite Hb', Hw', Hr'. repeat split.
    + rewrite map_app. cbn. apply NoDup_app. split; [exact Hb|]. split.
      * intros i Hi Hi'. apply list_elem_of_singleton in Hi'. subst i.
        rewrite Hid in Hi. apply has_backup_elem in Hi. congruence.
      * apply NoDup_singleton.
    + exact Hr.
    + eapply Forall_impl; [exact Hw|]. intros r0. now apply references_backup_ids.
    + eapply Forall_impl; [exact Hrs|]. intros r0. now apply references_backup_ids.
  - subst w'. repeat split; assumption.
Qed.

Lemma update_backup_consistent id status end_ts kwargs :
  keeps stays_consistent (MetadataManager.update_backup id status end_ts kwargs).
Proof.
  intros w (Hb & Hr & Hw & Hrs).
  unfold MetadataManager.update_backup, modify. cbn.
  assert (Hids : map backup_metadata.backup_id
                   (map (fun r =>
                           if String.eqb (backup_metadata.backup_id r) id
                           then MetadataManager.set_clause status end_ts kwargs r
                           else r) (backups (ledger w)))
                 = map backup_metadata.backup_id (backups (ledger w)))
    by now apply map_update_ids.
  unfold ledger_consistent. cbn. rewrite Hids. repeat split; try assumption.
  - eapply Forall_impl; [exact Hw|]. intros r. apply references_backup_ids.
    intros i. cbn. now rewrite Hids.
  - eapply Forall_impl; [exact Hrs|]. intros r. apply references_backup_ids.
    intros i. cbn. now rewrite Hids.
Qed.

Lemma insert_wal_consistent d :
  keeps stays_consistent (MetadataManager.insert_wal d).
Proof.
  intros w (Hb & Hr & Hw & Hrs).
  unfold MetadataManager.insert_wal, bind, ret, raise.
  destruct (MetadataManager.fits_bigint (wal_metadata.sequence_number d));
    [|repeat split; assumption].
  cbn.
  destruct (MetadataManager.references_backup (ledger w) (wal_metadata.backup_id d))
    eqn:Href; [|repeat split; assumption].
  cbn. unfold ledger_consistent. cbn.
  split; [exact Hb|]. split; [exact Hr|]. split; [|exact Hrs].
  apply Forall_app. split; [exact Hw|]. constructor; [exact Href | constructor].
Qed.

Lemma insert_restore_consistent v :
  keeps stays_consistent (MetadataManager.insert_restore v).
Proof.
  intros w (Hb & Hr & Hw & Hrs).
  unfold MetadataManager.insert_restore, MetadataManager.not_null, bind, ret, raise.
  destruct (restore_values.restore_id v) as [id|]; [|repeat split; assumption].
  destruct (restore_values.status v) as [st|]; [|repeat split; assumption].
  destruct (restore_values.start_ts v) as [ts|]; [|repeat split; assumption].
  destruct (MetadataManager.has_restore (ledger w) id) eqn:Hhas;
    [repeat split; assumption|].
  destruct (MetadataManager.references_backup (ledger w) (restore_values.backup_id v))
    eqn:Href; [|repeat split; assumption].
  cbn. unfold ledger_consistent. cbn.
  split; [exact Hb|]. split; [|split; [exact Hw|]].
  - rewrite map_app. cbn. apply NoDup_app. split; [exact Hr|]. split.
    + intros i Hi Hi'. apply list_elem_of_singleton in Hi'. subst i.
      apply has_restore_elem in Hi. congruence.
    + apply NoDup_singleton.
  - apply Forall_app. split; [exact Hrs|].
    constructor; [exact Href | constructor].
Qed.

Lemma update_restore_consistent id status end_time error_message :
  keeps stays_consistent (RestoreEngine.update_restore id status end_time error_message).
Proof.
  intros w (Hb & Hr & Hw & Hrs).
  unfold RestoreEngine.update_restore, modify. cbn.
  unfold ledger_consistent. cbn.
  split; [exact Hb|]. split; [|split; [exact Hw|]].
  - rewrite map_map.
    erewrite map_ext; [exact Hr|]. intros r. now destruct (String.eqb _ _).
  - apply Forall_map. eapply Forall_impl; [exact Hrs|].
    intros r Href. now destruct (String.eqb _ _).
Qed.

(** So do the methods, whatever the connection does. *)
Lemma create_backup_record_consistent db d :
  keeps stays_consistent (MetadataManager.create_backup_record db d).
Proof.
  apply create_backup_record_keeps;
    [apply _ | exact log_line_consistent | exact insert_backup_consistent].
Qed.

Lemma update_backup_status_consistent db id status end_ts kwargs :
  keeps stays_consistent
    (MetadataManager.update_backup_status db id status end_ts kwargs).
Proof.
  apply update_backup_status_keeps;
    [apply _ | exact log_line_consistent | apply update_backup_consistent].
Qed.

Lemma create_wal_record_consistent db d :
  keeps stays_consistent (MetadataManager.create_wal_record db d).
Proof.
  apply create_wal_record_keeps;
    [apply _ | exact log_line_consistent | apply insert_wal_consistent].
Qed.

Lemma create_restore_record_consistent db d :
  keeps stays_consistent (MetadataManager.create_restore_record db d).
Proof.
  apply create_restore_record_keeps;
    [apply _ | exact log_line_consistent | exact insert_restore_consistent].
Qed.

Lemma update_restore_status_consistent db id status end_time error_message :
  keeps stays_consistent
    (RestoreEngine._update_restore_status db id status end_time error_message).
Proof.
  apply update_restore_status_keeps;
    [apply _ | exact log_line_consistent | apply update_restore_consistent].
Qed.

(** The queries leave the ledger alone. *)
Lemma get_latest_backup_ledger db backup_type :
  preserves ledger (MetadataManager.get_latest_backup db backup_type).
Proof. apply get_latest_backup_keeps; [apply _ | exact log_line_ledger]. Qed.

Lemma get_backup_by_id_ledger db id :
  preserves ledger (MetadataManager.get_backup_by_id db id).
Proof. apply get_backup_by_id_keeps; [apply _ | exact log_line_ledger]. Qed.

Lemma get_wals_for_backup_ledger db id :
  preserves ledger (MetadataManager.get_wals_for_backup db id).
Proof. apply get_wals_for_backup_keeps; [apply _ | exact log_line_ledger]. Qed.

Lemma list_backups_ledger db backup_type status limit :
  preserves ledger (MetadataManager.list_backups db backup_type status limit).
Proof. apply list_backups_keeps; [apply _ | exact log_line_ledger]. Qed.
Ltac consistent_step :=
  first
    [ progress cbv zeta
    | apply create_backup_record_consistent
    | apply update_backup_status_consistent
    | apply create_wal_record_consistent
    | apply create_restore_record_consistent
    | apply update_restore_status_consistent
    | match goal with
      | H : _ |- keeps _ _ => apply H
      end
    | match goal with
      | H : _ |- keeps _ _ => apply same_ledger_consistent; apply H
      end
    | apply keeps_ret; apply _
    | apply keeps_raise; apply _
    | apply keeps_bind; [apply _ | | intros ?]
    | apply keeps_try_except; [apply _ | | intros ?]
    | apply keeps_try_finally; [apply _ | | ]
    | apply same_ledger_consistent; solve [keeps_auto]
    | match goal with
      | |- keeps _ (match ?x with _ => _ end) => destruct x
      end ].

Ltac consistent_auto := repeat consistent_step.

Section OperationsKeepTheLedgerConsistent.
Context {sha256 : HashAlgorithm}.

Lemma create_full_backup_consistent self env label description :
  keeps stays_consistent (BackupEngine.create_full_backup self env label description).
Proof.
  unfold BackupEngine.create_full_backup, BackupEngine._get_postgres_version,
    BackupEngine._cleanup_temp_files.
  pose proof (dump_and_upload_ledger self) as Hdump.
  consistent_auto.
Qed.

Lemma process_wal_file_consistent self id start io uploaded wal_file :
  keeps stays_consistent
    (BackupEngine.process_wal_file self id start io uploaded wal_file).
Proof.
  unfold BackupEngine.process_wal_file.
  pose proof upload_file_ledger.
  pose proof (calculate_checksum_pure ledger).
  pose proof (getsize_pure ledger).
  consistent_auto.
Qed.

Lemma process_wal_files_consistent self id start io wal_files :
  forall uploaded,
    keeps stays_consistent
      (BackupEngine.process_wal_files self id start io wal_files uploaded).
Proof.
  induction wal_files as [|f rest IH]; intros uploaded; cbn.
  - apply keeps_ret; apply _.
  - apply keeps_bind; [apply _ | apply process_wal_file_consistent | intros u; apply IH].
Qed.

Lemma create_incremental_backup_consistent self env label :
  keeps stays_consistent (BackupEngine.create_incremental_backup self env label).
Proof.
  unfold BackupEngine.create_incremental_backup, BackupEngine._get_wal_files,
    BackupEngine._cleanup_temp_files.
  pose proof (process_wal_files_consistent self).
  consistent_auto.
Qed.

Lemma apply_wal_records_ledger self env target_dt destination wal_files :
  forall applied,
    preserves ledger
      (RestoreEngine.apply_wal_records self env target_dt destination wal_files applied).
Proof.
  intros applied w.
  destruct (apply_wal_records_outcome self env target_dt destination wal_files
              applied w) as (applied' & w' & replayed & -> & Hl & _).
  exact Hl.
Qed.

Lemma apply_wal_files_ledger self env id target_time dest :
  preserves ledger (RestoreEngine._apply_wal_files self env id target_time dest).
Proof.
  unfold RestoreEngine._apply_wal_files.
  pose proof get_wals_for_backup_ledger.
  pose proof (apply_wal_records_ledger self env).
  keeps_auto.
Qed.

Lemma restore_backup_consistent self env backup_id target_time destination :
  keeps stays_consistent
    (RestoreEngine.restore_backup self env backup_id target_time destination).
Proof.
  unfold RestoreEngine.restore_backup, RestoreEngine.restore_base,
    RestoreEngine._find_latest_full_backup, RestoreEngine._download_backup_file,
    RestoreEngine._restore_base_backup, RestoreEngine._setup_recovery_config,
    RestoreEngine._cleanup_temp_files.
  pose proof (apply_wal_files_ledger self).
  pose proof get_latest_backup_ledger.
  pose proof get_backup_by_id_ledger.
  pose proof download_file_ledger.
  pose proof (verify_checksum_pure ledger).
  consistent_auto.
Qed.

Lemma prune_consistent backup_engine env policy dry_run :
  keeps stays_consistent (Cli.prune backup_engine env policy dry_run).
Proof.
  intros w Hc.
  destruct (prune_outcome backup_engine env policy dry_run w)
    as (scanned & w0 & w' & _ & -> & Hl & _).
  cbn. now rewrite Hl.
Qed.

End OperationsKeepTheLedgerConsistent.
(** X2. The writes of the ledger keep the promises of its schema, and so do
    the operations built on them: starting from a ledger in which backup
    and restore identifiers are unique and every reference to a backup
    resolves, the same holds after [create_backup_record],
    [update_backup_status], [create_wal_record], [create_restore_record] and
    [_update_restore_status], and after a full backup, an incremental
    backup, a restore and a prune, whatever the environment does. *)
Theorem ledger_stays_consistent {sha256 : HashAlgorithm} w :
  ledger_consistent (ledger w) ->
  (forall db d,
     ledger_consistent (ledger (snd (MetadataManager.create_backup_record db d w))))
  /\ (forall db id status end_ts kwargs,
        ledger_consistent
          (ledger (snd (MetadataManager.update_backup_status db id status end_ts
                          kwargs w))))
  /\ (forall db d,
        ledger_consistent (ledger (snd (MetadataManager.create_wal_record db d w))))
  /\ (forall db d,
        ledger_consistent (ledger (snd (MetadataManager.create_restore_record db d w))))
  /\ (forall db id status end_time error_message,
        ledger_consistent
          (ledger (snd (RestoreEngine._update_restore_status db id status end_time
                          error_message w))))
  /\ (forall self env label description,
        ledger_consistent
          (ledger (snd (BackupEngine.create_full_backup self env label description w))))
  /\ (forall self env label,
        ledger_consistent
          (ledger (snd (BackupEngine.create_incremental_backup self env label w))))
  /\ (forall self env backup_id target_time destination,
        ledger_consistent
          (ledger (snd (RestoreEngine.restore_backup self env backup_id target_time
                          destination w))))
  /\ (forall backup_engine env policy dry_run,
        ledger_consistent
          (ledger (snd (Cli.prune backup_engine env policy dry_run w)))).
Proof.
  intros Hc.
  split; [|split; [|split; [|split; [|split; [|split; [|split; [|split]]]]]]];
    intros.
  - now apply create_backup_record_consistent.
  - now apply update_backup_status_consistent.
  - now apply create_wal_record_consistent.
  - now apply create_restore_record_consistent.
  - now apply update_restore_status_consistent.
  - now apply create_full_backup_consistent.
  - now apply create_incremental_backup_consistent.
  - now apply restore_backup_consistent.
  - now apply prune_consistent.
Qed.

Lemma ledger_stays_consistent_witness :
  ledger_consistent
    (ledger (snd (BackupEngine.create_full_backup (sha256 := sum8) demo_engine
                    all_works None None empty_world))).
Proof.
  apply (ledger_stays_consistent (sha256 := sum8) empty_world).
  repeat split; constructor.
Defined.

(** X3. An update addressed to an identifier that no row carries is
    reported as a success: [update_backup_status] returns [True] and
    [_update_restore_status] returns [True], and neither the ledger nor the
    log changes. *)
Theorem update_of_unknown_identifier_succeeds id status end_ts kwargs error_message w :
  (MetadataManager.has_backup (ledger w) id = false ->
   exists w',
     MetadataManager.update_backup_status Executes id status end_ts kwargs w
     = (Return true, w')
     /\ ledger w' = ledger w /\ log w' = log w)
  /\ (MetadataManager.has_restore (ledger w) id = false ->
      exists w',
        RestoreEngine._update_restore_status Executes id status end_ts error_message w
        = (Return true, w')
        /\ ledger w' = ledger w /\ log w' = log w).
Proof.
  split; intros Habsent.
  - unfold MetadataManager.update_backup_status, MetadataManager.update_backup.
    ledger_frame. cbn.
    eexists. split; [reflexivity|]. split; [|reflexivity]. cbn.
    rewrite (update_absent_backup id _ _ Habsent). now destruct (ledger w).
  - unfold RestoreEngine._update_restore_status, RestoreEngine.update_restore.
    ledger_frame. cbn.
    eexists. split; [reflexivity|]. split; [|reflexivity]. cbn.
    assert (Hmap : forall f rows,
              existsb (fun r => String.eqb (restore_operations.restore_id r) id) rows
              = false ->
              map (fun r => if String.eqb (restore_operations.restore_id r) id
                            then f r else r) rows = rows).
    { intros f rows. induction rows as [|r rows IH]; [reflexivity|]. cbn.
      intros H. apply orb_false_iff in H as [-> H]. now rewrite IH. }
    rewrite (Hmap _ _ Habsent). now destruct (ledger w).
Qed.

(** *** [list_backups] and [get_latest_backup] *)

#[local] Existing Instance MetadataManager.newer_first_dec.

#[export] Instance newer_first_total : Total MetadataManager.newer_first.
Proof. intros a b. unfold MetadataManager.newer_first. lia. Qed.

#[export] Instance newer_first_trans : Transitive MetadataManager.newer_first.
Proof. intros a b c. unfold MetadataManager.newer_first. lia. Qed.

Lemma strongly_sorted_take {A} (R : A -> A -> Prop) n l :
  StronglySorted R l -> StronglySorted R (take n l).
Proof.
  intros H. revert n. induction H as [|a l Hl IH Ha]; intros [|n]; cbn;
    try constructor.
  - apply IH.
  - rewrite Forall_forall in Ha |- *. intros x Hx. apply Ha.
    revert Hx. apply subseteq_take.
Qed.

(** The rows the statement of [list_backups] selects. *)
Lemma select_backups_rows backup_type status limit w :
  0 <= limit ->
  exists sorted,
    MetadataManager.select_backups backup_type status limit w
    = (Return (take (Z.to_nat limit) sorted), w)
    /\ sorted ≡ₚ List.filter (matching backup_type status) (backups (ledger w))
    /\ StronglySorted MetadataManager.newer_first sorted.
Proof.
  intros Hlimit. unfold MetadataManager.select_backups.
  destruct (limit <? 0) eqn:Hneg; [apply Z.ltb_lt in Hneg; lia|].
  eexists. split; [reflexivity|]. split; [apply merge_sort_Permutation|].
  apply Sorted_StronglySorted; [apply _|]. apply Sorted_merge_sort; apply _.
Qed.

(** X4. What [list_backups] answers, by what the connection does.  Over a
    connection that executes the query it returns the first [limit] rows of
    the rows of [backup_metadata] that pass the two optional filters, taken
    newest first; a filter that is [None] or empty selects everything, and
    a negative limit is refused by the store.  When the query is refused or
    raises, or the connection is lost, it logs the error and returns the
    empty list, as if there were no backups.  When the connection cannot be
    opened it does not return: the [finally] clause raises
    [UnboundLocalError].  The ledger is never changed. *)
Theorem list_backups_newest_first (db : db_call) backup_type status limit w :
  exists w',
    ledger w' = ledger w
    /\ match db with
       | Statement Executes =>
           if limit <? 0 then
             MetadataManager.list_backups db backup_type status limit w
             = (Return [], w')
             /\ logged_error w w'
           else
             exists sorted,
               MetadataManager.list_backups db backup_type status limit w
               = (Return (take (Z.to_nat limit) sorted), w')
               /\ sorted ≡ₚ List.filter (matching backup_type status)
                              (backups (ledger w))
               /\ StronglySorted MetadataManager.newer_first sorted
               /\ log w' = log w
       | Statement (DbRaises msg) | ConnectionLost msg _ =>
           MetadataManager.list_backups db backup_type status limit w
           = (Return [], w')
           /\ log w'
              = (log w ++ [(ERROR, ("Erro ao listar backups: " ++ msg)%string)])%list
       | Unreachable _ =>
           MetadataManager.list_backups db backup_type status limit w
           = (Raise (MetadataManager.unbound_local "cursor"), w')
       end.
Proof.
  unfold MetadataManager.list_backups. ledger_frame.
  destruct db as [[|msg]|msg rb|msg]; cbn;
    try (eexists; split; [|split; reflexivity]; reflexivity);
    try (eexists; split; [|reflexivity]; reflexivity).
  destruct (limit <? 0) eqn:Hneg.
  - unfold MetadataManager.select_backups. rewrite Hneg. cbn.
    eexists. split; [|split; [reflexivity|]]; [reflexivity|].
    exists [], ("Erro ao listar backups: " ++ "LIMIT must not be negative")%string.
    reflexivity.
  - apply Z.ltb_ge in Hneg.
    destruct (select_backups_rows backup_type status limit w Hneg)
      as (sorted & -> & Hperm & Hsorted).
    exists w. split; [reflexivity|]. exists sorted. repeat split; assumption.
Qed.

(** X5. What [get_latest_backup] answers, by what the connection does.  Over
    a connection that executes the query it returns a completed backup of
    the kind asked for such that no completed backup of that kind started
    later, and [None] exactly when the ledger holds no completed backup of
    that kind; a backup that is [running] or [failed] is never returned.
    When the query raises or the connection is lost it logs the error and
    returns [None].  When the connection cannot be opened it does not
    return: the [finally] clause raises [UnboundLocalError].  The ledger is
    never changed. *)
Theorem get_latest_backup_is_latest (db : db_call) backup_type w :
  exists w',
    ledger w' = ledger w
    /\ match db with
       | Statement Executes =>
           exists found,
             MetadataManager.get_latest_backup db backup_type w = (Return found, w')
             /\ log w' = log w
             /\ match found with
                | Some r =>
                    r ∈ backups (ledger w)
                    /\ completed_of backup_type r
                    /\ forall r', r' ∈ backups (ledger w) ->
                                  completed_of backup_type r' ->
                                  MetadataManager.newer_first r r'
                | None =>
                    forall r, r ∈ backups (ledger w) -> ~ completed_of backup_type r
                end
       | Statement (DbRaises msg) | ConnectionLost msg _ =>
           MetadataManager.get_latest_backup db backup_type w = (Return None, w')
           /\ log w'
              = (log w
                   ++ [(ERROR, ("Erro ao obter backup mais recente: " ++ msg)%string)])%list
       | Unreachable _ =>
           MetadataManager.get_latest_backup db backup_type w
           = (Raise (MetadataManager.unbound_local "cursor"), w')
       end.
Proof.
  unfold MetadataManager.get_latest_backup, MetadataManager.select_latest_backup.
  ledger_frame.
  destruct db as [[|msg]|msg rb|msg]; cbn;
    try (eexists; split; [|split; reflexivity]; reflexivity);
    try (eexists; split; [|reflexivity]; reflexivity).
  set (sel := fun r => String.eqb (backup_metadata.backup_type r) backup_type
                       && String.eqb (backup_metadata.status r) "completed").
  assert (Hsel : forall r, sel r = true <-> completed_of backup_type r).
  { intros r. unfold sel, completed_of.
    now rewrite andb_true_iff, !String.eqb_eq. }
  set (found := List.filter sel (backups (ledger w))).
  assert (Hsorted : StronglySorted MetadataManager.newer_first
                      (merge_sort MetadataManager.newer_first found)).
  { apply Sorted_StronglySorted; [apply _|]. apply Sorted_merge_sort; apply _. }
  assert (Hperm : merge_sort MetadataManager.newer_first found ≡ₚ found)
    by apply merge_sort_Permutation.
  exists w. split; [reflexivity|]. eexists. split; [reflexivity|].
  split; [reflexivity|].
  destruct (merge_sort MetadataManager.newer_first found) as [|r rest] eqn:Hm; cbn.
  - intros r Hr Hc. apply Hsel in Hc.
    assert (Hin : r ∈ found).
    { apply list_elem_of_In, filter_In. split; [now apply list_elem_of_In | exact Hc]. }
    rewrite <- Hperm in Hin. inversion Hin.
  - assert (Hr : r ∈ found) by (rewrite <- Hperm; apply list_elem_of_here).
    apply list_elem_of_In, filter_In in Hr as [Hin Hc].
    split; [now apply list_elem_of_In|].
    split; [now apply Hsel|].
    intros r' Hin' Hc'. apply Hsel in Hc'.
    assert (Hr' : r' ∈ r :: rest).
    { rewrite Hperm. apply list_elem_of_In, filter_In.
      split; [now apply list_elem_of_In | exact Hc']. }
    apply elem_of_cons in Hr' as [-> | Hr'].
    + unfold MetadataManager.newer_first. lia.
    + apply StronglySorted_inv in Hsorted as [_ Hall].
      rewrite Forall_forall in Hall. now apply Hall.
Qed.
(** ** The gateway ([utils/s3_client.py]) and the check sums ([utils/crypto.py]) *)

Section GatewayFacts.
Context {sha256 : HashAlgorithm}.

(** X6. [calculate_checksum] reads the file in chunks of 4096 bytes and
    returns the digest of its whole content, whatever its length, and
    [verify_checksum] accepts a file against the check sum computed from
    it; neither changes anything.  For a file that does not exist both
    raise, the same error. *)
Theorem checksum_of_whole_file file_path w :
  match files w !! file_path with
  | Some content =>
      calculate_checksum file_path w = (Return (digest_hex content), w)
      /\ verify_checksum file_path (digest_hex content) w = (Return true, w)
  | None =>
      exists e,
        calculate_checksum file_path w = (Raise e, w)
        /\ forall expected, verify_checksum file_path expected w = (Raise e, w)
  end.
Proof.
  destruct (files w !! file_path) as [content|] eqn:Hf.
  - split; [now apply calculate_checksum_reads|].
    rewrite (verify_checksum_reads _ _ _ _ Hf), digest_hex_lower.
    unfold Py.str_eq. now rewrite String.eqb_refl.
  - destruct (calculate_checksum_missing w file_path Hf) as [e He].
    exists e. split; [exact He|]. intros expected.
    unfold verify_checksum. now rewrite (bind_Raise _ _ _ _ _ He).
Qed.

(** What [upload_file] does, with the stored object spelled out. *)
Lemma upload_file_object self net local_path backup_type filename w content stored :
  files w !! local_path = Some content ->
  net_put net = PutStores stored ->
  let name := upload_name local_path filename in
  let s3_key := _get_s3_key self net backup_type name in
  let obj := uploaded_object self net name backup_type content stored in
  exists w',
    upload_file self net local_path backup_type filename w
    = (Return
         (match net_get net with
          | NetOk =>
              if String.eqb (digest_hex stored) (digest_hex content)
              then (true, s3_key) else (false, integrity_failure)
          | NetRaises _ => (false, integrity_failure)
          end), w')
    /\ bucket w' = <[s3_key := obj]> (bucket w)
    /\ files w'
       = match net_get net with
         | NetOk => delete (local_path ++ ".verify") (files w)
         | NetRaises _ => files w
         end.
Proof.
  intros Hf Hput name s3_key obj.
  unfold upload_file, try_except, bind.
  fold (upload_name local_path filename). fold name. fold s3_key.
  rewrite (calculate_checksum_reads _ _ _ Hf).
  unfold uploaded_object in obj.
  destruct (encryption_args self) as [sse kms]. cbn [fst snd] in obj.
  unfold client_upload_file. rewrite Hput. fold obj.
  set (w1 := set_bucket _ w).
  unfold _verify_upload, try_except, bind, client_download_file.
  destruct (net_get net) as [|msg] eqn:Hget.
  - assert (Hobj : bucket w1 !! s3_key = Some obj) by apply lookup_insert_eq.
    rewrite Hobj.
    erewrite verify_checksum_reads by (cbn; apply lookup_insert_eq).
    unfold os_remove. cbn [files set_files]. rewrite lookup_insert_eq.
    rewrite digest_hex_lower. unfold Py.str_eq. cbn [body obj].
    destruct (String.eqb (digest_hex stored) (digest_hex content));
      eexists; (split; [reflexivity|]); (split; [reflexivity|]); cbn;
      apply delete_insert_eq.
  - eexists. split; [reflexivity|]. split; reflexivity.
Qed.

(** X7. The object that [upload_file] leaves in the bucket, whether or not
    the verification that follows succeeds: its bytes are what the transport
    stored, its metadata name the file, the kind of backup and the check
    sum of the local file, and the encryption asked for follows the
    configuration: [AES256] when [encryption] is absent or [SSE-S3];
    [aws:kms] with the key when it is [SSE-KMS] and [kms_key_id] is set;
    none at all when it is [SSE-KMS] without a key, or any other value. *)
Theorem upload_file_stored_object self net local_path backup_type filename w
    content stored :
  files w !! local_path = Some content ->
  net_put net = PutStores stored ->
  let name := upload_name local_path filename in
  let s3_key := _get_s3_key self net backup_type name in
  exists obj,
    bucket (snd (upload_file self net local_path backup_type filename w)) !! s3_key
    = Some obj
    /\ body obj = stored
    /\ Metadata obj !! "checksum" = Some (digest_hex content)
    /\ Metadata obj !! "original-filename" = Some name
    /\ Metadata obj !! "backup-type" = Some backup_type
    /\ (config self !! "encryption" = None \/ config self !! "encryption" = Some "SSE-S3" ->
        ServerSideEncryption obj = Some "AES256" /\ SSEKMSKeyId obj = None)
    /\ (forall k,
          config self !! "encryption" = Some "SSE-KMS" ->
          config self !! "kms_key_id" = Some k -> k <> "" ->
          ServerSideEncryption obj = Some "aws:kms" /\ SSEKMSKeyId obj = Some k)
    /\ (config self !! "encryption" = Some "SSE-KMS" ->
        config self !! "kms_key_id" = None \/ config self !! "kms_key_id" = Some "" ->
        ServerSideEncryption obj = None /\ SSEKMSKeyId obj = None)
    /\ (forall e,
          config self !! "encryption" = Some e -> e <> "SSE-S3" -> e <> "SSE-KMS" ->
          ServerSideEncryption obj = None /\ SSEKMSKeyId obj = None).
Proof.
  intros Hf Hput name s3_key.
  destruct (upload_file_object self net local_path backup_type filename w content
              stored Hf Hput) as (w' & -> & Hb & _).
  fold name s3_key in Hb. cbn [snd]. rewrite Hb, lookup_insert_eq.
  eexists. split; [reflexivity|]. cbn [body Metadata ServerSideEncryption SSEKMSKeyId
                                         uploaded_object].
  split; [reflexivity|]. unfold upload_metadata.
  split; [now rewrite lookup_insert_ne, lookup_insert_eq by discriminate|].
  split; [now rewrite lookup_insert_eq|].
  split; [now rewrite !lookup_insert_ne, lookup_insert_eq by discriminate|].
  unfold encryption_args.
  split; [|split; [|split]].
  - intros [-> | ->]; now cbn.
  - intros k -> -> Hk. cbn.
    destruct (String.eqb_spec k ""); [contradiction | now cbn].
  - intros -> [-> | ->]; now cbn.
  - intros e -> H1 H2. cbn.
    destruct (String.eqb_spec e "SSE-KMS"); [contradiction|].
    destruct (String.eqb_spec e "SSE-S3"); [contradiction | now cbn].
Qed.

(** X8. What was uploaded can be downloaded.  After [upload_file] has
    reported success with a key, a [download_file] of that key over a
    transport that works reports success, and the bytes it writes to the
    local path have the digest of the file that was uploaded. *)
Theorem uploaded_file_downloads self net local_path backup_type filename w
    s3_key w1 net' destination :
  upload_file self net local_path backup_type filename w = (Return (true, s3_key), w1) ->
  net_head net' = NetOk ->
  net_get net' = NetOk ->
  exists content received msg w2,
    files w !! local_path = Some content
    /\ download_file self net' s3_key destination w1 = (Return (true, msg), w2)
    /\ files w2 !! destination = Some received
    /\ digest_hex received = digest_hex content.
Proof.
  intros Hup Hhead Hget.
  pose proof (upload_file_outcome self net local_path backup_type filename w) as Hout.
  cbn zeta in Hout.
  destruct (files w !! local_path) as [content|] eqn:Hf.
  2:{ destruct Hout as (e & w' & Hrun & _). congruence. }
  destruct (net_put net) as [stored|msg] eqn:Hput.
  2:{ destruct Hout as (w' & Hrun & _). congruence. }
  clear Hout.
  destruct (upload_file_object self net local_path backup_type filename w content
              stored Hf Hput) as (w' & Hrun & Hb & _).
  rewrite Hup in Hrun.
  assert (Hok : String.eqb (digest_hex stored) (digest_hex content) = true
                /\ s3_key = _get_s3_key self net backup_type
                              (upload_name local_path filename)
                /\ w1 = w').
  { destruct (net_get net); [|discriminate].
    destruct (String.eqb (digest_hex stored) (digest_hex content));
      [|discriminate].
    injection Hrun as -> ->. repeat split. }
  destruct Hok as (Hd & -> & ->). apply String.eqb_eq in Hd.
  set (key := _get_s3_key self net backup_type (upload_name local_path filename)) in *.
  set (obj := uploaded_object self net (upload_name local_path filename) backup_type
                content stored) in *.
  assert (Hobj : bucket w' !! key = Some obj) by (rewrite Hb; apply lookup_insert_eq).
  exists content, stored.
  unfold download_file, try_except, bind, client_head_object, client_download_file.
  rewrite Hhead, Hobj. cbn [bucket set_files]. rewrite Hget, Hobj.
  assert (Hsum : Metadata obj !! "checksum" = Some (digest_hex content)).
  { unfold obj, uploaded_object, upload_metadata. cbn [Metadata].
    now rewrite lookup_insert_ne, lookup_insert_eq by discriminate. }
  rewrite Hsum. cbn [from_option id].
  destruct (Py.truthy (Some (digest_hex content))).
  - erewrite verify_checksum_reads by (cbn; apply lookup_insert_eq).
    rewrite digest_hex_lower. unfold Py.str_eq. cbn [body obj uploaded_object].
    rewrite Hd, String.eqb_refl.
    do 2 eexists. split; [reflexivity|]. split; [reflexivity|].
    split; [cbn; apply lookup_insert_eq | reflexivity].
  - do 2 eexists. split; [reflexivity|]. split; [reflexivity|].
    split; [cbn; apply lookup_insert_eq | exact Hd].
Qed.

(** The outcome of [download_file], case by case. *)
Lemma download_file_cases self net s3_key local_path w :
  exists ok msg w',
    download_file self net s3_key local_path w = (Return (ok, msg), w')
    /\ bucket w' = bucket w
    /\ ledger w' = ledger w
    /\ if ok then
         exists obj,
           bucket w !! s3_key = Some obj
           /\ files w' = <[local_path := body obj]> (files w)
           /\ match Metadata obj !! "checksum" with
              | Some c => c = "" \/ same_up_to_case (digest_hex (body obj)) c
              | None => True
              end
       else
         files w' = files w
         \/ (files w' = delete local_path (files w)
             /\ exists obj c,
                  bucket w !! s3_key = Some obj
                  /\ Metadata obj !! "checksum" = Some c
                  /\ ~ same_up_to_case (digest_hex (body obj)) c).
Proof.
  unfold download_file, try_except, bind, client_head_object, client_download_file.
  destruct (net_head net) as [|e1];
    [|do 3 eexists; split; [reflexivity|]; repeat split; now left].
  destruct (bucket w !! s3_key) as [obj|] eqn:Hobj;
    [|do 3 eexists; split; [reflexivity|]; repeat split; now left].
  destruct (net_get net) as [|e2];
    [|do 3 eexists; split; [reflexivity|]; repeat split; now left].
  rewrite Hobj.
  destruct (Metadata obj !! "checksum") as [c|] eqn:Hc;
    cbn [Py.truthy from_option id].
  2:{ do 3 eexists. split; [reflexivity|]. split; [reflexivity|].
      split; [reflexivity|]. exists obj. rewrite Hc. repeat split. }
  destruct (String.eqb_spec c "") as [-> | Hne]; cbn [negb].
  { do 3 eexists. split; [reflexivity|]. split; [reflexivity|].
    split; [reflexivity|]. exists obj. rewrite Hc. split; [reflexivity|].
    split; [reflexivity | now left]. }
  erewrite verify_checksum_reads by (cbn; apply lookup_insert_eq).
  assert (Hiff : Py.str_eq (digest_hex (body obj)) (Py.lower c) = true
                 <-> same_up_to_case (digest_hex (body obj)) c).
  { unfold Py.str_eq. rewrite String.eqb_eq, <- lower_eq_iff.
    now rewrite digest_hex_lower. }
  destruct (Py.str_eq (digest_hex (body obj)) (Py.lower c)).
  - do 3 eexists. split; [reflexivity|]. split; [reflexivity|].
    split; [reflexivity|]. exists obj. rewrite Hc. split; [reflexivity|].
    split; [reflexivity|]. right. now apply Hiff.
  - unfold logger_error, modify, os_remove. cbn. rewrite lookup_insert_eq.
    do 3 eexists. split; [reflexivity|]. split; [reflexivity|].
    split; [reflexivity|]. right. split; [cbn; apply delete_insert_eq|].
    exists obj, c. repeat split; try assumption.
    intros H. apply Hiff in H. discriminate.
Qed.

(** X9. [download_file] never raises and changes neither the bucket nor the
    ledger.  When it reports success, the object exists, its bytes are in
    the local file, and they match the check sum of the object's metadata
    whenever there is one; an object without check sum is accepted
    unverified.  When it reports a failure, the local files are as before,
    or, after a check sum mismatch, the local path is removed: a file that
    failed its verification is never left behind. *)
Theorem download_file_integrity self net s3_key local_path w :
  exists ok msg w',
    download_file self net s3_key local_path w = (Return (ok, msg), w')
    /\ bucket w' = bucket w
    /\ ledger w' = ledger w
    /\ if ok then
         exists obj,
           bucket w !! s3_key = Some obj
           /\ files w' = <[local_path := body obj]> (files w)
           /\ match Metadata obj !! "checksum" with
              | Some c => c = "" \/ same_up_to_case (digest_hex (body obj)) c
              | None => True
              end
       else
         files w' = files w
         \/ (files w' = delete local_path (files w)
             /\ exists obj c,
                  bucket w !! s3_key = Some obj
                  /\ Metadata obj !! "checksum" = Some c
                  /\ ~ same_up_to_case (digest_hex (body obj)) c).
Proof. apply download_file_cases. Qed.

End GatewayFacts.
Lemma not_own_verify_file s : s <> s ++ ".verify".
Proof.
  induction s as [|c r IH]; [discriminate|].
  rewrite append_cons. intros [= H]. contradiction.
Qed.

Lemma string_append_assoc a b c : (a ++ b) ++ c = a ++ (b ++ c).
Proof.
  induction a as [|x a IH]; [reflexivity|]. now rewrite !append_cons, IH.
Qed.

(** The base name of a path that ends in a slash and a name without slash
    is that name. *)
Lemma basename_acc_no_slash f : forall cur,
  no_slash f = true -> Py.basename_acc f cur = Py.rev_string cur f.
Proof.
  induction f as [|c r IH]; intros cur Hf; [reflexivity|].
  cbn in Hf. apply andb_true_iff in Hf as [Hc Hr].
  cbn [Py.basename_acc]. apply negb_true_iff in Hc. rewrite Hc.
  now rewrite (IH _ Hr).
Qed.

Lemma basename_acc_after_slash a f : forall cur,
  no_slash f = true -> Py.basename_acc (a ++ "/" ++ f) cur = f.
Proof.
  induction a as [|c r IH]; intros cur Hf.
  - change ("" ++ "/" ++ f) with (String "/" f). cbn [Py.basename_acc].
    rewrite Ascii.eqb_refl. now rewrite basename_acc_no_slash.
  - rewrite append_cons. cbn [Py.basename_acc].
    destruct (Ascii.eqb c "/"); now apply IH.
Qed.

Lemma basename_after_slash a f :
  no_slash f = true -> Py.basename (a ++ "/" ++ f) = f.
Proof. apply basename_acc_after_slash. Qed.

Lemma rev_string_no_slash s : forall acc,
  no_slash (Py.rev_string s acc) = no_slash s && no_slash acc.
Proof.
  induction s as [|c r IH]; intros acc; [reflexivity|].
  cbn [Py.rev_string no_slash]. rewrite IH. cbn [no_slash].
  now destruct (Ascii.eqb c "/"), (no_slash r), (no_slash acc).
Qed.

Lemma basename_no_slash p : no_slash (Py.basename p) = true.
Proof.
  unfold Py.basename.
  assert (H : forall cur, no_slash cur = true ->
                          no_slash (Py.basename_acc p cur) = true).
  { induction p as [|c r IH]; intros cur Hcur.
    - cbn. now rewrite rev_string_no_slash, Hcur.
    - cbn [Py.basename_acc]. destruct (Ascii.eqb c "/") eqn:Hc.
      + now apply IH.
      + apply IH. cbn. now rewrite Hc, Hcur. }
  now apply H.
Qed.

Section GatewayFrame.
Context {sha256 : HashAlgorithm}.

(** X10. What [upload_file] touches, whatever the outcome: in the bucket,
    nothing but the key it uploads to; among the local files, nothing but
    the scratch file [local_path + '.verify'], so the uploaded file itself
    is left as it was; never the ledger, and it starts no process.  After a
    successful upload the scratch file does not exist, even if a file of
    that name existed before. *)
Theorem upload_file_frame self net local_path backup_type filename w :
  let s3_key := _get_s3_key self net backup_type (upload_name local_path filename) in
  let run := upload_file self net local_path backup_type filename w in
  ledger (snd run) = ledger w
  /\ procs (snd run) = procs w
  /\ (forall k, k <> s3_key -> bucket (snd run) !! k = bucket w !! k)
  /\ (forall p, p <> local_path ++ ".verify" -> files (snd run) !! p = files w !! p)
  /\ files (snd run) !! local_path = files w !! local_path
  /\ (fst run = Return (true, s3_key) ->
      files (snd run) !! (local_path ++ ".verify") = None).
Proof.
  intros s3_key run.
  split; [apply upload_file_ledger|]. split; [apply upload_file_procs|].
  assert (Hfiles : (files (snd run) = files w /\ bucket (snd run) = bucket w
                    /\ fst run <> Return (true, s3_key))
                   \/ (exists obj, bucket (snd run) = <[s3_key := obj]> (bucket w))
                      /\ (files (snd run) = files w /\ fst run <> Return (true, s3_key)
                          \/ files (snd run)
                             = delete (local_path ++ ".verify") (files w))).
  { subst run. unfold upload_file at 1 2 3, try_except, bind.
    destruct (files w !! local_path) as [content|] eqn:Hf.
    - destruct (net_put net) as [stored|msg] eqn:Hput.
      + fold (upload_file self net local_path backup_type filename).
        destruct (upload_file_object self net local_path backup_type filename w
                    content stored Hf Hput) as (w' & Hrun & Hb & Hfs).
        right. fold s3_key in Hrun, Hb.
        change (bucket (snd (upload_file self net local_path backup_type filename w))
                = <[s3_key := _]> (bucket w)) in Hb || idtac.
        rewrite Hrun. cbn [fst snd]. split; [eexists; exact Hb|].
        destruct (net_get net); [right; exact Hfs | left; split; [exact Hfs|discriminate]].
      + left. rewrite (calculate_checksum_reads _ _ _ Hf).
        destruct (encryption_args self). unfold client_upload_file. rewrite Hput.
        cbn. repeat split. discriminate.
    - left. destruct (calculate_checksum_missing w local_path Hf) as [e ->].
      cbn. repeat split. discriminate. }
  split; [|split; [|split]].
  - intros k Hk. destruct Hfiles as [(_ & -> & _) | [[obj ->] _]]; [reflexivity|].
    now apply lookup_insert_ne.
  - intros p Hp.
    destruct Hfiles as [(-> & _) | [_ [[-> _] | ->]]]; try reflexivity.
    now apply lookup_delete_ne.
  - destruct Hfiles as [(-> & _) | [_ [[-> _] | ->]]]; try reflexivity.
    apply lookup_delete_ne. intros H. symmetry in H. revert H.
    apply not_own_verify_file.
  - intros Hok.
    destruct Hfiles as [(_ & _ & Hno) | [_ [[_ Hno] | ->]]]; try contradiction.
    apply lookup_delete_eq.
Qed.

Lemma basename_get_s3_key self net backup_type filename :
  no_slash filename = true ->
  Py.basename (_get_s3_key self net backup_type filename) = filename.
Proof.
  intros Hf. unfold _get_s3_key.
  rewrite <- (string_append_assoc (prefix self) "/" _).
  rewrite <- (string_append_assoc (prefix self ++ "/") backup_type _).
  rewrite <- (string_append_assoc _ "/" (utcnow_ymd net ++ "/" ++ filename)).
  rewrite <- (string_append_assoc _ (utcnow_ymd net) ("/" ++ filename)).
  now apply basename_after_slash.
Qed.

(** X11. The key of an upload ends in the name of the file.  For a file
    name without slash, the base name of the key [_get_s3_key] builds is
    that file name; and an upload that is given no name uses the base name
    of the local path, so the base name of its key is the base name of the
    path.  ([_download_backup_file] and [_apply_wal_files] name their local
    copies by the base name of the key.) *)
Theorem s3_key_ends_in_file_name self net backup_type :
  (forall filename,
     no_slash filename = true ->
     Py.basename (_get_s3_key self net backup_type filename) = filename)
  /\ (forall local_path,
        Py.basename
          (_get_s3_key self net backup_type (upload_name local_path None))
        = Py.basename local_path).
Proof.
  assert (H : forall filename,
            no_slash filename = true ->
            Py.basename (_get_s3_key self net backup_type filename) = filename)
    by (intros filename; apply basename_get_s3_key).
  split; [exact H|].
  intros local_path. unfold upload_name. cbn [Py.truthy].
  apply H, basename_no_slash.
Qed.

End GatewayFrame.
(** ** More facts about strings and paths *)

Lemma string_length_append a b :
  String.length (a ++ b) = (String.length a + String.length b)%nat.
Proof.
  induction a as [|c a IH]; [reflexivity|]. rewrite append_cons. cbn. now rewrite IH.
Qed.

Lemma rev_string_app a : forall b acc,
  Py.rev_string (a ++ b) acc = Py.rev_string b (Py.rev_string a acc).
Proof.
  induction a as [|c r IH]; intros b acc; [reflexivity|].
  rewrite append_cons. cbn [Py.rev_string]. apply IH.
Qed.

Lemma rev_string_acc s : forall acc,
  Py.rev_string s acc = Py.rev_string s "" ++ acc.
Proof.
  induction s as [|c r IH]; intros acc; [reflexivity|].
  cbn [Py.rev_string]. rewrite IH, (IH (String c "")).
  now rewrite string_append_assoc.
Qed.

Lemma prefix_app p s : String.prefix p (p ++ s) = true.
Proof.
  induction p as [|c r IH]; [now destruct s|].
  rewrite append_cons. cbn [String.prefix].
  destruct (ascii_dec c c); [exact IH | contradiction].
Qed.

(** [(a + b).endswith(b)]. *)
Lemma endswith_app a b : Py.endswith (a ++ b) b = true.
Proof.
  unfold Py.endswith. rewrite rev_string_app.
  rewrite (rev_string_acc b (Py.rev_string a "")). apply prefix_app.
Qed.

(** A string that ends in [.sql] ends neither in [.gz] nor in [.dump] nor
    in [.backup]. *)
Lemma endswith_sql a :
  Py.endswith (a ++ ".sql") ".gz" = false
  /\ Py.endswith (a ++ ".sql") ".dump" = false
  /\ Py.endswith (a ++ ".sql") ".backup" = false.
Proof.
  unfold Py.endswith. rewrite rev_string_app. cbn [Py.rev_string].
  repeat split; reflexivity.
Qed.

Lemma substring_app a b : String.substring 0 (String.length a) (a ++ b) = a.
Proof.
  induction a as [|c r IH]; [now destruct b|].
  rewrite append_cons. cbn [String.length String.substring]. now rewrite IH.
Qed.

(** [(a + '.gz')[:-3]]. *)
Lemma drop_last3_gz a : Py.drop_last3 (a ++ ".gz") = a.
Proof.
  unfold Py.drop_last3. rewrite string_length_append.
  cbn [String.length]. replace (String.length a + 3 - 3)%nat with (String.length a) by lia.
  apply substring_app.
Qed.

(** [os.path.join(a, b + c)]. *)
Lemma path_join_app a b c : Py.path_join a (b ++ c) = Py.path_join a b ++ c.
Proof.
  unfold Py.path_join. destruct (String.eqb a ""); [reflexivity|].
  destruct (Py.endswith a "/"); now rewrite !string_append_assoc.
Qed.

Lemma basename_acc_app p s : forall cur,
  no_slash s = true -> Py.basename_acc (p ++ s) cur = Py.basename_acc p cur ++ s.
Proof.
  induction p as [|c r IH]; intros cur Hs.
  - change ("" ++ s) with s. rewrite basename_acc_no_slash by exact Hs.
    cbn [Py.basename_acc]. apply rev_string_acc.
  - rewrite append_cons. cbn [Py.basename_acc].
    destruct (Ascii.eqb c "/"); now apply IH.
Qed.

(** [os.path.basename(p + s)] for a suffix without slash. *)
Lemma basename_app p s : no_slash s = true -> Py.basename (p ++ s) = Py.basename p ++ s.
Proof. apply basename_acc_app. Qed.
(** ** The backup engine ([core/backup.py]) *)

Section BackupEngineFacts.
Context {sha256 : HashAlgorithm}.
Variable self : BackupEngine.t.

(** X12. [create_incremental_backup] never reports success and never
    writes its batch record: a row of [wal_metadata] is accepted only when
    the batch identifier is in [backup_metadata] already, and then the
    batch record, inserted last under the same identifier, is refused. *)
Theorem incremental_backup_always_fails env label w :
  exists detail w',
    BackupEngine.create_incremental_backup self env label w
    = (Return (false, detail), w')
    /\ backups (ledger w') = backups (ledger w)
    /\ restores (ledger w') = restores (ledger w).
Proof.
  destruct (create_incremental_backup_rows self env label w)
    as (detail & w' & rows & Hrun & _ & Hb & Hr & _).
  exists detail, w'. repeat split; assumption.
Qed.

Lemma version_query_psql cmd : cmd ∈ version_query self -> head cmd = Some "psql".
Proof.
  unfold version_query.
  destruct (BackupEngine.pg_config self !! "user");
    [destruct (BackupEngine.pg_config self !! "database")|]; intros H;
    try (inversion H; fail).
  apply list_elem_of_singleton in H. now subst cmd.
Qed.

(** X13. [create_full_backup] stops at the insertion of its record.  The
    dictionary it passes to [create_backup_record] has no [end_ts], which
    the statement names, so the insertion is refused before anything is
    sent to the store.  Whatever the environment does, the operation never
    reports success; the only process it starts is the [psql] that asks
    for the version of the server, so no [pg_dump] is run; it uploads
    nothing; and it leaves [wal_metadata] and [restore_operations] as they
    were.  With an identifier that no row carries it leaves the whole
    ledger as it was.  When the update of its handler can use the
    connection it returns [(False, message)], where the message is that of
    the [KeyError], or of the rollback after it. *)
Theorem full_backup_stops_at_its_record env label description w :
  let run := BackupEngine.create_full_backup self env label description w in
  (forall id, fst run <> Return (true, id))
  /\ (exists started,
        procs (snd run) = (procs w ++ started)%list
        /\ Forall (fun cmd => head cmd = Some "psql") started
        /\ (length started <= 1)%nat)
  /\ bucket (snd run) = bucket w
  /\ wals (ledger (snd run)) = wals (ledger w)
  /\ restores (ledger (snd run)) = restores (ledger w)
  /\ (MetadataManager.has_backup (ledger w) (BackupEngine.full_uuid4 env) = false ->
      ledger (snd run) = ledger w)
  /\ (forall o,
        BackupEngine.full_db_failed env = Statement o ->
        fst run
        = Return (false,
                  after_rollback (BackupEngine.full_db_create env)
                    (MetadataManager.key_error "end_ts"))).
Proof.
  intros run. subst run.
  destruct (create_full_backup_outcome self env label description w)
    as (w' & Hrun & Hp & Hbk & Hw & Hr & Hb).
  rewrite Hrun. cbn [fst snd].
  split; [|split; [|split; [|split; [|split; [|split]]]]]; try assumption.
  - intros id. now destruct (BackupEngine.full_db_failed env).
  - exists (version_query self). split; [exact Hp|]. split.
    + apply Forall_forall. intros cmd. apply version_query_psql.
    + unfold version_query.
      destruct (BackupEngine.pg_config self !! "user");
        [destruct (BackupEngine.pg_config self !! "database")|]; cbn; lia.
  - intros Hfresh.
    assert (Hrows : backups (ledger w') = backups (ledger w)).
    { rewrite Hb. destruct (BackupEngine.full_db_failed env) as [[|m]|m rb|m];
        try reflexivity.
      now apply update_absent_backup. }
    destruct (ledger w'), (ledger w). cbn in *. congruence.
  - intros o Ho. now rewrite Ho.
Qed.

End BackupEngineFacts.
#[export] Instance str_le_total : Total str_le.
Proof. intros a b. apply String.leb_total. Qed.

Lemma wal_digits_not_gz s : wal_digits s = true -> Py.endswith s ".gz" = false.
Proof.
  intros Hs. unfold Py.endswith.
  assert (Hrev : wal_digits (Py.rev_string s "") = true)
    by (now rewrite wal_digits_rev, Hs).
  destruct (Py.rev_string s "") as [|c r]; [reflexivity|].
  cbn [wal_digits] in Hrev. apply andb_true_iff in Hrev as [Hc _].
  cbn [Py.rev_string String.prefix].
  destruct (Ascii.ascii_dec "z" c) as [<- | Hne]; [discriminate Hc|reflexivity].
Qed.

Section WalFiles.
Context {sha256 : HashAlgorithm}.
Variable self : BackupEngine.t.

(** X14. [_get_wal_files] never raises and changes nothing but the log.  For
    a directory that can be listed it returns, in ascending order, the
    paths of the entries that are regular files and whose name starts with
    [0], is 24 characters long and ends in [.gz]; for a directory that is
    missing or cannot be listed it returns the empty list. *)
Theorem get_wal_files_selection listing w :
  exists wal_files w',
    BackupEngine._get_wal_files self listing w = (Return wal_files, w')
    /\ ledger w' = ledger w /\ files w' = files w /\ bucket w' = bucket w
    /\ Sorted str_le wal_files
    /\ match listing with
       | Entries names =>
           forall p,
             p ∈ wal_files
             <-> exists name,
                   (name, true) ∈ names
                   /\ BackupEngine.is_wal_name name = true
                   /\ p = Py.path_join (wal_directory self) name
       | _ => wal_files = []
       end.
Proof.
  unfold BackupEngine._get_wal_files. fold (wal_directory self).
  destruct listing as [|names|msg];
    try (do 2 eexists; split; [reflexivity|]; repeat split; constructor).
  do 2 eexists. split; [reflexivity|]. split; [reflexivity|].
  split; [reflexivity|]. split; [reflexivity|].
  split; [apply Sorted_merge_sort; apply _|].
  intros p. rewrite merge_sort_Permutation, list_elem_of_fmap. split.
  - intros ([name isfile] & -> & Hin).
    apply list_elem_of_In, filter_In in Hin as [Hin Hsel]. cbn in Hsel.
    apply andb_true_iff in Hsel as [Hname ->].
    exists name. split; [now apply list_elem_of_In|]. split; [exact Hname | reflexivity].
  - intros (name & Hin & Hname & ->). exists (name, true). split; [reflexivity|].
    apply list_elem_of_In, filter_In. split; [now apply list_elem_of_In|].
    cbn. now rewrite Hname.
Qed.

(** X15. [_get_wal_files] never selects a segment under the name PostgreSQL
    gives it: a name of 24 hexadecimal digits does not end in [.gz], and
    with [.gz] appended it is 27 characters long.  A directory that holds
    only such files yields no WAL file at all. *)
Theorem get_wal_files_skips_segment_names names w :
  Forall (fun e : string * bool =>
            exists segment,
              pg_segment_name segment
              /\ (e.1 = segment \/ e.1 = segment ++ ".gz")) names ->
  exists w', BackupEngine._get_wal_files self (Entries names) w = (Return [], w').
Proof.
  intros Hnames. unfold BackupEngine._get_wal_files. eexists.
  unfold ret. f_equal. f_equal.
  assert (Hnone : List.filter
                    (fun e : string * bool => BackupEngine.is_wal_name e.1 && e.2)
                    names = []).
  { induction Hnames as [|e rest (segment & [Hlen Hdigits] & Hcase) _ IH];
      [reflexivity|].
    cbn [List.filter]. rewrite IH.
    assert (Hno : BackupEngine.is_wal_name e.1 = false).
    { unfold BackupEngine.is_wal_name. destruct Hcase as [-> | ->].
      - rewrite (wal_digits_not_gz _ Hdigits). apply andb_false_r.
      - rewrite string_length_append, Hlen. cbn [String.length Nat.add Nat.eqb].
        rewrite andb_false_r. reflexivity. }
    now rewrite Hno. }
  rewrite Hnone. reflexivity.
Qed.

End WalFiles.
(** ** The restore engine ([core/restore.py]) *)

Section RestoreEngineFacts.
Context {sha256 : HashAlgorithm}.
Variable self : RestoreEngine.t.

Lemma truthy_nonempty s : s <> "" -> Py.truthy (Some s) = true.
Proof. intros H. cbn. now destruct (String.eqb_spec s ""). Qed.

(** What [get_backup_by_id] answers, by what the connection does. *)
Lemma get_backup_by_id_outcome db id w :
  exists w',
    MetadataManager.get_backup_by_id db id w
    = (match db with
       | Statement Executes =>
           Return (List.find
                     (fun r => String.eqb (backup_metadata.backup_id r) id)
                     (backups (ledger w)))
       | Statement (DbRaises _) | ConnectionLost _ _ => Return None
       | Unreachable _ => Raise (MetadataManager.unbound_local "cursor")
       end, w')
    /\ ledger w' = ledger w.
Proof.
  unfold MetadataManager.get_backup_by_id, MetadataManager.select_backup.
  ledger_frame.
  destruct db as [[|msg]|msg rb|msg]; cbn; eexists; split; reflexivity.
Qed.

(** X16. [restore_backup] refuses a backup it cannot use.  Asked for an
    identifier that the ledger does not return, because no record carries
    it or because the query failed on a connection that was open, the
    attempt ends with the message that the backup was not found; asked for
    a record whose status is not [completed], with the message that the
    backup is not concluded.  In both cases it starts no process, leaves
    the bucket alone and adds no row to [restore_operations]: the failed
    attempt leaves no record.  The attempt is reported as [(False,
    message)] when the update of the handler finds a connection; when it
    finds none, the [UnboundLocalError] of that update leaves
    [restore_backup]. *)
Theorem restore_refuses_unusable_backup env backup_id target_time destination w :
  backup_id <> "" ->
  connection_opens (RestoreEngine.db_get env) ->
  let found :=
    match RestoreEngine.db_get env with
    | Statement Executes =>
        List.find (fun r => String.eqb (backup_metadata.backup_id r) backup_id)
          (backups (ledger w))
    | _ => None
    end in
  match found with
  | Some r => backup_metadata.status r <> "completed"
  | None => True
  end ->
  exists w',
    RestoreEngine.restore_backup self env (Some backup_id) target_time destination w
    = (match RestoreEngine.db_failed env with
       | Unreachable _ => Raise (MetadataManager.unbound_local "cursor")
       | _ =>
           Return
             (false,
              match found with
              | Some _ => "Backup " ++ backup_id ++ " não está concluído"
              | None => "Backup " ++ backup_id ++ " não encontrado"
              end)
       end, w')
    /\ procs w' = procs w
    /\ bucket w' = bucket w
    /\ backups (ledger w') = backups (ledger w)
    /\ map restore_operations.restore_id (restores (ledger w'))
       = map restore_operations.restore_id (restores (ledger w)).
Proof.
  intros Hid Hopens found Hfound.
  assert (Hbase : exists w1,
            RestoreEngine.restore_base self env (Some backup_id) target_time
              destination w
            = (Raise (match found with
                      | Some _ => "Backup " ++ backup_id ++ " não está concluído"
                      | None => "Backup " ++ backup_id ++ " não encontrado"
                      end), w1)).
  { unfold RestoreEngine.restore_base. rewrite (truthy_nonempty _ Hid).
    cbn [negb]. change (default "" (Some backup_id)) with backup_id.
    unfold bind at 1. unfold ret at 1. unfold bind at 1.
    destruct (get_backup_by_id_outcome (RestoreEngine.db_get env) backup_id w)
      as (w1 & -> & Hl1).
    subst found.
    destruct (RestoreEngine.db_get env) as [[|msg]|msg rb|msg];
      [| | |destruct Hopens]; try (eexists; reflexivity).
    destruct (List.find _ (backups (ledger w))) as [r|]; [|eexists; reflexivity].
    destruct (String.eqb_spec (backup_metadata.status r) "completed");
      [contradiction|]. cbn [negb]. eexists. reflexivity. }
  destruct Hbase as (w1 & Hbase).
  destruct (restore_backup_outcome self env (Some backup_id) target_time destination w)
    as (e & w1' & w' & Hbase' & _ & Hrun & Hp & Hb & Hbk & _ & Hr & _).
  rewrite Hbase in Hbase'. injection Hbase' as <- _.
  exists w'. repeat split; assumption.
Qed.

(** X17. [restore_backup] stops at the insertion of its record.  The
    dictionary it passes to [create_restore_record] has no [target_xid],
    which the statement names, so the insertion is refused before anything
    is sent to the store, if the attempt was not refused earlier.  Whatever
    the environment does, a restore never reports success, starts no
    process (neither the restore tool nor [pg_walfile]), downloads nothing
    (of the local files only those of its temporary directory go, in the
    final cleaning), leaves the bucket, [backup_metadata] and
    [wal_metadata] as they were, and, with an identifier that no row of
    [restore_operations] carries, the whole ledger. *)
Theorem restore_stops_at_its_record env backup_id target_time destination w :
  let run := RestoreEngine.restore_backup self env backup_id target_time destination w in
  (forall id, fst run <> Return (true, id))
  /\ procs (snd run) = procs w
  /\ bucket (snd run) = bucket w
  /\ files (snd run)
     = filter (fun kv : string * bytes =>
                 Py.startswith kv.1 (RestoreEngine.temp_dir self ++ "/") = false)
         (files w)
  /\ backups (ledger (snd run)) = backups (ledger w)
  /\ wals (ledger (snd run)) = wals (ledger w)
  /\ (MetadataManager.has_restore (ledger w) (RestoreEngine.restore_uuid4 env) = false ->
      ledger (snd run) = ledger w).
Proof.
  intros run. subst run.
  destruct (restore_backup_outcome self env backup_id target_time destination w)
    as (e & w1 & w' & _ & _ & Hrun & Hp & Hb & Hbk & Hw & _ & Hr & Hf).
  rewrite Hrun. cbn [fst snd].
  split; [|repeat split; try assumption].
  - intros id. now destruct (RestoreEngine.db_failed env).
  - intros Hfresh. specialize (Hr Hfresh).
    destruct (ledger w'), (ledger w). cbn in *. congruence.
Qed.

End RestoreEngineFacts.
Section RestoreRecord.
Context {sha256 : HashAlgorithm}.
Variable self : RestoreEngine.t.



End RestoreRecord.
(** ** [prune] without [--dry-run] ([cli.py]) *)

Section PruneRemoves.
Variable backup_engine : BackupEngine.t.

Lemma pruned_object_later env policy turn b rest id key :
  pruned_object env policy (S turn) rest id key ->
  pruned_object env policy turn (b :: rest) id key.
Proof.
  intros (i & x & Hi & Hx). exists (S i), x. split; [exact Hi|].
  now replace (turn + S i)%nat with (S turn + i)%nat by lia.
Qed.

(** What the deletion of one selected record does to the bucket. *)
Lemma prune_step_bucket env b w :
  exists w1,
    (if Py.truthy (backup_metadata.s3_key b) then
       delete_file (BackupEngine.s3_client backup_engine)
         (Cli.net_delete env (default "" (backup_metadata.s3_key b)))
         (default "" (backup_metadata.s3_key b)) ;;
       ret tt
     else ret tt) w = (Return tt, w1)
    /\ (bucket w1 = bucket w
        \/ exists key,
             backup_metadata.s3_key b = Some key /\ key <> ""
             /\ Cli.net_delete env key = NetOk
             /\ bucket w1 = delete key (bucket w))
    /\ (forall key,
          backup_metadata.s3_key b = Some key -> key <> "" ->
          Cli.net_delete env key = NetOk -> bucket w1 = delete key (bucket w)).
Proof.
  destruct (backup_metadata.s3_key b) as [key|]; cbn [Py.truthy default from_option id].
  2:{ exists w. split; [reflexivity|]. split; [now left | discriminate]. }
  destruct (String.eqb_spec key "") as [-> | Hne]; cbn [negb].
  { exists w. split; [reflexivity|]. split; [now left|]. intros k [= <-] H. contradiction. }
  unfold delete_file, try_except, bind, client_delete_object, logger_error, modify, ret.
  destruct (Cli.net_delete env key) as [|msg] eqn:Hnet.
  - eexists. split; [reflexivity|]. cbn. split.
    + right. exists key. repeat split; assumption.
    + now intros k [= <-] _ _.
  - eexists. split; [reflexivity|]. cbn. split; [now left|].
    intros k [= <-] _ H. rewrite Hnet in H. discriminate.
Qed.

(** The loop of [prune] on the bucket, when it deletes. *)
Lemma prune_loop_bucket env policy scanned :
  forall turn pruned w,
    let w' := snd (Cli.prune_loop backup_engine env policy false turn scanned pruned w) in
    (forall key, bucket w' !! key = None \/ bucket w' !! key = bucket w !! key)
    /\ (forall id key, pruned_object env policy turn scanned id key ->
                       bucket w' !! key = None)
    /\ (forall key obj, bucket w !! key = Some obj -> bucket w' !! key = None ->
                        exists id, pruned_object env policy turn scanned id key).
Proof.
  induction scanned as [|b rest IH]; intros turn pruned w; cbn zeta.
  - cbn. split; [now right|]. split.
    + intros id key (i & x & Hi & _). discriminate.
    + intros key obj H1 H2. congruence.
  - cbn [Cli.prune_loop].
    destruct (Cli.should_prune policy b (Cli.backup_age (Cli.now env turn) b)) eqn:Hsel.
    + cbn [negb].
      destruct (prune_step_bucket env b w) as (w1 & Hstep & Hcase & Hdel).
      rewrite (bind_Return _ _ _ _ _ Hstep).
      match goal with
      | |- context [Cli.prune_loop _ _ _ _ _ _ ?p w1] =>
          destruct (IH (S turn) p w1) as (Hmono & Hgone & Hwhy);
          set (w' := snd (Cli.prune_loop backup_engine env policy false (S turn)
                            rest p w1)) in *
      end.
      assert (Hstep1 : forall key, bucket w1 !! key = None
                                   \/ bucket w1 !! key = bucket w !! key).
      { intros key. destruct Hcase as [-> | (k & _ & _ & _ & ->)]; [now right|].
        destruct (decide (k = key)) as [-> | Hne].
        - left. apply lookup_delete_eq.
        - right. now apply lookup_delete_ne. }
      split; [|split].
      * intros key. destruct (Hmono key) as [H | H]; [now left|].
        rewrite H. apply Hstep1.
      * intros id key (i & x & Hi & Hold & Hid & Hkey & Hne & Hnet).
        destruct i as [|i].
        -- injection Hi as <-.
           assert (Hnone : bucket w1 !! key = None).
           { rewrite (Hdel key Hkey Hne Hnet). apply lookup_delete_eq. }
           destruct (Hmono key) as [H | H]; [exact H | now rewrite H].
        -- apply (Hgone id). exists i, x. split; [exact Hi|].
           now replace (S turn + i)%nat with (turn + S i)%nat by lia.
      * intros key obj Hobj Hnone.
        destruct (bucket w1 !! key) as [obj1|] eqn:H1.
        -- destruct (Hwhy key obj1 H1 Hnone) as (id & Hp).
           exists id. now apply pruned_object_later.
        -- destruct Hcase as [Hsame | (k & Hkey & Hne & Hnet & Hb)].
           ++ rewrite Hsame in H1. congruence.
           ++ assert (k = key) as ->.
              { destruct (decide (k = key)) as [-> | Hd]; [reflexivity|].
                rewrite Hb, lookup_delete_ne in H1 by exact Hd. congruence. }
              exists (backup_metadata.backup_id b), 0%nat, b.
              rewrite Nat.add_0_r. split; [reflexivity|].
              split; [now apply should_prune_iff|]. repeat split; assumption.
    + destruct (IH (S turn) pruned w) as (Hmono & Hgone & Hwhy).
      split; [exact Hmono|]. split.
      * intros id key (i & x & Hi & Hold & Hrest).
        destruct i as [|i].
        -- injection Hi as <-. rewrite Nat.add_0_r in Hold.
           apply should_prune_iff in Hold. congruence.
        -- apply (Hgone id). exists i, x. split; [exact Hi|].
           now replace (S turn + i)%nat with (turn + S i)%nat by lia.
      * intros key obj Hobj Hnone. destruct (Hwhy key obj Hobj Hnone) as (id & Hp).
        exists id. now apply pruned_object_later.
Qed.

(** What [prune] does when it deletes, in one statement. *)
Lemma prune_removes env policy w :
  exists scanned w0 pruned w',
    BackupEngine.list_recent_backups (Cli.db_scan env) 1000 w = (Return scanned, w0)
    /\ Cli.prune backup_engine env policy false w = (Return pruned, w')
    /\ ledger w' = ledger w
    /\ (forall r, r ∈ scanned -> r ∈ backups (ledger w))
    /\ (forall key, bucket w' !! key = None \/ bucket w' !! key = bucket w !! key)
    /\ (forall id key, pruned_object env policy 0 scanned id key ->
                       bucket w' !! key = None)
    /\ (forall key obj, bucket w !! key = Some obj -> bucket w' !! key = None ->
                        exists id, pruned_object env policy 0 scanned id key).
Proof.
  destruct (list_recent_backups_outcome (Cli.db_scan env) 1000 w)
    as (scanned & w0 & Hscan & Hl0 & Hb0 & _).
  destruct (prune_loop_outcome backup_engine env policy false scanned 0%nat [] w0)
    as (w1 & Hloop & Hl1 & _ & _).
  pose proof (prune_loop_bucket env policy scanned 0%nat [] w0) as Hbucket.
  cbn zeta in Hbucket. rewrite Hloop in Hbucket. cbn [snd] in Hbucket.
  destruct Hbucket as (Hmono & Hgone & Hwhy).
  exists scanned, w0. do 2 eexists. split; [exact Hscan|].
  unfold Cli.prune. rewrite (bind_Return _ _ _ _ _ Hscan).
  rewrite (bind_Return _ _ _ _ _ Hloop). cbn [app].
  split; [reflexivity|]. cbn. rewrite <- Hb0.
  split; [congruence|]. split; [|repeat split; assumption].
  intros r Hin. revert Hscan Hin.
  unfold BackupEngine.list_recent_backups, MetadataManager.list_backups.
  destruct (Cli.db_scan env); cbn; intros [= <- <-] Hin; [|inversion Hin].
  apply subseteq_take in Hin. rewrite merge_sort_Permutation in Hin.
  apply list_elem_of_In, filter_In in Hin as [Hin _]. now apply list_elem_of_In.
Qed.

(** X20. [prune] without [--dry-run] removes objects and nothing else.  It
    never raises and never changes the ledger: the records of the backups
    it prunes stay there as they were, [completed] and with their key.  In
    the bucket it only removes: an object is gone afterwards exactly when a
    scanned record that is older than its retention threshold names its key
    and the transport executed the deletion; every other object is left as
    it was, and a deletion that the transport refuses is not reported. *)
Theorem prune_removes_selected_objects env policy w :
  exists scanned w0 pruned w',
    BackupEngine.list_recent_backups (Cli.db_scan env) 1000 w = (Return scanned, w0)
    /\ Cli.prune backup_engine env policy false w = (Return pruned, w')
    /\ ledger w' = ledger w
    /\ (forall key, bucket w' !! key = None \/ bucket w' !! key = bucket w !! key)
    /\ (forall id key, pruned_object env policy 0 scanned id key ->
                       bucket w' !! key = None)
    /\ (forall key obj, bucket w !! key = Some obj -> bucket w' !! key = None ->
                        exists id, pruned_object env policy 0 scanned id key).
Proof.
  destruct (prune_removes env policy w)
    as (scanned & w0 & pruned & w' & Hscan & Hrun & Hl & _ & Hrest).
  exists scanned, w0, pruned, w'. repeat split; try assumption; apply Hrest.
Qed.

End PruneRemoves.
(** ** The external tools of a dump and of a restore *)

Section Tools.
Context {sha256 : HashAlgorithm}.

(** What [_execute_pg_dump] has done when it returns a path. *)
Lemma execute_pg_dump_some self out output id w f w1 :
  BackupEngine._execute_pg_dump self out output id w = (Return (Some f), w1) ->
  f = Py.path_join (BackupEngine.temp_dir self) (id ++ ".sql")
  /\ (exists so se, out = Exited 0 so se)
  /\ (exists c : bytes, files w1 !! f = Some c /\ c <> [])
  /\ procs w1 = (procs w ++ [pg_dump_command self id])%list.
Proof.
  unfold BackupEngine._execute_pg_dump, pg_dump_command.
  destruct (BackupEngine.pg_config self !! "user") as [user|];
    [|unfold bind, logger_error, modify, ret; intros [=]].
  destruct (BackupEngine.pg_config self !! "database") as [database|];
    [|unfold bind, logger_error, modify, ret; intros [=]].
  unfold bind, subprocess_run, modify, ret, get_world, logger_error.
  destruct out as [rc so se| |msg]; [|intros [=]|intros [=]].
  set (path := Py.path_join (BackupEngine.temp_dir self) (id ++ ".sql")).
  destruct output as [content|]; cbn;
    (destruct (rc =? 0) eqn:Hrc; cbn; [|intros [=]]).
  - rewrite lookup_insert_eq. destruct content as [|b content]; intros [= <- <-].
    apply Z.eqb_eq in Hrc. subst rc.
    split; [reflexivity|]. split; [eauto|]. cbn.
    split; [exists (b :: content); split; [apply lookup_insert_eq | discriminate]|].
    reflexivity.
  - destruct (files w !! path) as [[|b c]|] eqn:Hf; intros [= <- <-].
    apply Z.eqb_eq in Hrc. subst rc.
    split; [reflexivity|]. split; [eauto|]. cbn.
    split; [exists (b :: c); split; [exact Hf | discriminate]|].
    reflexivity.
Qed.

Lemma restore_base_backup_procs out backup_file destination w :
  procs (snd (RestoreEngine._restore_base_backup out backup_file destination w))
  = (procs w ++ [restore_command backup_file])%list.
Proof.
  unfold RestoreEngine._restore_base_backup, restore_command, bind, subprocess_run,
    modify, ret, logger_error.
  destruct (Py.endswith backup_file ".dump" || Py.endswith backup_file ".backup");
    destruct out as [rc so se| |msg]; cbn; try reflexivity;
    destruct (rc =? 0); reflexivity.
Qed.

Variable self : RestoreEngine.t.

(** The artifact of a full backup goes to [psql]. *)
Lemma restore_command_sql key :
  sql_artifact key ->
  restore_command (restored_file self key)
  = ["psql"; "-h"; "localhost"; "-p"; "5433"; "-U"; "postgres";
     "-d"; "postgres_restore"; "-f";
     Py.path_join (RestoreEngine.temp_dir self) (Py.basename key)]
  \/ restore_command (restored_file self key)
     = ["psql"; "-h"; "localhost"; "-p"; "5433"; "-U"; "postgres";
        "-d"; "postgres_restore"; "-f";
        Py.drop_last3 (Py.path_join (RestoreEngine.temp_dir self) (Py.basename key))].
Proof.
  intros (stem & [Hname | Hname]); unfold restored_file; cbv zeta; rewrite Hname.
  - left. rewrite path_join_app.
    destruct (endswith_sql (Py.path_join (RestoreEngine.temp_dir self) stem))
      as (Hgz & Hdump & Hbackup).
    rewrite Hgz. unfold restore_command. now rewrite Hdump, Hbackup.
  - right. change (stem ++ ".sql.gz") with (stem ++ ".sql" ++ ".gz").
    rewrite <- string_append_assoc, !path_join_app, endswith_app, drop_last3_gz.
    destruct (endswith_sql (Py.path_join (RestoreEngine.temp_dir self) stem))
      as (_ & Hdump & Hbackup).
    unfold restore_command. now rewrite Hdump, Hbackup.
Qed.


(** X22. The format of the dump and the tool of the restore, method by
    method.  When [_execute_pg_dump] returns a file, it has run [pg_dump]
    with [--format=custom] and the file is named [<id>.sql].
    [_restore_base_backup] starts exactly one process: [pg_restore] when the
    name of the file ends in [.dump] or [.backup], and [psql -f] otherwise.
    So for an artifact whose key ends in [<stem>.sql] or [<stem>.sql.gz],
    which is how the file of [_execute_pg_dump] is named, compressed or
    not, the command for the local copy that [restore_backup] would hand
    over is [psql], never [pg_restore]. *)
Theorem custom_dump_goes_to_psql :
  (forall engine out output id w file w',
     BackupEngine._execute_pg_dump engine out output id w = (Return (Some file), w') ->
     file = Py.path_join (BackupEngine.temp_dir engine) (id ++ ".sql")
     /\ procs w' = (procs w ++ [pg_dump_command engine id])%list
     /\ In "--format=custom" (pg_dump_command engine id))
  /\ (forall out backup_file destination w,
        procs (snd (RestoreEngine._restore_base_backup out backup_file destination w))
        = (procs w ++ [restore_command backup_file])%list)
  /\ (forall backup_file,
        head (restore_command backup_file)
        = Some (if Py.endswith backup_file ".dump" || Py.endswith backup_file ".backup"
                then "pg_restore" else "psql"))
  /\ (forall key,
        sql_artifact key ->
        head (restore_command (restored_file self key)) = Some "psql").
Proof.
  split; [|split; [|split]].
  - intros engine out output id w file w' Hrun.
    apply execute_pg_dump_some in Hrun as (Hfile & _ & _ & Hprocs).
    split; [exact Hfile|]. split; [exact Hprocs|].
    unfold pg_dump_command, BackupEngine.connection_args. cbn.
    repeat first [left; reflexivity | right].
  - apply restore_base_backup_procs.
  - intros backup_file. unfold restore_command.
    now destruct (Py.endswith backup_file ".dump" || Py.endswith backup_file ".backup").
  - intros key Hkey. destruct (restore_command_sql key Hkey) as [-> | ->]; reflexivity.
Qed.

End Tools.
(** ** The [--policy] option of [prune] *)

Lemma contains_app c a b :
  PyStr.contains c (a ++ b) = PyStr.contains c a || PyStr.contains c b.
Proof.
  induction a as [|x a IH]; [reflexivity|].
  rewrite append_cons. cbn [PyStr.contains]. now rewrite IH, orb_assoc.
Qed.

Lemma split_without sep s : PyStr.contains sep s = false -> PyStr.split sep s = [s].
Proof.
  induction s as [|a r IH]; [reflexivity|]. cbn [PyStr.contains PyStr.split].
  intros H. apply orb_false_iff in H as [-> Hr]. now rewrite (IH Hr).
Qed.

(** [(a + sep + b).split(sep)] when [sep] is not in [a]. *)
Lemma split_app sep a b :
  PyStr.contains sep a = false ->
  PyStr.split sep (a ++ String sep b) = a :: PyStr.split sep b.
Proof.
  induction a as [|x a IH]; intros H.
  - change ("" ++ String sep b) with (String sep b). cbn [PyStr.split].
    now rewrite Ascii.eqb_refl.
  - cbn [PyStr.contains] in H. apply orb_false_iff in H as [Hx Ha].
    rewrite append_cons. cbn [PyStr.split]. now rewrite Hx, (IH Ha).
Qed.

(** [(a + sep + b).split(sep, 1)] when [sep] is not in [a]. *)
Lemma split_once_app sep a b :
  PyStr.contains sep a = false ->
  PyStr.split_once sep (a ++ String sep b) = (a, b).
Proof.
  induction a as [|x a IH]; intros H.
  - change ("" ++ String sep b) with (String sep b). cbn [PyStr.split_once].
    now rewrite Ascii.eqb_refl.
  - cbn [PyStr.contains] in H. apply orb_false_iff in H as [Hx Ha].
    rewrite append_cons. cbn [PyStr.split_once]. now rewrite Hx, (IH Ha).
Qed.

Section Policy.
Variable backup_engine : BackupEngine.t.

(** [prune] reads the policy through [should_prune] only. *)
Lemma prune_loop_ext env p q dry_run scanned :
  (forall b age, Cli.should_prune p b age = Cli.should_prune q b age) ->
  forall turn pruned w,
    Cli.prune_loop backup_engine env p dry_run turn scanned pruned w
    = Cli.prune_loop backup_engine env q dry_run turn scanned pruned w.
Proof.
  intros Hext. induction scanned as [|b rest IH]; intros turn pruned w; [reflexivity|].
  cbn [Cli.prune_loop]. rewrite Hext.
  destruct (Cli.should_prune q b _); [|apply IH].
  unfold bind.
  match goal with
  | |- (let (r, w') := ?m in _) = _ => destruct m as [[[]|e] w1]
  end; [apply IH | reflexivity].
Qed.

Lemma prune_ext env p q dry_run w :
  (forall b age, Cli.should_prune p b age = Cli.should_prune q b age) ->
  Cli.prune backup_engine env p dry_run w = Cli.prune backup_engine env q dry_run w.
Proof.
  intros Hext. unfold Cli.prune, bind.
  destruct (BackupEngine.list_recent_backups (Cli.db_scan env) 1000 w)
    as [[scanned|e] w0]; [|reflexivity].
  now rewrite (prune_loop_ext env p q dry_run scanned Hext).
Qed.

(** Rules under other keys leave the two thresholds as they are. *)
Lemma apply_rules_other_keys limit rules :
  forall cfg cfg',
    CliOptions.apply_rules limit rules cfg = Return cfg' ->
    Forall (fun rule => PyStr.contains "=" rule = true ->
                        fst (PyStr.split_once "=" rule) <> "full_days"
                        /\ fst (PyStr.split_once "=" rule) <> "incremental_days") rules ->
    cfg' !! "full_days" = cfg !! "full_days"
    /\ cfg' !! "incremental_days" = cfg !! "incremental_days".
Proof.
  induction rules as [|rule rest IH]; intros cfg cfg' Hrun Hkeys.
  - injection Hrun as <-. now split.
  - apply Forall_cons in Hkeys as [Hrule Hrest].
    cbn [CliOptions.apply_rules] in Hrun.
    destruct (PyStr.contains "=" rule); [|now apply IH].
    destruct (Hrule eq_refl) as [Hfull Hinc].
    destruct (PyStr.split_once "=" rule) as [key value]. cbn [fst] in Hfull, Hinc.
    destruct (PyStr.int10 limit value) as [n|]; [|discriminate].
    destruct (IH _ _ Hrun Hrest) as [-> ->].
    now rewrite !lookup_insert_ne by assumption.
Qed.

(** X23. Only two keys of a retention policy mean anything.  When the value
    of [--policy] is accepted and none of its rules is for [full_days] or
    [incremental_days], [prune] does exactly what it does without
    [--policy], in both modes: the same candidates, the same deletions.
    The value the help text of the option gives as its example,
    [monthly-retain=3,weekly-retain=4,daily-retain=7], is such a value. *)
Theorem unknown_policy_keys_change_nothing env limit cfg policy cfg' dry_run w :
  CliOptions.parse_policy limit cfg (Some policy) = Return cfg' ->
  ~ In "full_days" (rule_keys policy) ->
  ~ In "incremental_days" (rule_keys policy) ->
  CliOptions.prune backup_engine env limit cfg (Some policy) dry_run w
  = CliOptions.prune backup_engine env limit cfg None dry_run w.
Proof.
  intros Hparse Hfull Hinc.
  unfold CliOptions.prune, try_except, CliOptions.pure. unfold bind at 1 3.
  rewrite Hparse. cbn [CliOptions.parse_policy Py.truthy].
  unfold bind. rewrite (prune_ext env cfg' cfg dry_run w); [reflexivity|].
  assert (Hsame : cfg' !! "full_days" = cfg !! "full_days"
                  /\ cfg' !! "incremental_days" = cfg !! "incremental_days").
  { unfold CliOptions.parse_policy in Hparse.
    destruct (Py.truthy (Some policy)); [|injection Hparse as <-; now split].
    change (default "" (Some policy)) with policy in Hparse.
    apply (apply_rules_other_keys limit _ _ _ Hparse).
    apply Forall_forall. intros rule Hin Heq.
    assert (Hkey : In (fst (PyStr.split_once "=" rule)) (rule_keys policy)).
    { unfold rule_keys.
      apply (in_map (fun rule => fst (PyStr.split_once "=" rule))).
      apply filter_In. split; [|exact Heq].
      now apply list_elem_of_In. }
    split; intros Hk; rewrite Hk in Hkey; contradiction. }
  destruct Hsame as [Hf Hi]. intros b age. unfold Cli.should_prune.
  now rewrite Hf, Hi.
Qed.

(** X24. A rule [key=value] of [--policy] stores [int(value)] under [key],
    and the rules are applied from left to right, so the last rule for a
    key decides.  In particular [--policy full_days=N] makes [prune] select
    the full backups that are more than [N] days old, whatever the
    configuration says. *)
Theorem policy_rules_apply_in_order limit :
  (forall cfg key value n,
     PyStr.contains "," key = false -> PyStr.contains "=" key = false ->
     PyStr.contains "," value = false ->
     PyStr.int10 limit value = Some n ->
     CliOptions.parse_policy limit cfg (Some (key ++ "=" ++ value))
     = Return (<[key := n]> cfg))
  /\ (forall cfg rule rest,
        PyStr.contains "," rule = false -> rule <> "" ->
        CliOptions.parse_policy limit cfg (Some (rule ++ "," ++ rest))
        = match CliOptions.parse_policy limit cfg (Some rule) with
          | Return cfg1 =>
              CliOptions.apply_rules limit (PyStr.split "," rest) cfg1
          | Raise e => Raise e
          end)
  /\ (forall cfg days n b age,
        PyStr.contains "," days = false ->
        PyStr.int10 limit days = Some n ->
        backup_metadata.backup_type b = "full" ->
        exists cfg',
          CliOptions.parse_policy limit cfg (Some ("full_days=" ++ days)) = Return cfg'
          /\ (Cli.should_prune cfg' b age = true <-> n < age)).
Proof.
  assert (Hone : forall cfg key value n,
            PyStr.contains "," key = false -> PyStr.contains "=" key = false ->
            PyStr.contains "," value = false ->
            PyStr.int10 limit value = Some n ->
            CliOptions.parse_policy limit cfg (Some (key ++ "=" ++ value))
            = Return (<[key := n]> cfg)).
  { intros cfg key value n Hk1 Hk2 Hv Hint.
    unfold CliOptions.parse_policy.
    assert (Hne : Py.truthy (Some (key ++ "=" ++ value)) = true).
    { cbn. destruct key; reflexivity. }
    rewrite Hne. change (default "" (Some ?s)) with s.
    rewrite split_without.
    2:{ rewrite contains_app, Hk1. change ("=" ++ value) with (String "=" value).
        cbn [PyStr.contains]. now rewrite Hv. }
    cbn [CliOptions.apply_rules].
    change ("=" ++ value) with (String "=" value).
    rewrite contains_app. cbn [PyStr.contains]. rewrite Ascii.eqb_refl, orb_true_r.
    rewrite (split_once_app "=" key value Hk2), Hint. reflexivity. }
  split; [exact Hone|]. split.
  - intros cfg rule rest Hrule Hne.
    unfold CliOptions.parse_policy.
    assert (H1 : Py.truthy (Some (rule ++ "," ++ rest)) = true).
    { cbn. destruct rule; reflexivity. }
    assert (H2 : Py.truthy (Some rule) = true).
    { cbn. destruct rule; [contradiction | reflexivity]. }
    rewrite H1, H2. change (default "" (Some ?s)) with s.
    change ("," ++ rest) with (String "," rest).
    rewrite (split_app "," rule rest Hrule), (split_without "," rule Hrule).
    cbn [CliOptions.apply_rules].
    destruct (PyStr.contains "=" rule); [|reflexivity].
    destruct (PyStr.split_once "=" rule) as [key value].
    destruct (PyStr.int10 limit value); reflexivity.
  - intros cfg days n b age Hdays Hint Hkind.
    exists (<["full_days" := n]> cfg).
    split; [exact (Hone cfg "full_days" days n eq_refl eq_refl Hdays Hint)|].
    unfold Cli.should_prune. rewrite Hkind. cbn [String.eqb Ascii.eqb Bool.eqb].
    rewrite lookup_insert_eq. cbn. apply Z.ltb_lt.
Qed.

End Policy.

(** The example of the help text, on a ledger with one old and one recent
    full backup. *)
Lemma unknown_policy_keys_change_nothing_witness :
  CliOptions.prune demo_engine prune_run 4300 ∅
    (Some "monthly-retain=3,weekly-retain=4,daily-retain=7") false old_and_recent
  = CliOptions.prune demo_engine prune_run 4300 ∅ None false old_and_recent.
Proof.
  apply (unknown_policy_keys_change_nothing demo_engine prune_run 4300 ∅
           "monthly-retain=3,weekly-retain=4,daily-retain=7"
           (<["daily-retain" := 7]>
              (<["weekly-retain" := 4]> (<["monthly-retain" := 3]> ∅)))).
  - vm_compute. reflexivity.
  - vm_compute. intuition discriminate.
  - vm_compute. intuition discriminate.
Defined.
(** ** The configuration ([utils/config.py]) *)

Section ConfigFacts.
Variable environ : gmap string string.

(** One step along a dotted path. *)
Lemma get_step entries other k rest d :
  PyStr.contains "." k = false ->
  Config.get (Config.YDict entries other) environ (k ++ "." ++ rest) d
  = match entries !! k with
    | Some inner => Config.get inner environ rest d
    | None => d
    end.
Proof.
  intros Hk. unfold Config.get. cbv zeta.
  change ("." ++ rest) with (String "." rest).
  rewrite (split_app "." k rest Hk). cbn [Config.descend].
  now destruct (entries !! k).
Qed.

Lemma slice_reference body : PyStr.slice_2_m1 (env_reference body) = body.
Proof.
  unfold PyStr.slice_2_m1, env_reference.
  change ("${" ++ body ++ "}") with (String "$" (String "{" (body ++ "}"))).
  cbn [String.length]. rewrite string_length_append. cbn [String.length].
  replace (S (S (String.length body + 1)) - 3)%nat with (String.length body) by lia.
  cbn [String.substring]. apply substring_app.
Qed.

Lemma reference_shape body :
  Py.startswith (env_reference body) "${" && Py.endswith (env_reference body) "}" = true.
Proof.
  unfold env_reference, Py.startswith. rewrite prefix_app.
  rewrite <- string_append_assoc. now rewrite endswith_app.
Qed.

(** What [get] returns for a key that holds a reference to the environment. *)
Lemma get_reference entries other k d body :
  PyStr.contains "." k = false ->
  entries !! k = Some (Config.YStr (env_reference body)) ->
  Config.get (Config.YDict entries other) environ k d
  = if PyStr.contains ":" body then
      Config.YStr (default (snd (PyStr.split_once ":" body))
                     (environ !! fst (PyStr.split_once ":" body)))
    else
      match environ !! body with
      | Some v => Config.YStr v
      | None => Config.YNull
      end.
Proof.
  intros Hk He. unfold Config.get. cbv zeta.
  rewrite (split_without "." k Hk). cbn [Config.descend]. rewrite He.
  rewrite reference_shape, slice_reference.
  destruct (PyStr.contains ":" body); [|reflexivity].
  destruct (PyStr.split_once ":" body) as [name fallback]. cbn [fst snd].
  now destruct (environ !! name).
Qed.

(** X25. [Config.get] follows a dotted key one mapping at a time and never
    raises: a key [k.rest] is looked up as [rest] in the mapping stored
    under [k], and the default comes back as soon as a component is missing
    or the value reached is not a mapping (a scalar, a list, the empty
    file). *)
Theorem config_get_follows_the_path :
  (forall entries other k rest d,
     PyStr.contains "." k = false ->
     Config.get (Config.YDict entries other) environ (k ++ "." ++ rest) d
     = match entries !! k with
       | Some inner => Config.get inner environ rest d
       | None => d
       end)
  /\ (forall entries other k d,
        PyStr.contains "." k = false -> entries !! k = None ->
        Config.get (Config.YDict entries other) environ k d = d)
  /\ (forall self key d,
        (forall entries other, self <> Config.YDict entries other) ->
        Config.get self environ key d = d).
Proof.
  split; [exact get_step|]. split.
  - intros entries other k d Hk He. unfold Config.get. cbv zeta.
    rewrite (split_without "." k Hk). cbn [Config.descend]. now rewrite He.
  - intros self key d Hself. unfold Config.get. cbv zeta.
    destruct (PyStr.split "." key) as [|k ks] eqn:Hsplit.
    + destruct key as [|a r]; [discriminate|]. cbn [PyStr.split] in Hsplit.
      destruct (Ascii.eqb a "."); [discriminate|].
      destruct (PyStr.split "." r); discriminate.
    + cbn [Config.descend]. destruct self; try reflexivity.
      now destruct (Hself entries other_keys).
Qed.

(** X26. A value written [${NAME}] or [${NAME:fallback}] is replaced by the
    environment, and the default given to [get] plays no part: [${NAME}]
    yields the variable, or [None] when it is not set, even if the caller
    passed a default; [${NAME:fallback}] yields the variable, or the
    fallback, which may itself contain colons. *)
Theorem config_get_reads_the_environment entries other k d body :
  PyStr.contains "." k = false ->
  entries !! k = Some (Config.YStr (env_reference body)) ->
  (PyStr.contains ":" body = false ->
   Config.get (Config.YDict entries other) environ k d
   = match environ !! body with
     | Some v => Config.YStr v
     | None => Config.YNull
     end)
  /\ (forall name fallback,
        body = name ++ ":" ++ fallback -> PyStr.contains ":" name = false ->
        Config.get (Config.YDict entries other) environ k d
        = Config.YStr (default fallback (environ !! name))).
Proof.
  intros Hk He. rewrite (get_reference entries other k d body Hk He). split.
  - now intros ->.
  - intros name fallback -> Hname.
    change (":" ++ fallback) with (String ":" fallback).
    rewrite contains_app. cbn [PyStr.contains]. rewrite Ascii.eqb_refl, orb_true_r.
    now rewrite (split_once_app ":" name fallback Hname).
Qed.

Lemma check_keys_outcome self keys :
  (Config.check_keys self environ keys = Return true
   /\ Forall (fun key => Config.truth (Config.get self environ key Config.YNull) = true)
        keys)
  \/ exists key,
       In key keys
       /\ Config.truth (Config.get self environ key Config.YNull) = false
       /\ Config.check_keys self environ keys
          = Raise ("Configuração obrigatória ausente: " ++ key).
Proof.
  induction keys as [|key rest IH]; [left; split; [reflexivity | constructor]|].
  cbn [Config.check_keys].
  destruct (Config.truth (Config.get self environ key Config.YNull)) eqn:Hkey;
    cbn [negb].
  - destruct IH as [[Hok Hall] | (k & Hin & Hk & Hraise)].
    + left. split; [exact Hok | now constructor].
    + right. exists k. split; [now right|]. now split.
  - right. exists key. split; [now left|]. now split.
Qed.

(** X27. [validate] accepts a configuration exactly when each of
    [postgresql.host], [postgresql.user], [postgresql.database] and
    [aws.bucket] resolves to a value that is true: a key that is present
    with an empty string, [0], [false], an empty mapping, or a reference to
    a variable that is not set, counts as absent.  Otherwise it raises,
    naming a required key whose value is false; it never returns [False].
    In particular a bucket written [${NAME}] with [NAME] unset fails the
    validation. *)
Theorem validate_needs_every_required_value self :
  (Config.validate self environ = Return true
   <-> forall key, In key Config.required_keys ->
                   Config.truth (Config.get self environ key Config.YNull) = true)
  /\ (Config.validate self environ = Return true
      \/ exists key,
           In key Config.required_keys
           /\ Config.truth (Config.get self environ key Config.YNull) = false
           /\ Config.validate self environ
              = Raise ("Configuração obrigatória ausente: " ++ key))
  /\ (forall top other aws other' name,
        self = Config.YDict top other ->
        top !! "aws" = Some (Config.YDict aws other') ->
        aws !! "bucket" = Some (Config.YStr (env_reference name)) ->
        PyStr.contains ":" name = false ->
        environ !! name = None ->
        exists e, Config.validate self environ = Raise e).
Proof.
  unfold Config.validate.
  destruct (check_keys_outcome self Config.required_keys)
    as [[Hok Hall] | (key & Hin & Hkey & Hraise)].
  - split; [|split].
    + split; [|intros _; exact Hok]. intros _ key Hin.
      rewrite Forall_forall in Hall. apply Hall. now apply list_elem_of_In.
    + now left.
    + intros top other aws other' name -> Haws Hbucket Hname Hunset. exfalso.
      rewrite Forall_forall in Hall.
      assert (Hb : Config.truth (Config.get (Config.YDict top other) environ
                                   "aws.bucket" Config.YNull) = true).
      { apply Hall. apply list_elem_of_In. cbn. tauto. }
      change "aws.bucket" with ("aws" ++ "." ++ "bucket") in Hb.
      rewrite get_step, Haws in Hb by reflexivity.
      rewrite (get_reference aws other' "bucket" Config.YNull name eq_refl Hbucket)
        in Hb.
      rewrite Hname, Hunset in Hb. discriminate.
  - split; [|split].
    + split; [intros H; congruence|]. intros Hall. rewrite (Hall key Hin) in Hkey.
      discriminate.
    + right. exists key. now split.
    + intros. eexists. exact Hraise.
Qed.

End ConfigFacts.

(** A bucket taken from the environment, with and without a fallback. *)
Lemma config_get_reads_the_environment_witness :
  Config.get (Config.YDict (<["bucket" := Config.YStr "${BACKUP_BUCKET}"]> ∅) false)
    ∅ "bucket" (Config.YStr "default-bucket")
  = Config.YNull.
Proof.
  destruct (config_get_reads_the_environment ∅
              (<["bucket" := Config.YStr "${BACKUP_BUCKET}"]> ∅) false "bucket"
              (Config.YStr "default-bucket") "BACKUP_BUCKET" eq_refl) as [H _].
  - vm_compute. reflexivity.
  - rewrite H by reflexivity. vm_compute. reflexivity.
Defined.
(** ** The size of the log file ([utils/logger.py]) *)

Lemma digit_code c :
  Py.between 48 57 c = true -> (48 <= Py.code c <= 57)%N.
Proof. apply between_iff. Qed.

Lemma digit_not_space c : Py.between 48 57 c = true -> Py.is_space c = false.
Proof.
  intros H. apply digit_code in H. unfold Py.is_space.
  apply orb_false_iff. rewrite !between_false_iff. lia.
Qed.

Lemma digit_upper c : Py.between 48 57 c = true -> Logger.upper_char c = c.
Proof.
  intros H. apply digit_code in H. unfold Logger.upper_char, Py.is_lower.
  assert (Hl : Py.between 97 122 c = false) by (apply between_false_iff; lia).
  now rewrite Hl.
Qed.

Lemma all_digits_rev s : forall acc,
  all_digits (Py.rev_string s acc) = all_digits s && all_digits acc.
Proof.
  induction s as [|c r IH]; intros acc; [reflexivity|].
  cbn [Py.rev_string all_digits]. rewrite IH. cbn [all_digits].
  now destruct (Py.between 48 57 c), (all_digits r), (all_digits acc).
Qed.

Lemma lstrip_digits s : all_digits s = true -> Py.lstrip s = s.
Proof.
  destruct s as [|c r]; [reflexivity|]. cbn. intros H.
  apply andb_true_iff in H as [Hc _]. now rewrite (digit_not_space c Hc).
Qed.

Lemma strip_digits s : all_digits s = true -> Py.strip s = s.
Proof.
  intros H. unfold Py.strip. rewrite (lstrip_digits s H).
  rewrite lstrip_digits; [apply rev_string_involutive|].
  now rewrite all_digits_rev, H.
Qed.

Lemma upper_digits s : all_digits s = true -> Logger.upper s = s.
Proof.
  induction s as [|c r IH]; [reflexivity|]. cbn. intros H.
  apply andb_true_iff in H as [Hc Hr]. now rewrite (digit_upper c Hc), (IH Hr).
Qed.

Lemma upper_app a b : Logger.upper (a ++ b) = Logger.upper a ++ Logger.upper b.
Proof.
  induction a as [|c r IH]; [reflexivity|]. rewrite append_cons. cbn [Logger.upper].
  now rewrite IH.
Qed.

Lemma dec_digits_decimal s : forall acc,
  all_digits s = true -> PyStr.dec_digits acc false s = Some (decimal acc s).
Proof.
  induction s as [|c r IH]; intros acc H; [reflexivity|].
  cbn in H. apply andb_true_iff in H as [Hc Hr].
  cbn [PyStr.dec_digits decimal]. unfold PyStr.dec_value. rewrite Hc.
  assert (Hus : Ascii.eqb c "_" = false).
  { apply digit_code in Hc. rewrite ascii_eqb_code. apply N.eqb_neq.
    change (Py.code "_") with 95%N. lia. }
  rewrite Hus. now apply IH.
Qed.

Lemma count_all_digits s : all_digits s = true -> PyStr.count_digits s = String.length s.
Proof.
  induction s as [|c r IH]; [reflexivity|]. cbn. intros H.
  apply andb_true_iff in H as [-> Hr]. now rewrite (IH Hr).
Qed.

(** [int()] of a string of digits. *)
Lemma int10_digits limit s :
  all_digits s = true -> s <> "" -> within_limit limit s ->
  PyStr.int10 limit s = Some (decimal 0 s).
Proof.
  intros H Hne Hlim. unfold PyStr.int10. rewrite (strip_digits s H).
  assert (Hin : Nat.eqb limit 0 || Nat.leb (PyStr.count_digits s) limit = true).
  { rewrite (count_all_digits s H). destruct Hlim as [-> | Hle]; [reflexivity|].
    apply orb_true_iff. right. now apply Nat.leb_le. }
  destruct s as [|c r]; [contradiction|].
  cbn in H. apply andb_true_iff in H as [Hc Hr].
  assert (Hcode := digit_code c Hc).
  assert (Hplus : c <> "+"%char /\ c <> "-"%char /\ Ascii.eqb c "_" = false).
  { repeat split.
    - intros ->. change (Py.code "+") with 43%N in Hcode. lia.
    - intros ->. change (Py.code "-") with 45%N in Hcode. lia.
    - rewrite ascii_eqb_code. apply N.eqb_neq. change (Py.code "_") with 95%N. lia. }
  destruct Hplus as (Hp & Hm & Hus).
  assert (Hnum : PyStr.dec_number (String c r) = Some (decimal 0 (String c r))).
  { unfold PyStr.dec_number. rewrite Hus. apply dec_digits_decimal. cbn.
    now rewrite Hc, Hr. }
  destruct c as [[] [] [] [] [] [] [] []];
    try (exfalso; apply Hp; reflexivity); try (exfalso; apply Hm; reflexivity);
    cbv zeta; rewrite Hin; exact Hnum.
Qed.

Lemma drop_last2_app a b :
  String.length b = 2%nat -> Logger.drop_last2 (a ++ b) = a.
Proof.
  intros Hb. unfold Logger.drop_last2. rewrite string_length_append, Hb.
  replace (String.length a + 2 - 2)%nat with (String.length a) by lia.
  apply substring_app.
Qed.

(** A string that ends in a digit ends in none of the units. *)
Lemma digits_no_unit s :
  all_digits s = true ->
  Py.endswith s "KB" = false /\ Py.endswith s "MB" = false
  /\ Py.endswith s "GB" = false.
Proof.
  intros H. unfold Py.endswith.
  assert (Hrev : all_digits (Py.rev_string s "") = true)
    by (now rewrite all_digits_rev, H).
  destruct (Py.rev_string s "") as [|c r]; [repeat split|].
  cbn [all_digits] in Hrev. apply andb_true_iff in Hrev as [Hc _].
  apply digit_code in Hc. cbn [Py.rev_string String.prefix].
  destruct (Ascii.ascii_dec "B" c) as [<- | Hne]; [|repeat split].
  change (Py.code "B") with 66%N in Hc. lia.
Qed.

Lemma no_space_rev s : forall acc,
  no_space (Py.rev_string s acc) = no_space s && no_space acc.
Proof.
  induction s as [|c r IH]; intros acc; [reflexivity|].
  cbn [Py.rev_string no_space]. rewrite IH. cbn [no_space].
  now destruct (Py.is_space c), (no_space r), (no_space acc).
Qed.

Lemma lstrip_no_space s : no_space s = true -> Py.lstrip s = s.
Proof.
  destruct s as [|c r]; [reflexivity|]. cbn. intros H.
  apply andb_true_iff in H as [Hc _]. apply negb_true_iff in Hc. now rewrite Hc.
Qed.

Lemma strip_no_space s : no_space s = true -> Py.strip s = s.
Proof.
  intros H. unfold Py.strip. rewrite (lstrip_no_space s H).
  rewrite lstrip_no_space; [apply rev_string_involutive|].
  now rewrite no_space_rev, H.
Qed.

Lemma no_space_app a b : no_space (a ++ b) = no_space a && no_space b.
Proof.
  induction a as [|c r IH]; [reflexivity|]. rewrite append_cons. cbn [no_space].
  now rewrite IH, andb_assoc.
Qed.

Lemma digits_no_space s : all_digits s = true -> no_space s = true.
Proof.
  induction s as [|c r IH]; [reflexivity|]. cbn. intros H.
  apply andb_true_iff in H as [Hc Hr]. now rewrite (digit_not_space c Hc), (IH Hr).
Qed.

(** Digits followed by a character that is neither a digit nor an
    underscore are not a number. *)
Lemma dec_digits_stops s c r : forall acc,
  all_digits s = true -> PyStr.dec_value c = None -> Ascii.eqb c "_" = false ->
  PyStr.dec_digits acc false (s ++ String c r) = None.
Proof.
  induction s as [|x s IH]; intros acc H Hc Hus.
  - change ("" ++ String c r) with (String c r). cbn [PyStr.dec_digits].
    now rewrite Hus, Hc.
  - cbn in H. apply andb_true_iff in H as [Hx Hs].
    rewrite append_cons. cbn [PyStr.dec_digits]. unfold PyStr.dec_value at 1.
    rewrite Hx.
    assert (Hxus : Ascii.eqb x "_" = false).
    { apply digit_code in Hx. rewrite ascii_eqb_code. apply N.eqb_neq.
      change (Py.code "_") with 95%N. lia. }
    rewrite Hxus. now apply IH.
Qed.

Lemma int10_bad_suffix limit s c r :
  all_digits s = true -> s <> "" ->
  PyStr.dec_value c = None -> Ascii.eqb c "_" = false ->
  no_space (String c r) = true ->
  PyStr.int10 limit (s ++ String c r) = None.
Proof.
  intros H Hne Hc Hus Hsp. unfold PyStr.int10.
  rewrite strip_no_space by (now rewrite no_space_app, (digits_no_space s H), Hsp).
  destruct s as [|x s]; [contradiction|].
  cbn in H. apply andb_true_iff in H as [Hx Hs].
  assert (Hcode := digit_code x Hx).
  assert (Hnum : PyStr.dec_number (String x s ++ String c r) = None).
  { rewrite append_cons. unfold PyStr.dec_number.
    assert (Hxus : Ascii.eqb x "_" = false).
    { rewrite ascii_eqb_code. apply N.eqb_neq. change (Py.code "_") with 95%N. lia. }
    rewrite Hxus. rewrite <- append_cons. apply dec_digits_stops; [|assumption..].
    cbn. now rewrite Hx, Hs. }
  assert (Hp : x <> "+"%char) by (intros ->; change (Py.code "+") with 43%N in Hcode; lia).
  assert (Hm : x <> "-"%char) by (intros ->; change (Py.code "-") with 45%N in Hcode; lia).
  rewrite append_cons in Hnum |- *.
  destruct x as [[] [] [] [] [] [] [] []];
    try (exfalso; apply Hp; reflexivity); try (exfalso; apply Hm; reflexivity);
    cbv zeta; rewrite Hnum; now destruct (_ || _).
Qed.

(** X28. [_parse_size] on a number written in decimal digits: alone it is a
    number of bytes, and followed by [KB], [MB] or [GB], in any mix of upper
    and lower case, it is multiplied by 1024, 1024^2 or 1024^3.  No other
    unit is known: followed by [B] or [TB] the number raises [ValueError],
    and so does a unit without a number. *)
Theorem parse_size_units limit digits :
  all_digits digits = true -> digits <> "" -> within_limit limit digits ->
  Logger._parse_size limit digits = Return (decimal 0 digits)
  /\ (forall unit factor,
        In (Logger.upper unit, factor)
          [("KB", 1024); ("MB", 1024 * 1024); ("GB", 1024 * 1024 * 1024)] ->
        Logger._parse_size limit (digits ++ unit) = Return (decimal 0 digits * factor))
  /\ (exists e, Logger._parse_size limit (digits ++ "B") = Raise e)
  /\ (exists e, Logger._parse_size limit (digits ++ "TB") = Raise e)
  /\ (exists e, Logger._parse_size limit "MB" = Raise e).
Proof.
  intros H Hne Hlim.
  pose proof (int10_digits limit digits H Hne Hlim) as Hint.
  pose proof (upper_digits digits H) as Hup.
  split; [|split; [|split; [|split]]].
  - unfold Logger._parse_size. cbv zeta. rewrite Hup.
    destruct (digits_no_unit digits H) as (-> & -> & ->).
    unfold Logger.scaled. rewrite Hint. now rewrite Z.mul_1_r.
  - intros unit factor Hunit. unfold Logger._parse_size. cbv zeta.
    rewrite upper_app, Hup.
    cbn [In] in Hunit.
    destruct Hunit as [[= Hu <-] | [[= Hu <-] | [[= Hu <-] | []]]]; rewrite <- Hu.
    + rewrite endswith_app, drop_last2_app by reflexivity.
      unfold Logger.scaled. now rewrite Hint.
    + assert (Hkb : Py.endswith (digits ++ "MB") "KB" = false).
      { unfold Py.endswith. now rewrite rev_string_app. }
      rewrite Hkb, endswith_app, drop_last2_app by reflexivity.
      unfold Logger.scaled. now rewrite Hint.
    + assert (Hkb : Py.endswith (digits ++ "GB") "KB" = false).
      { unfold Py.endswith. now rewrite rev_string_app. }
      assert (Hmb : Py.endswith (digits ++ "GB") "MB" = false).
      { unfold Py.endswith. now rewrite rev_string_app. }
      rewrite Hkb, Hmb, endswith_app, drop_last2_app by reflexivity.
      unfold Logger.scaled. now rewrite Hint.
  - unfold Logger._parse_size. cbv zeta. rewrite upper_app, Hup.
    change (Logger.upper "B") with "B".
    assert (Hno : Py.endswith (digits ++ "B") "KB" = false
                  /\ Py.endswith (digits ++ "B") "MB" = false
                  /\ Py.endswith (digits ++ "B") "GB" = false).
    { unfold Py.endswith. rewrite rev_string_app. cbn [Py.rev_string].
      assert (Hrev : all_digits (Py.rev_string digits "") = true)
        by (now rewrite all_digits_rev, H).
      destruct (Py.rev_string digits "") as [|c r]; [repeat split|].
      cbn [all_digits] in Hrev. apply andb_true_iff in Hrev as [Hc _].
      apply digit_code in Hc. cbn [String.prefix].
      destruct (Ascii.ascii_dec "B" "B"); [|contradiction].
      repeat split.
      - destruct (Ascii.ascii_dec "K" c) as [<- | _]; [|reflexivity].
        change (Py.code "K") with 75%N in Hc. lia.
      - destruct (Ascii.ascii_dec "M" c) as [<- | _]; [|reflexivity].
        change (Py.code "M") with 77%N in Hc. lia.
      - destruct (Ascii.ascii_dec "G" c) as [<- | _]; [|reflexivity].
        change (Py.code "G") with 71%N in Hc. lia. }
    destruct Hno as (-> & -> & ->). unfold Logger.scaled.
    rewrite (int10_bad_suffix limit digits "B" "" H Hne) by reflexivity.
    eexists; reflexivity.
  - unfold Logger._parse_size. cbv zeta. rewrite upper_app, Hup.
    change (Logger.upper "TB") with "TB".
    assert (Hno : Py.endswith (digits ++ "TB") "KB" = false
                  /\ Py.endswith (digits ++ "TB") "MB" = false
                  /\ Py.endswith (digits ++ "TB") "GB" = false).
    { unfold Py.endswith. rewrite rev_string_app. repeat split. }
    destruct Hno as (-> & -> & ->). unfold Logger.scaled.
    rewrite (int10_bad_suffix limit digits "T" "B" H Hne) by reflexivity.
    eexists; reflexivity.
  - unfold Logger._parse_size, Logger.scaled, PyStr.int10. cbn.
    destruct (_ || _); eexists; reflexivity.
Qed.
(** ** Encryption of files ([utils/crypto.py]) *)

Section EncryptionFacts.
Context {fernet : Fernet}.

(** X30. [encrypt_file] and [decrypt_file] form a round trip, and without
    the [cryptography] package they are a copy.  For an existing file and
    distinct paths, [encrypt_file] returns [True] and [decrypt_file] of its
    output under the same key returns [True] and writes the original
    bytes, with the package or without it.  Without the package the
    "encrypted" file holds the original bytes unchanged, and
    [decrypt_file] hands out whatever it is given, sealed or not, as a
    success. *)
Theorem encrypt_file_round_trip installed drawn input_path sealed output_path key
    data w :
  files w !! input_path = Some data ->
  input_path <> sealed -> sealed <> output_path ->
  exists w1 w2,
    Encryption.encrypt_file installed drawn input_path sealed key w = (Return true, w1)
    /\ Encryption.decrypt_file installed sealed output_path key w1 = (Return true, w2)
    /\ files w2 !! output_path = Some data
    /\ (installed = false -> files w1 !! sealed = Some data)
    /\ exists w3,
         Encryption.decrypt_file false sealed output_path key w1 = (Return true, w3)
         /\ files w3 !! output_path = files w1 !! sealed.
Proof.
  intros Hfile Hin Hout.
  apply String.eqb_neq in Hin, Hout.
  destruct installed; cbn [Encryption.encrypt_file Encryption.decrypt_file].
  - rewrite Hfile. do 2 eexists. split; [reflexivity|]. cbn [files set_files].
    rewrite lookup_insert_eq, decrypt_encrypt.
    split; [reflexivity|]. cbn [files set_files].
    split; [apply lookup_insert_eq|]. split; [discriminate|].
    unfold Encryption.copy2. rewrite Hout. cbn [files set_files].
    rewrite lookup_insert_eq. eexists. split; [reflexivity|].
    cbn [files set_files]. apply lookup_insert_eq.
  - unfold Encryption.copy2. rewrite Hin, Hfile.
    do 2 eexists. split; [reflexivity|]. cbn [files set_files].
    rewrite Hout, lookup_insert_eq. split; [reflexivity|]. cbn [files set_files].
    split; [apply lookup_insert_eq|]. split; [reflexivity|].
    eexists. split; [reflexivity|]. cbn [files set_files]. apply lookup_insert_eq.
Qed.

End EncryptionFacts.

(** The segment on disk, sealed without the package: the copy is in clear. *)
Lemma encrypt_file_round_trip_witness :
  exists w1 w2,
    Encryption.encrypt_file (fernet := key_prefix) false [] segment_a_path
      "/tmp/sealed" [Byte.x2a] segment_on_disk
    = (Return true, w1)
    /\ Encryption.decrypt_file (fernet := key_prefix) false "/tmp/sealed" "/tmp/opened"
         [Byte.x2a] w1
       = (Return true, w2)
    /\ files w2 !! "/tmp/opened" = Some segment_bytes
    /\ files w1 !! "/tmp/sealed" = Some segment_bytes.
Proof.
  destruct (encrypt_file_round_trip (fernet := key_prefix) false [] segment_a_path
              "/tmp/sealed" "/tmp/opened" [Byte.x2a] segment_bytes segment_on_disk
              eq_refl ltac:(discriminate) ltac:(discriminate))
    as (w1 & w2 & H1 & H2 & Hopened & Hclear & _).
  exists w1, w2. repeat split; try assumption. now apply Hclear.
Defined.
(** ** The properties at concrete inputs *)

(** A clean upload of the segment on disk: the object under the segment's
    key carries the bytes, their check sum and the default encryption. *)
Lemma upload_file_stored_object_witness :
  exists obj,
    bucket (snd (upload_file (sha256 := sum8) demo_s3 (clean_transfer segment_bytes)
                   segment_a_path "incremental" None segment_on_disk))
      !! segment_a_key = Some obj
    /\ body obj = segment_bytes
    /\ Metadata obj !! "checksum" = Some "06"
    /\ ServerSideEncryption obj = Some "AES256".
Proof.
  destruct (upload_file_stored_object (sha256 := sum8) demo_s3
              (clean_transfer segment_bytes) segment_a_path "incremental" None
              segment_on_disk segment_bytes segment_bytes eq_refl eq_refl)
    as (obj & Hb & Hbody & Hsum & _ & _ & Hsse & _).
  exists obj. split; [exact Hb|]. split; [exact Hbody|]. split; [exact Hsum|].
  apply Hsse. right. reflexivity.
Defined.

(** The segment uploaded and downloaded again. *)
Lemma uploaded_file_downloads_witness :
  exists content received msg w2,
    files segment_on_disk !! segment_a_path = Some content
    /\ download_file (sha256 := sum8) demo_s3 (clean_transfer segment_bytes)
         segment_a_key "/restore/segment.gz"
         (snd (upload_file (sha256 := sum8) demo_s3 (clean_transfer segment_bytes)
                 segment_a_path "incremental" None segment_on_disk))
       = (Return (true, msg), w2)
    /\ files w2 !! "/restore/segment.gz" = Some received
    /\ sum8_hex received = sum8_hex content.
Proof.
  apply (uploaded_file_downloads (sha256 := sum8) demo_s3 (clean_transfer segment_bytes)
           segment_a_path "incremental" None segment_on_disk segment_a_key
           (snd (upload_file (sha256 := sum8) demo_s3 (clean_transfer segment_bytes)
                   segment_a_path "incremental" None segment_on_disk))
           (clean_transfer segment_bytes) "/restore/segment.gz").
  - vm_compute. reflexivity.
  - reflexivity.
  - reflexivity.
Defined.

(** An archive directory with two segments under the names PostgreSQL gives
    them, one of them compressed: nothing is selected. *)
Lemma get_wal_files_skips_segment_names_witness :
  exists w',
    BackupEngine._get_wal_files demo_engine
      (Entries [("000000010000000000000001", true);
                ("000000010000000000000002.gz", true)]) empty_world
    = (Return [], w').
Proof.
  apply get_wal_files_skips_segment_names.
  repeat constructor.
  - exists "000000010000000000000001". split; [split; reflexivity | left; reflexivity].
  - exists "000000010000000000000002". split; [split; reflexivity | right; reflexivity].
Defined.

(** The restore of a backup that is still [running] is refused. *)
Lemma restore_refuses_unusable_backup_witness :
  exists w',
    RestoreEngine.restore_backup (sha256 := sum8) demo_restore_engine (restore_run [])
      (Some "b1") None None after_create
    = (Return (false, "Backup " ++ "b1" ++ " não está concluído"), w')
    /\ procs w' = procs after_create
    /\ bucket w' = bucket after_create
    /\ backups (ledger w') = backups (ledger after_create)
    /\ map restore_operations.restore_id (restores (ledger w'))
       = map restore_operations.restore_id (restores (ledger after_create)).
Proof.
  apply (restore_refuses_unusable_backup (sha256 := sum8) demo_restore_engine
           (restore_run []) "b1" None None after_create).
  - discriminate.
  - exact I.
  - vm_compute. discriminate.
Defined.

(** One rule for the retention of full backups. *)
Lemma policy_rules_apply_in_order_witness :
  CliOptions.parse_policy 4300 ∅ (Some ("full_days" ++ "=" ++ "10"))
  = Return (<["full_days" := 10]> ∅).
Proof.
  exact (proj1 (policy_rules_apply_in_order 4300) ∅ "full_days" "10" 10
           eq_refl eq_refl eq_refl eq_refl).
Defined.

(** A hundred megabytes, in lower case. *)
Lemma parse_size_units_witness :
  Logger._parse_size 4300 ("100" ++ "mb") = Return (100 * (1024 * 1024)).
Proof.
  apply (proj1 (proj2 (parse_size_units 4300 "100" eq_refl ltac:(discriminate)
                         ltac:(right; cbn; lia)))).
  right. left. reflexivity.
Defined.

